(** * gForms: type inference and model synthesis of [gforms.py]

    A shallow embedding of the model-synthesis core of [gforms.py]: the two
    name-keyed class registries, the inference of a trait and an editable
    instance from an arbitrary value ([get_or_create_trait_for] and the
    functions it calls), the constructors of [ClassModel], [ListClassModel]
    and [GenericTrait], template selection, and the conversion back
    ([get_object], [cast_back]).

    Conventions.
    - Python dictionaries whose iteration order is observable ([vars(obj)],
      keyword arguments, [_templates] entries) are association lists in
      iteration order; the two registries, which are only read by key and
      written by key, are [gmap string].
    - Class objects are mutable (their class traits are replaced by
      [set_init]) and have an identity, so they live in a class heap
      indexed by [cid]; a class reference carries the [__name__] too.
    - Every function that can raise returns a [result]; the interpreter
      state (registries, class heap, log stream) survives an exception, as
      it does in Python.
    - Recursion over nested values is bounded by a fuel argument;
      [OutOfFuel] is not a Python exception and no handler catches it.
    - The value universe is [None], [bool], [int], [str], lists,
      dictionaries with string keys, plain objects with a [__dict__],
      opaque objects without one, and the three kinds of model instance.
      Attribute names of inputs are assumed not to collide with the method
      names of [HasTraits].  What the Traits library does when a candidate
      value is checked against a trait is the one operation of the class
      [TraitsRuntime]; [traits_validate] is the instance used to run the
      code on concrete inputs. *)

From Stdlib Require Import ZArith String Ascii List Bool Lia DecimalString
  DecimalNat.
From stdpp Require Import base gmap strings list.

Set Warnings "-register-all".

(** ** Python classes and types *)

(** A class defined outside gForms.  [py_noarg_init] tells whether the class
    can be called without arguments ([cast_to()] in [cast_back]). *)
Record pyclass := PyClass { py_name : string; py_noarg_init : bool }.

(** A reference to a class object of the class heap: a subclass of
    [ClassModel] or of [ListClassModel], created dynamically or by hand. *)
Record cref := CRef { cid : nat; cname : string }.

(** What [_type_func] can return. *)
Inductive pytype :=
| py_NoneType
| py_bool
| py_int
| py_str
| py_list
| py_dict
| py_TraitListObject
| py_user (c : pyclass)
| py_GenericTrait
| py_model (c : cref).

(** Duck-typed [__name__] of a class object. *)
Class HasName (A : Type) := __name__ : A -> string.

#[global] Instance pyclass_name : HasName pyclass := py_name.
#[global] Instance cref_name : HasName cref := cname.
#[global] Instance pytype_name : HasName pytype := fun t =>
  match t with
  | py_NoneType => "NoneType"
  | py_bool => "bool"
  | py_int => "int"
  | py_str => "str"
  | py_list => "list"
  | py_dict => "dict"
  | py_TraitListObject => "TraitListObject"
  | py_user c => py_name c
  | py_GenericTrait => "GenericTrait"
  | py_model c => cname c
  end.

(** ** Traits *)

(** The class an [Instance] trait points to. *)
Inductive klass :=
| K_GenericTrait
| K_ListClassModel
| K_class (c : cref).

(** The inner type of a [ListClassModel]: [Any] or a model class. *)
Inductive inner_t :=
| InnerAny
| InnerClass (c : cref).

(** Trait types used by the module.  [T_Type t] is a Python type used as the
    item trait of [List(t, ...)]; [T_Instance k args] is [Instance(k)]
    ([args = false]) or [Instance(k, ())] ([args = true]). *)
Inductive trait :=
| T_Bool
| T_Int
| T_CStr
| T_Generic
| T_Any
| T_Dict
| T_Type (t : pytype)
| T_List (item : trait)
| T_Instance (k : klass) (args : bool)
| T_Enum (values : list string).

(** A class or instance trait with the one piece of metadata the module
    reads, [private]. *)
Record ctrait := CTrait { trait_type : trait; private : bool }.

(** [ListOfStr = List(str, editor=ListStrEditor(...))] *)
Definition ListOfStr : trait := T_List (T_Type py_str).

(** ** Values *)

Inductive value :=
| VNone
| VBool (b : bool)
| VInt (z : Z)
| VStr (s : string)
| VList (xs : list value)
| VTraitList (xs : list value)
| VDict (items : list (string * value))
| VObj (c : pyclass) (dict : list (string * value))
| VOpaque (c : pyclass)
| VClassModel (c : cref) (orig_obj : option value)
              (dict : list (string * value))
| VListClassModel (c : cref) (inner_type : inner_t)
                  (orig_class : option pytype) (matrix : list value)
| VGenericTrait (is_list is_dict : bool) (orig_obj : option value)
                (traits : list (string * ctrait))
                (dict : list (string * value)).

Abbreviation pydict := (list (string * value)).

(** ** Dictionaries in iteration order *)

Fixpoint dict_get {A} (d : list (string * A)) (k : string) : option A :=
  match d with
  | [] => None
  | (k', v) :: d' => if String.eqb k' k then Some v else dict_get d' k
  end.

(** [d[k] = v]: replaces the value of an existing key in place, else adds
    the key at the end. *)
Fixpoint dict_set {A} (d : list (string * A)) (k : string) (v : A)
  : list (string * A) :=
  match d with
  | [] => [(k, v)]
  | (k', v') :: d' =>
      if String.eqb k' k then (k, v) :: d' else (k', v') :: dict_set d' k v
  end.

Fixpoint dict_del {A} (d : list (string * A)) (k : string)
  : list (string * A) :=
  match d with
  | [] => []
  | (k', v') :: d' =>
      if String.eqb k' k then dict_del d' k else (k', v') :: dict_del d' k
  end.

(** [d.update(e)] *)
Definition dict_update {A} (d e : list (string * A)) : list (string * A) :=
  fold_left (fun acc kv => dict_set acc (fst kv) (snd kv)) e d.

Definition dict_keys {A} (d : list (string * A)) : list string := map fst d.

(** ** Strings *)

(** [str(i)] for a non-negative integer *)
Definition str_nat (n : nat) : string :=
  NilEmpty.string_of_uint (Nat.to_uint n).

(** [str(z)] for an integer *)
Definition str_Z (z : Z) : string := NilZero.string_of_int (Z.to_int z).

(** [key.startswith('_')] *)
Definition startswith_underscore (key : string) : bool :=
  match key with
  | String c _ => Ascii.eqb c "_"%char
  | EmptyString => false
  end.

(** [sorted] on strings: Python 2 compares [str] byte by byte. *)
Fixpoint insert_sorted (k : string) (l : list string) : list string :=
  match l with
  | [] => [k]
  | k' :: l' =>
      if String.leb k k' then k :: l else k' :: insert_sorted k l'
  end.

Definition sorted (l : list string) : list string :=
  fold_right insert_sorted [] l.

(** [enumerate] *)
Fixpoint enumerate_from {A} (i : nat) (l : list A) : list (nat * A) :=
  match l with
  | [] => []
  | x :: l' => (i, x) :: enumerate_from (S i) l'
  end.

Definition enumerate {A} (l : list A) : list (nat * A) := enumerate_from 0 l.

(** The characters of a string, each a string of length one. *)
Fixpoint chars (s : string) : list value :=
  match s with
  | EmptyString => []
  | String c s' => VStr (String c EmptyString) :: chars s'
  end.

(** ** Exceptions and results *)

Inductive exn :=
| TraitError (why : string)
| TypeError (why : string)
| AttributeError (why : string)
| KeyError (key : string)
| OutOfFuel.

Inductive result (A : Type) :=
| OK (a : A)
| Raise (e : exn).

Arguments OK {A} a.
Arguments Raise {A} e.

(** ** Class objects *)

(** A subclass of [ClassModel] proper, or a subclass of [ListClassModel].
    For a list class, [lc_init_inner] is the [trait_t] its [__init__] passes
    on ([innerClass] for the classes of [_create_ListClass], nothing for a
    hand-written subclass), [lc_inner_type] and [lc_orig_class] are the class
    attributes [_inner_type] and [_orig_class]. *)
Inductive class_kind :=
| ModelClass
| ListClass (lc_init_inner : option inner_t) (lc_inner_type : option inner_t)
            (lc_orig_class : option pytype).

Record class_rec := ClassRec {
  c_name : string;
  c_kind : class_kind;
  c_traits : list (string * ctrait);
  c_templates : list (string * pydict) }.

(** The class traits every subclass of [ClassModel] inherits (lines 166-168;
    [__orig_obj] is name-mangled). *)
Definition ClassModel_traits : list (string * ctrait) :=
  [ ("_ClassModel__orig_obj", CTrait T_Any true);
    ("_templates", CTrait T_Dict true);
    ("Templates", CTrait T_Any true) ].

(** The traits declared by [GenericTrait] (lines 361-363). *)
Definition GenericTrait_traits : list (string * ctrait) :=
  [ ("_GenericTrait__orig_obj", CTrait T_Any true);
    ("_GenericTrait__is_list", CTrait T_Bool true);
    ("_GenericTrait__is_dict", CTrait T_Bool true) ].

(** ** Logging *)

Module LOG_LEVEL.
Definition DEBUG := 4.
Definition MORE_INFO := 3.
Definition INFO := 2.
Definition WARN := 1.
Definition ERROR := 0.
End LOG_LEVEL.

(** What a log line says.  The text built from [str(val)] and [str(e)] is
    kept as the data it is built from. *)
Inductive log_msg :=
| msg_text (s : string)
| msg_could_not_create_trait (key : string) (e : exn)
| msg_exception (e : exn)
| msg_no_noarg_constructor (cast_to : pytype).

Record log_line := LogLine {
  ll_level : nat;
  ll_depth : nat;
  ll_msg : log_msg }.

(** [_logging.loglevel = 1] *)
Definition loglevel : nat := 1.

(** ** Interpreter state *)

Record state := State {
  _api_types_to_trait : gmap string cref;
  __dynamically_created_classes : gmap string cref;
  heap : list class_rec;
  stream : list log_line;
  depth : nat }.

(** Module state after import: both registries empty. *)
Definition initial_state : state :=
  {| _api_types_to_trait := ∅;
     __dynamically_created_classes := ∅;
     heap := [];
     stream := [];
     depth := 0 |}.

(** ** The state-and-exception monad *)

Definition M (A : Type) : Type := state -> result A * state.

Definition ret {A} (a : A) : M A := fun st => (OK a, st).

Definition raise {A} (e : exn) : M A := fun st => (Raise e, st).

Definition bind {A B} (m : M A) (k : A -> M B) : M B := fun st =>
  match m st with
  | (OK a, st') => k a st'
  | (Raise e, st') => (Raise e, st')
  end.

Notation "'let*' x ':=' m 'in' k" := (bind m (fun x => k))
  (at level 10, x pattern, m at level 100, k at level 200).
Notation "m ';;' k" := (bind m (fun _ => k))
  (at level 100, k at level 200, right associativity).

(** [try: m except <catches>: h].  Fuel exhaustion is never caught. *)
Definition try_except {A} (m : M A) (catches : exn -> bool) (h : exn -> M A)
  : M A := fun st =>
  match m st with
  | (OK a, st') => (OK a, st')
  | (Raise e, st') => if catches e then h e st' else (Raise e, st')
  end.

Definition is_TraitError (e : exn) : bool :=
  match e with TraitError _ => true | _ => false end.

(** [except Exception] and the bare [except:] *)
Definition is_Exception (e : exn) : bool :=
  match e with OutOfFuel => false | _ => true end.

Definition lift {A} (r : result A) : M A := fun st => (r, st).

Definition get_state : M state := fun st => (OK st, st).

(** A for loop threading an accumulator. *)
Fixpoint for_each {A B} (l : list A) (acc : B) (body : B -> A -> M B) : M B :=
  match l with
  | [] => ret acc
  | x :: l' => let* acc' := body acc x in for_each l' acc' body
  end.

(** [log(level, *message)] *)
Definition log (level : nat) (msg : log_msg) : M unit := fun st =>
  if level <=? loglevel then
    (OK tt, {| _api_types_to_trait := _api_types_to_trait st;
               __dynamically_created_classes := __dynamically_created_classes st;
               heap := heap st;
               stream := stream st ++ [LogLine level (depth st) msg];
               depth := depth st |})
  else (OK tt, st).

Definition set_depth (f : nat -> nat) : M unit := fun st =>
  (OK tt, {| _api_types_to_trait := _api_types_to_trait st;
             __dynamically_created_classes := __dynamically_created_classes st;
             heap := heap st;
             stream := stream st;
             depth := f (depth st) |}).

(** [type(name, bases, dict)]: a new class object. *)
Definition new_class (r : class_rec) : M cref := fun st =>
  (OK (CRef (length (heap st)) (c_name r)),
   {| _api_types_to_trait := _api_types_to_trait st;
      __dynamically_created_classes := __dynamically_created_classes st;
      heap := heap st ++ [r];
      stream := stream st;
      depth := depth st |}).

Definition class_of (c : cref) : M class_rec := fun st =>
  match heap st !! cid c with
  | Some r => (OK r, st)
  | None => (Raise (TypeError "not a class"), st)
  end.

Definition set_class_traits (c : cref) (f : list (string * ctrait) ->
                                           list (string * ctrait)) : M unit :=
  fun st =>
  (OK tt,
   {| _api_types_to_trait := _api_types_to_trait st;
      __dynamically_created_classes := __dynamically_created_classes st;
      heap := alter (fun r => {| c_name := c_name r; c_kind := c_kind r;
                                 c_traits := f (c_traits r);
                                 c_templates := c_templates r |})
                    (cid c) (heap st);
      stream := stream st;
      depth := depth st |}).

Definition set_dynamically_created_classes
  (f : gmap string cref -> gmap string cref) : M unit := fun st =>
  (OK tt,
   {| _api_types_to_trait := _api_types_to_trait st;
      __dynamically_created_classes := f (__dynamically_created_classes st);
      heap := heap st;
      stream := stream st;
      depth := depth st |}).

Definition set_api_types_to_trait
  (f : gmap string cref -> gmap string cref) : M unit := fun st =>
  (OK tt,
   {| _api_types_to_trait := f (_api_types_to_trait st);
      __dynamically_created_classes := __dynamically_created_classes st;
      heap := heap st;
      stream := stream st;
      depth := depth st |}).

(** ** Auxiliary functions (lines 781-802) *)

#[global] Instance pyclass_eq_dec : EqDecision pyclass.
Proof. solve_decision. Defined.

#[global] Instance cref_eq_dec : EqDecision cref.
Proof. solve_decision. Defined.

#[global] Instance pytype_eq_dec : EqDecision pytype.
Proof. solve_decision. Defined.

(** [obj.__class__] *)
Definition _type_func (obj : value) : pytype :=
  match obj with
  | VNone => py_NoneType
  | VBool _ => py_bool
  | VInt _ => py_int
  | VStr _ => py_str
  | VList _ => py_list
  | VTraitList _ => py_TraitListObject
  | VDict _ => py_dict
  | VObj c _ => py_user c
  | VOpaque c => py_user c
  | VClassModel c _ _ => py_model c
  | VListClassModel c _ _ _ => py_model c
  | VGenericTrait _ _ _ _ _ => py_GenericTrait
  end.

(** [obj is None] *)
Definition is_None (obj : value) : bool :=
  match obj with VNone => true | _ => false end.

(** [hasattr(obj, "__add__") and hasattr(obj, "__len__")]: lists and
    strings.  A dictionary has no [__add__]; a number and a
    [ListClassModel] have no [__len__]. *)
Definition _is_list (obj : value) : bool :=
  match obj with
  | VList _ | VTraitList _ | VStr _ => true
  | _ => false
  end.

(** [len(obj)] and [iter(obj)] of a list-like value *)
Definition elements (obj : value) : list value :=
  match obj with
  | VList xs | VTraitList xs => xs
  | VStr s => chars s
  | _ => []
  end.

(** [vars(obj)]: the [__dict__] of the object, [TypeError] without one. *)
Definition vars (obj : value) : result pydict :=
  match obj with
  | VObj _ d => OK d
  | VClassModel _ _ d => OK d
  | VGenericTrait _ _ _ _ d => OK d
  | VListClassModel _ _ _ _ => OK []
  | _ => Raise (TypeError "vars() argument must have __dict__ attribute")
  end.

(** [obj.items()] / [obj.iteritems()]: dictionaries only. *)
Definition items (obj : value) : result pydict :=
  match obj with
  | VDict d => OK d
  | _ => Raise (AttributeError "object has no attribute 'items'")
  end.

Definition isinstance_HasTraits (obj : value) : bool :=
  match obj with
  | VClassModel _ _ _ | VListClassModel _ _ _ _ | VGenericTrait _ _ _ _ _ =>
      true
  | _ => false
  end.

Definition isinstance_ClassModel (obj : value) : bool :=
  match obj with
  | VClassModel _ _ _ | VListClassModel _ _ _ _ => true
  | _ => false
  end.

(** [isinstance(obj, k)] for a class [k] of the class heap *)
Definition isinstance_class (obj : value) (k : cref) : bool :=
  match obj with
  | VClassModel c _ _ | VListClassModel c _ _ _ => bool_decide (cid c = cid k)
  | _ => false
  end.

Definition isinstance_klass (obj : value) (k : klass) : bool :=
  match k with
  | K_GenericTrait =>
      match obj with VGenericTrait _ _ _ _ _ => true | _ => false end
  | K_ListClassModel =>
      match obj with VListClassModel _ _ _ _ => true | _ => false end
  | K_class c => isinstance_class obj c
  end.

(** The class of a model instance, as [Instance(obj, ())] resolves it. *)
Definition klass_of (obj : value) : klass :=
  match obj with
  | VClassModel c _ _ | VListClassModel c _ _ _ => K_class c
  | _ => K_GenericTrait
  end.

(** ** Base types (lines 504-534), restricted to the value universe *)

Definition _base_types_to_trait : list (pytype * trait) :=
  [ (py_bool, T_Bool);
    (py_int, T_Int);
    (py_str, T_CStr);
    (py_NoneType, T_Generic) ].

(** [bool] is a subclass of [int]. *)
Definition issubclass (t k : pytype) : bool :=
  bool_decide (t = k) ||
  match t, k with py_bool, py_int => true | _, _ => false end.

(** [BaseTypes.__contains__] *)
Definition BaseTypes_contains (dic : list (pytype * trait)) (val : pytype)
  : bool :=
  existsb (fun t => issubclass val t) (map fst dic).

(** [BaseTypes.__getitem__] *)
Fixpoint BaseTypes_getitem (dic : list (pytype * trait)) (key : pytype)
  : option trait :=
  match dic with
  | [] => None
  | (k, v) :: dic' =>
      if issubclass key k then Some v else BaseTypes_getitem dic' key
  end.

Definition in_registered_base_types (t : pytype) : bool :=
  BaseTypes_contains _base_types_to_trait t.

Definition registered_base_type (t : pytype) : option trait :=
  BaseTypes_getitem _base_types_to_trait t.

(** ** The Traits library *)

(** [TraitType.validate]: the accepted (possibly coerced) value, or nothing
    when the library raises [TraitError]. *)
Class TraitsRuntime := { validate : trait -> value -> option value }.

(** [str(v)] as [CStr] coerces.  The text Python prints for a container or
    an object depends on addresses and pretty-printing; it is kept as one
    fixed text. *)
Definition str_of_value (v : value) : string :=
  match v with
  | VNone => "None"
  | VBool true => "True"
  | VBool false => "False"
  | VInt z => str_Z z
  | VStr s => s
  | _ => "<repr>"
  end.

Fixpoint validate_all (f : value -> option value) (xs : list value)
  : option (list value) :=
  match xs with
  | [] => Some []
  | x :: xs' =>
      match f x, validate_all f xs' with
      | Some y, Some ys => Some (y :: ys)
      | _, _ => None
      end
  end.

(** Validation as Traits 4 performs it for the traits of the module:
    [Any] and [Generic] accept every value; [Bool] accepts a [bool]; [Int]
    accepts an [int], and a [bool], which is one; [CStr] coerces with
    [str]; [Dict] accepts a dictionary; a Python type used as a trait
    accepts its instances; [List] accepts a list all of whose items validate
    against the item trait, and stores a [TraitListObject]; [Instance]
    accepts [None] and the instances of its class; [Enum] accepts its
    values. *)
Fixpoint traits_validate (t : trait) (v : value) : option value :=
  match t with
  | T_Any | T_Generic => Some v
  | T_Bool => match v with VBool _ => Some v | _ => None end
  | T_Int => match v with VInt _ | VBool _ => Some v | _ => None end
  | T_CStr => Some (VStr (str_of_value v))
  | T_Dict => match v with VDict _ => Some v | _ => None end
  | T_Type ty => if issubclass (_type_func v) ty then Some v else None
  | T_List item =>
      match v with
      | VList xs | VTraitList xs =>
          match validate_all (traits_validate item) xs with
          | Some ys => Some (VTraitList ys)
          | None => None
          end
      | _ => None
      end
  | T_Instance k _ =>
      match v with
      | VNone => Some VNone
      | _ => if isinstance_klass v k then Some v else None
      end
  | T_Enum values =>
      match v with
      | VStr s => if existsb (String.eqb s) values then Some v else None
      | _ => None
      end
  end.

#[global] Instance traits_runtime : TraitsRuntime :=
  {| validate := traits_validate |}.

(** ** HasTraits operations, in terms of [validate] *)

Section Synthesis.
Context {RT : TraitsRuntime}.

(** The trait that governs attribute [name]: a declared trait, else the
    wildcard of [HasTraits], which accepts any value. *)
Definition trait_of (traits : list (string * ctrait)) (name : string)
  : trait :=
  match dict_get traits name with
  | Some ct => trait_type ct
  | None => T_Any
  end.

(** [HasTraits.validate_trait(name, value)] *)
Definition validate_trait (traits : list (string * ctrait)) (name : string)
  (val : value) : result value :=
  match validate (trait_of traits name) val with
  | Some x => OK x
  | None => Raise (TraitError "the value does not validate against the trait")
  end.

(** [HasTraits.trait_set] on keyword arguments [kw]:
    [setattr(self, name, value)] for each item in turn.  The dictionary of the instance is returned as it is when the
    call ends, also when an assignment raises. *)
Fixpoint trait_set (traits : list (string * ctrait)) (d kw : pydict)
  : result unit * pydict :=
  match kw with
  | [] => (OK tt, d)
  | (name, val) :: kw' =>
      match validate_trait traits name val with
      | OK x => trait_set traits (dict_set d name x) kw'
      | Raise e => (Raise e, d)
      end
  end.

(** The [Templates] instance trait that [ClassModel.__init__] adds when the
    class declares templates (line 177). *)
Definition Templates_trait (r : class_rec) : list (string * ctrait) :=
  match c_templates r with
  | [] => []
  | _ => [("Templates", CTrait (T_Enum ("" :: dict_keys (c_templates r))) true)]
  end.

(** The traits of an instance of class [r]: instance traits shadow class
    traits. *)
Definition traits_of_instance (r : class_rec) : list (string * ctrait) :=
  Templates_trait r ++ c_traits r.

(** [cls.add_class_trait(name, trait)] *)
Definition add_class_trait (c : cref) (name : string) (t : trait) : M unit :=
  let* r := class_of c in
  match dict_get (c_traits r) name with
  | Some _ => raise (TraitError "The trait is already defined.")
  | None => set_class_traits c (fun ts => ts ++ [(name, CTrait t false)])
  end.

(** The item trait of [_matrix] (line 312). *)
Definition t_edit (trait_t : inner_t) : trait :=
  match trait_t with
  | InnerAny => T_Any
  | InnerClass c => T_Instance (K_class c) true
  end.

(** ** Registries (lines 541-607 and 768-771) *)

Definition _getClassListOf {A} `{HasName A} (innerClass : A)
  : M (option cref) :=
  let name := "ListOf" +:+ __name__ innerClass in
  let* st := get_state in
  ret (__dynamically_created_classes st !! name).

Definition _setClassListOf {A} `{HasName A} (innerClass : A)
  (new_class : cref) : M unit :=
  let name := "ListOf" +:+ __name__ innerClass in
  set_dynamically_created_classes (fun m => <[name := new_class]> m).

(** The class traits of a subclass of [ListClassModel] (lines 288-289). *)
Definition ListClassModel_traits : list (string * ctrait) :=
  ClassModel_traits ++
  [ ("_inner_type", CTrait T_Any true); ("_orig_class", CTrait T_Any true) ].

Definition _create_ListClass (name : string) (innerClass : cref)
  (orig_class : option pytype) : M cref :=
  log LOG_LEVEL.DEBUG (msg_text "   > Creating dynamic ListClass") ;;
  let* listClass :=
    new_class {| c_name := name;
                 c_kind := ListClass (Some (InnerClass innerClass)) None
                                     orig_class;
                 c_traits := ListClassModel_traits;
                 c_templates := [] |} in
  set_dynamically_created_classes (fun m => <[name := listClass]> m) ;;
  ret listClass.

Definition _get_or_create_ClassListOf (innerClass : cref)
  (orig_class : option pytype) : M cref :=
  let name := "ListOf" +:+ __name__ innerClass in
  let* st := get_state in
  match __dynamically_created_classes st !! name with
  | Some c => ret c
  | None => _create_ListClass name innerClass orig_class
  end.

Definition get_obj_t (obj_t : pytype) : M (option cref) :=
  let cls_name := __name__ obj_t in
  let* st := get_state in
  ret (match _api_types_to_trait st !! cls_name with
       | Some c => Some c
       | None => __dynamically_created_classes st !! cls_name
       end).

(** [_api_types_to_trait.update(types)] *)
Definition register_api_type_handler (types : list (string * cref))
  : M unit :=
  set_api_types_to_trait
    (fun m => fold_left (fun m kv => <[fst kv := snd kv]> m) types m).

(** ** ListClassModel: container methods (lines 337-341) *)

(** [TraitListObject.append]: the item is validated against the item trait
    of the list. *)
Definition ListClassModel_append (self : value) (obj : value)
  : result unit * value :=
  match self with
  | VListClassModel c trait_t orig_class _matrix =>
      match validate (t_edit trait_t) obj with
      | Some x =>
          (OK tt, VListClassModel c trait_t orig_class (_matrix ++ [x]))
      | None =>
          (Raise (TraitError "the item does not validate against the list"),
           self)
      end
  | _ => (Raise (AttributeError "append"), self)
  end.

(** What [len] and iteration see of an operand of [+=]. *)
Definition sized_elements (other : value) : option (list value) :=
  match other with
  | VList xs | VTraitList xs => Some xs
  | VStr s => Some (chars s)
  | VDict d => Some (map VStr (dict_keys d))
  | _ => None
  end.

(** [self._matrix += other]; the method has no [return], so the call
    evaluates to [None]. *)
Definition ListClassModel___add__ (self : value) (other : value)
  : result value * value :=
  match self with
  | VListClassModel c trait_t orig_class _matrix =>
      match sized_elements other with
      | None =>
          (Raise (TypeError "list.extend() argument must be iterable"), self)
      | Some xs =>
          match validate_all (validate (t_edit trait_t)) xs with
          | Some ys =>
              (OK VNone, VListClassModel c trait_t orig_class (_matrix ++ ys))
          | None =>
              (Raise (TraitError "the items do not validate against the list"),
               self)
          end
      end
  | _ => (Raise (AttributeError "__add__"), self)
  end.

(** ** Inference and construction (lines 171-244, 292-323, 366-415, 556-577,
       617-740)

    The functions below call each other through [get_or_create_trait_for]
    and through the call of a class object; these two are the recursion
    points, tied further down. *)

Section Bodies.
Variable rec_get_or_create_trait_for : value -> M (trait * value).
Variable rec_call_class : cref -> value -> M value.

(** [trait_t.default_value] of a base trait class (line 409) *)
Definition class_default_value (t : trait) : value :=
  match t with
  | T_Bool => VBool false
  | T_Int => VInt 0
  | T_CStr => VStr ""
  | _ => VNone
  end.

(** [GenericTrait._create_get_traits].  [add_trait_f] threads what it
    updates: nothing for [add_class_trait], which writes to the class heap,
    the trait table of the instance for [self.add_trait]. *)
Definition _create_get_traits {T} (add_trait_f : T -> string -> trait -> M T)
  (acc : T) (obj_props : value) : M (T * pydict) :=
  let* props := lift (items obj_props) in
  for_each props (acc, [])
    (fun '(acc, traits_ed) '(key, val) =>
       if startswith_underscore key then ret (acc, traits_ed)
       else
         log LOG_LEVEL.INFO (msg_text "Adding") ;;
         let t := _type_func val in
         let* trait_t := get_obj_t t in
         match trait_t with
         | Some _ =>
             let* (t_inter, t_obj) := rec_get_or_create_trait_for val in
             let* acc := add_trait_f acc key t_inter in
             ret (acc, dict_set traits_ed key t_obj)
         | None =>
             if in_registered_base_types t then
               match registered_base_type (_type_func val) with
               | Some trait_t =>
                   let* acc := add_trait_f acc key trait_t in
                   ret (acc,
                        dict_set traits_ed key
                          (match val with
                           | VNone => class_default_value trait_t
                           | _ => val
                           end))
               | None => raise (TypeError "None is not a trait")
               end
             else
               let* (t_inter, t_obj) := rec_get_or_create_trait_for val in
               let* acc := add_trait_f acc key t_inter in
               ret (acc, dict_set traits_ed key t_obj)
         end).

(** [GenericTrait.__init__(obj, as_list)] *)
Definition GenericTrait___init__ (obj : value) (as_list : bool) : M value :=
  let* (obj_props, orig_obj, is_dict) :=
    if as_list then
      ret (VDict (map (fun '(i, val) => ("pos" +:+ str_nat i, val))
                      (enumerate (elements obj))),
           None, false)
    else
      match vars obj with
      | OK d => ret (VDict d, Some obj, false)
      | Raise (TypeError _) => ret (obj, None, true)
      | Raise e => raise e
      end in
  let* (traits, new_traits) :=
    _create_get_traits
      (fun traits key t => ret (dict_set traits key (CTrait t false)))
      GenericTrait_traits obj_props in
  let '(r, d) := trait_set traits [] new_traits in
  lift r ;;
  ret (VGenericTrait as_list is_dict orig_obj traits d).

(** [ClassModel.set_init], lines 210-221: a value that is neither of a
    base type nor list-like is turned into a model instance; nothing is
    returned when that fails, which the loop answers with [continue].  The
    registries hold model classes, so [t] is never a [List] trait and the
    guard of line 212 does not fire. *)
Definition set_init_convert (c : cref) (key : string) (val : value)
  : M (option value) :=
  if negb (in_registered_base_types (_type_func val))
     && negb (_is_list val) then
    let* t := get_obj_t (_type_func val) in
    try_except
      (let* (iface, val') := rec_get_or_create_trait_for val in
       let* r := class_of c in
       match dict_get (c_traits r) key with
       | None => raise (KeyError key)
       | Some ct =>
           match trait_type ct with
           | T_Generic =>
               log LOG_LEVEL.DEBUG (msg_text "Changing trait type") ;;
               set_class_traits c (fun ts => dict_del ts key) ;;
               add_class_trait c key iface ;;
               ret (Some val')
           | _ => ret (Some val')
           end
       end)
      is_Exception
      (fun e =>
         log LOG_LEVEL.ERROR (msg_could_not_create_trait key e) ;;
         ret None)
  else ret (Some val).

(** [ClassModel.set_init], lines 223-242: the value is recorded in
    [mod_traits] if it validates; a non-empty list-like value that does not
    is re-routed to the list class of its first element; anything else is
    logged and left out. *)
Definition set_init_assign (c : cref) (mod_traits : pydict) (key : string)
  (val : value) : M pydict :=
  let* r := class_of c in
  match validate_trait (traits_of_instance r) key val with
  | OK x => ret (dict_set mod_traits key val)
  | Raise e =>
      if is_TraitError e then
        if _is_list val then
          match elements val with
          | val0 :: _ =>
              let subt := _type_func val0 in
              let* tlistc := _getClassListOf subt in
              match tlistc with
              | Some tlistc =>
                  let* obj := rec_call_class tlistc val in
                  ret (dict_set mod_traits key obj)
              | None =>
                  raise (TypeError "'NoneType' object is not callable")
              end
          | [] => ret mod_traits
          end
        else
          log LOG_LEVEL.ERROR (msg_exception e) ;;
          ret mod_traits
      else raise e
  end.

(** [key.startswith('_') or key in invalid_keys or val is None] *)
Definition set_init_skips (key : string) (val : value) : bool :=
  startswith_underscore key || String.eqb key "Templates" || is_None val.

(** One iteration of the loop of [ClassModel.set_init] for an instance of
    class [c]: the new [mod_traits]. *)
Definition set_init_step (c : cref) (mod_traits : pydict)
  (kv : string * value) : M pydict :=
  if set_init_skips (fst kv) (snd kv) then ret mod_traits
  else
    let* converted := set_init_convert c (fst kv) (snd kv) in
    match converted with
    | None => ret mod_traits
    | Some val => set_init_assign c mod_traits (fst kv) val
    end.

(** [ClassModel.set_init], line 244: [self.set(False, ...)] on the values
    collected in [mod_traits]; the dictionary of the instance after it. *)
Definition set_init_finish (c : cref) (d mod_traits : pydict) : M pydict :=
  let* r := class_of c in
  let '(res, d') := trait_set (traits_of_instance r) d mod_traits in
  lift res ;;
  ret d'.

(** [ClassModel.set_init(traits)] for an instance of class [c] whose
    dictionary is [d]: the dictionary after the call. *)
Definition set_init (c : cref) (d : pydict) (traits : value) : M pydict :=
  let* props :=
    match traits with
    | VDict props => ret props
    | _ => raise (AttributeError "object has no attribute 'iteritems'")
    end in
  let* mod_traits := for_each props [] (set_init_step c) in
  set_init_finish c d mod_traits.

(** [ClassModel.__init__(obj)] for class [c].  The [Templates] trait of line
    177 is [Templates_trait]. *)
Definition ClassModel___init__ (c : cref) (obj : value) : M value :=
  if is_None obj then ret (VClassModel c None [])
  else
    match vars obj with
    | Raise (TypeError _) =>
        let* d := set_init c [] obj in
        ret (VClassModel c None d)
    | Raise e => raise e
    | OK v =>
        let* d := set_init c [] (VDict v) in
        ret (VClassModel c (Some obj) d)
    end.

(** [ListClassModel.__init__(obj, trait_t, orig_class)] for class [c] whose
    class attributes are [class_inner_type] and [class_orig_class]. *)
Definition ListClassModel___init__ (c : cref)
  (class_inner_type : option inner_t) (class_orig_class : option pytype)
  (obj : value) (trait_t : option inner_t) (orig_class : option pytype)
  : M value :=
  let _inner_type :=
    match trait_t with Some t => Some t | None => class_inner_type end in
  match _inner_type with
  | None =>
      raise (TraitError
        "Lists must have an inner type specified, in the least case 'Any'")
  | Some trait_t =>
      let _orig_class :=
        match orig_class with Some o => Some o | None => class_orig_class end
      in
      match _orig_class with
      | None =>
          log LOG_LEVEL.INFO
            (msg_text "List does not have a original type to convert back")
      | Some _ => ret tt
      end ;;
      let self := VListClassModel c trait_t _orig_class [] in
      if negb (is_None obj) && _is_list obj then
        for_each (elements obj) self
          (fun self elem =>
             let* elem :=
               match trait_t with
               | InnerAny => ret elem
               | InnerClass k =>
                   if isinstance_class elem k then ret elem
                   else rec_call_class k elem
               end in
             let '(r, self) := ListClassModel_append self elem in
             lift r ;;
             ret self)
      else ret self
  end.

(** Calling the class object [c] on [obj]: the [__init__] of the class. *)
Definition call_class_body (c : cref) (obj : value) : M value :=
  let* r := class_of c in
  match c_kind r with
  | ModelClass => ClassModel___init__ c obj
  | ListClass init_inner inner_type orig_class =>
      ListClassModel___init__ c inner_type orig_class obj init_inner None
  end.

Definition _create_ModelClass (name : string) (obj : value) : M cref :=
  log LOG_LEVEL.DEBUG (msg_text "   > Creating dynamic model") ;;
  let* obj_props := lift (vars obj) in
  let* newClassModel :=
    new_class {| c_name := name;
                 c_kind := ModelClass;
                 c_traits := ClassModel_traits;
                 c_templates := [] |} in
  _create_get_traits (fun _ key t => add_class_trait newClassModel key t)
                     tt (VDict obj_props) ;;
  set_dynamically_created_classes (fun m => <[name := newClassModel]> m) ;;
  ret newClassModel.

Definition get_or_create_ModelClass_for_obj (obj : value) : M cref :=
  let t_name := __name__ (_type_func obj) in
  let* st := get_state in
  match __dynamically_created_classes st !! t_name with
  | Some c => ret c
  | None => _create_ModelClass t_name obj
  end.

Definition create_list_trait (obj : value) : M (trait * value) :=
  let types := remove_dups (map _type_func (elements obj)) in
  match types, elements obj with
  | [t], obj0 :: _ =>
      if in_registered_base_types t then
        log LOG_LEVEL.DEBUG (msg_text " ... of known base type:") ;;
        if bool_decide (t = py_str) then ret (ListOfStr, obj)
        else ret (T_List (T_Type t), obj)
      else
        let* model := get_obj_t t in
        let* model :=
          match model with
          | None =>
              match vars obj0 with
              | OK _ =>
                  log LOG_LEVEL.DEBUG (msg_text " ... of unknown type") ;;
                  let* m := get_or_create_ModelClass_for_obj obj0 in
                  ret (Some m)
              | Raise _ =>
                  log LOG_LEVEL.DEBUG
                    (msg_text " Converting list to Generic due to inner type:") ;;
                  ret None
              end
          | Some m =>
              log LOG_LEVEL.DEBUG (msg_text " ... of existing Model") ;;
              ret (Some m)
          end in
        match model with
        | None =>
            let* t_obj := GenericTrait___init__ obj true in
            ret (T_Instance K_GenericTrait false, t_obj)
        | Some model =>
            let* listClass :=
              _get_or_create_ClassListOf model (Some (_type_func obj0)) in
            log LOG_LEVEL.MORE_INFO (msg_text " Initializing instance") ;;
            let* t_obj := rec_call_class listClass obj in
            ret (T_Instance K_ListClassModel false, t_obj)
        end
  | _, _ =>
      let* t_obj := GenericTrait___init__ obj true in
      ret (T_Instance K_GenericTrait false, t_obj)
  end.

Definition create_generic_trait (obj : value) : M (trait * value) :=
  if _is_list obj then
    log LOG_LEVEL.INFO (msg_text "-> Creating list trait") ;;
    create_list_trait obj
  else
    log LOG_LEVEL.INFO (msg_text "-> Creating Generic trait") ;;
    match vars obj with
    | Raise (TypeError _) =>
        let* trait_obj := GenericTrait___init__ obj false in
        ret (T_Instance K_GenericTrait true, trait_obj)
    | Raise e => raise e
    | OK _ =>
        let* newModel := get_or_create_ModelClass_for_obj obj in
        let* trait_obj := rec_call_class newModel obj in
        ret (T_Instance (K_class newModel) true, trait_obj)
    end.

Definition get_or_create_trait_for_body (obj : value) : M (trait * value) :=
  if isinstance_HasTraits obj then ret (T_Instance (klass_of obj) true, obj)
  else
    set_depth S ;;
    let* trait_t := get_obj_t (_type_func obj) in
    log LOG_LEVEL.MORE_INFO (msg_text "Found trait_t") ;;
    let* (t_inter, trait_obj) :=
      match trait_t with
      | Some trait_t =>
          log LOG_LEVEL.INFO (msg_text "Converted to") ;;
          let* trait_obj := rec_call_class trait_t obj in
          ret (T_Instance (K_class trait_t) true, trait_obj)
      | None => create_generic_trait obj
      end in
    set_depth pred ;;
    ret (t_inter, trait_obj).

End Bodies.

(** Tying the two recursion points. *)
Fixpoint get_or_create_trait_for (fuel : nat) (obj : value)
  : M (trait * value) :=
  match fuel with
  | 0 => raise OutOfFuel
  | S fuel' =>
      get_or_create_trait_for_body
        (get_or_create_trait_for fuel') (call_class fuel') obj
  end
with call_class (fuel : nat) (c : cref) (obj : value) : M value :=
  match fuel with
  | 0 => raise OutOfFuel
  | S fuel' =>
      call_class_body
        (get_or_create_trait_for fuel') (call_class fuel') c obj
  end.

Definition get_or_create_editor_for_obj (fuel : nat) (obj : value)
  : M value :=
  if isinstance_HasTraits obj then ret obj
  else
    let* (t_inter, t_obj) := get_or_create_trait_for fuel obj in
    ret t_obj.

(** ** Reading attributes back *)

(** Calling a class without arguments: [cast_to()] in [cast_back], and the
    default of an [Instance(klass, ())] trait.  The [__init__] of a model
    class does not recurse when it gets no object.  A plain object made this
    way starts with an empty [__dict__]. *)
Definition call_noarg (t : pytype) : M value :=
  match t with
  | py_user c =>
      if py_noarg_init c then ret (VObj c [])
      else raise (TypeError "__init__() takes arguments")
  | py_model c => call_class 1 c VNone
  | py_GenericTrait => raise (TypeError "__init__() takes at least 2 arguments")
  | py_NoneType => raise (TypeError "cannot create 'NoneType' instances")
  | py_bool => ret (VBool false)
  | py_int => ret (VInt 0)
  | py_str => ret (VStr "")
  | py_list => ret (VList [])
  | py_dict => ret (VDict [])
  | py_TraitListObject =>
      raise (TypeError "__init__() takes exactly 5 arguments")
  end.

(** The value of a trait attribute that was never assigned. *)
Definition default_value (t : trait) : M value :=
  match t with
  | T_Bool | T_Int | T_CStr | T_Generic | T_Any | T_Type _ =>
      ret (class_default_value t)
  | T_Dict => ret (VDict [])
  | T_List _ => ret (VTraitList [])
  | T_Instance _ false => ret VNone
  | T_Instance K_GenericTrait true => call_noarg py_GenericTrait
  | T_Instance K_ListClassModel true =>
      raise (TraitError
        "Lists must have an inner type specified, in the least case 'Any'")
  | T_Instance (K_class c) true => call_noarg (py_model c)
  | T_Enum (v :: _) => ret (VStr v)
  | T_Enum [] => ret VNone
  end.

(** [getattr(self, name)] on an instance with traits [traits] and
    dictionary [d] *)
Definition getattr (traits : list (string * ctrait)) (d : pydict)
  (name : string) : M value :=
  match dict_get d name with
  | Some v => ret v
  | None => default_value (trait_of traits name)
  end.

(** The names [self.get(private=is_none)] reads: every trait whose
    [private] metadata is unset, and every attribute without a declared
    trait. *)
Definition public_names (traits : list (string * ctrait)) (d : pydict)
  : list string :=
  List.filter
    (fun n => match dict_get traits n with
              | Some ct => negb (private ct)
              | None => true
              end)
    (remove_dups (dict_keys traits ++ dict_keys d)).

(** [self.get(private=is_none)] *)
Definition trait_get (traits : list (string * ctrait)) (d : pydict)
  : M pydict :=
  for_each (public_names traits d) []
    (fun elems name =>
       let* v := getattr traits d name in
       ret (elems ++ [(name, v)])).

(** [o.__dict__.update(elems)]; the extra attributes of a list model are
    not part of its representation. *)
Definition obj_dict_update (o : value) (elems : pydict) : result value :=
  match o with
  | VObj c d => OK (VObj c (dict_update d elems))
  | VClassModel c orig d => OK (VClassModel c orig (dict_update d elems))
  | VGenericTrait l i orig ts d =>
      OK (VGenericTrait l i orig ts (dict_update d elems))
  | VListClassModel _ _ _ _ => OK o
  | _ => Raise (AttributeError "object has no attribute '__dict__'")
  end.

Section GetObjectBodies.
Variable rec_get_object : value -> bool -> M value.

(** [GenericTrait.cast_back(obj, cast_to)] *)
Definition cast_back (obj : value) (cast_to : option pytype) : M value :=
  let t := _type_func obj in
  if in_registered_base_types t then ret obj
  else if bool_decide (t = py_TraitListObject) then ret (VList (elements obj))
  else
    match cast_to with
    | None => rec_get_object obj false
    | Some cast_to =>
        let* new_obj :=
          try_except
            (let* o := call_noarg cast_to in ret (Some o))
            is_Exception
            (fun _ =>
               log LOG_LEVEL.ERROR (msg_no_noarg_constructor cast_to) ;;
               ret None) in
        match new_obj with
        | None => ret obj
        | Some new_obj =>
            let* elems := rec_get_object obj true in
            match elems with
            | VDict elems => lift (obj_dict_update new_obj elems)
            | VList [] => lift (obj_dict_update new_obj [])
            | _ => raise (TypeError "cannot convert dictionary update sequence")
            end
        end
    end.

(** [ClassModel.get_conv] *)
Definition ClassModel_get_conv (c : cref) (d : pydict) : M pydict :=
  let* r := class_of c in
  let* elems := trait_get (traits_of_instance r) d in
  for_each elems []
    (fun acc '(k, x) =>
       let* y :=
         if isinstance_ClassModel x then rec_get_object x false else ret x in
       ret (acc ++ [(k, y)])).

(** [ClassModel.get_object(as_dict)] *)
Definition ClassModel_get_object (self : value) (as_dict : bool) : M value :=
  match self with
  | VClassModel c orig_obj d =>
      let* elems := ClassModel_get_conv c d in
      if as_dict then ret (VDict elems)
      else
        match orig_obj with
        | None => ret self
        | Some o =>
            match obj_dict_update o elems with
            | OK o' => ret o'
            | Raise (AttributeError _) => ret self
            | Raise e => raise e
            end
        end
  | _ => raise (AttributeError "get_object")
  end.

(** [ListClassModel.get_object(as_dict)] *)
Definition ListClassModel_get_object (self : value) (as_dict : bool)
  : M value :=
  match self with
  | VListClassModel c trait_t _orig_class _matrix =>
      let* l :=
        for_each _matrix []
          (fun acc elem =>
             let* x := cast_back elem _orig_class in ret (acc ++ [x])) in
      ret (VList l)
  | _ => raise (AttributeError "get_object")
  end.

(** [GenericTrait.get_object(as_dict)] *)
Definition GenericTrait_get_object (self : value) (as_dict : bool)
  : M value :=
  match self with
  | VGenericTrait is_list is_dict orig_obj traits d =>
      let* elems := trait_get traits d in
      let* elems :=
        for_each elems []
          (fun acc '(key, val) =>
             let* x := cast_back val None in ret (acc ++ [(key, x)])) in
      if negb is_list then
        if as_dict || is_dict then ret (VDict elems)
        else
          match orig_obj with
          | Some o => lift (obj_dict_update o elems)
          | None =>
              raise (AttributeError
                "'NoneType' object has no attribute '__dict__'")
          end
      else
        let keys := sorted (dict_keys elems) in
        ret (VList (omap (dict_get elems) keys))
  | _ => raise (AttributeError "get_object")
  end.

Definition get_object_body (self : value) (as_dict : bool) : M value :=
  match self with
  | VClassModel _ _ _ => ClassModel_get_object self as_dict
  | VListClassModel _ _ _ _ => ListClassModel_get_object self as_dict
  | VGenericTrait _ _ _ _ _ => GenericTrait_get_object self as_dict
  | _ => raise (AttributeError "object has no attribute 'get_object'")
  end.

End GetObjectBodies.

(** [obj.get_object(as_dict)], dispatched on the class of [obj]. *)
Fixpoint get_object (fuel : nat) (self : value) (as_dict : bool) : M value :=
  match fuel with
  | 0 => raise OutOfFuel
  | S fuel' => get_object_body (get_object fuel') self as_dict
  end.

(** ** Templates (lines 190-196) *)

(** [HasTraits.reset_traits()]: every trait attribute is deleted from the
    instance, so that it reads as its default again; this includes the
    private [__orig_obj]. *)
Definition reset_traits (self : value) : value :=
  match self with
  | VClassModel c _ _ => VClassModel c None []
  | _ => self
  end.

(** [ClassModel._Templates_changed(old, new)] on [self], in state [st]: the
    outcome of the handler and the instance as the handler leaves it.
    Assignments made by [self.set] notify no further handler here: a
    template that assigns [Templates] itself, which would run the handler
    again from inside, is outside what this definition describes. *)
Definition _Templates_changed (st : state) (self : value) (new : string)
  : result unit * value :=
  match self with
  | VClassModel c orig_obj d =>
      match heap st !! cid c with
      | None => (Raise (TypeError "not a class"), self)
      | Some r =>
          match dict_get (c_templates r) new with
          | Some kw =>
              match trait_set (traits_of_instance r) d kw with
              | (Raise (KeyError _), d') =>
                  (OK tt, reset_traits (VClassModel c orig_obj d'))
              | (res, d') => (res, VClassModel c orig_obj d')
              end
          | None => (OK tt, reset_traits self)
          end
      end
  | _ => (Raise (AttributeError "_Templates_changed"), self)
  end.

End Synthesis.

(** ** Sample inputs *)

(** A linked structure: an object whose attribute holds an object of the
    same class. *)
Definition Node : pyclass := PyClass "Node" true.
Definition leaf : value := VObj Node [("child", VNone)].
Definition root : value := VObj Node [("child", leaf)].

(** The [system] of the module docstring, as an object and as a dictionary. *)
Definition System : pyclass := PyClass "System" true.
Definition admin : value := VDict [("name", VStr "F1"); ("number", VInt 1)].
Definition system_obj : value :=
  VObj System [("location", VStr "Bytes Av, 16"); ("admin", admin)].
Definition system_dict : value :=
  VDict [("location", VStr "Bytes Av, 16"); ("admin", admin)].

(** A list of mixed types with eleven elements. *)
Definition mixed11 : value :=
  VList [VInt 0; VStr "a"; VInt 2; VInt 3; VInt 4; VInt 5; VInt 6; VInt 7;
         VInt 8; VInt 9; VInt 10].

(** A hand-written model with two typed fields and templates:
    [class Account(ClassModel): number = Int; active = Bool]. *)
Definition Account_rec (templates : list (string * pydict)) : class_rec :=
  {| c_name := "Account";
     c_kind := ModelClass;
     c_traits := ClassModel_traits ++
                 [ ("number", CTrait T_Int false);
                   ("active", CTrait T_Bool false) ];
     c_templates := templates |}.

Definition Account : cref := CRef 0 "Account".

Definition Account_state (templates : list (string * pydict)) : state :=
  {| _api_types_to_trait := {[ "Account" := Account ]};
     __dynamically_created_classes := ∅;
     heap := [Account_rec templates];
     stream := [];
     depth := 0 |}.

Definition an_account : value :=
  VClassModel Account None [("number", VInt 1); ("active", VBool true)].

(** Users as plain objects, and a state in which [User] objects have been
    edited once as a list. *)
Definition User : pyclass := PyClass "User" true.
Definition user1 : value := VObj User [("name", VStr "F1"); ("number", VInt 1)].
Definition user2 : value := VObj User [("name", VStr "F2"); ("number", VInt 2)].
Definition user3 : value := VObj User [("name", VStr "F3"); ("number", VInt 3)].

(** A hand-written list class that declares no [_inner_type]. *)
Definition Bare_list_rec : class_rec :=
  {| c_name := "BareList";
     c_kind := ListClass None None None;
     c_traits := ListClassModel_traits;
     c_templates := [] |}.

Definition Bare_list_state : state :=
  {| _api_types_to_trait := ∅;
     __dynamically_created_classes := ∅;
     heap := [Bare_list_rec];
     stream := [];
     depth := 0 |}.

(** The editor of [[user1, user2]]: a list model over the dynamically
    created model of [User]. *)
Definition User_model : cref := CRef 0 "User".
Definition ListOfUser : cref := CRef 1 "ListOfUser".

Definition edited_user (u : value) : value :=
  VClassModel User_model (Some u)
    (match u with VObj _ d => d | _ => [] end).

Definition users_editor : value :=
  VListClassModel ListOfUser (InnerClass User_model) (Some (py_user User))
    [edited_user user1; edited_user user2].

Definition users_state : state :=
  snd (get_or_create_editor_for_obj 10 (VList [user1; user2]) initial_state).

(** Every value of the mapping [kw] is accepted by the trait of its field. *)
Definition all_validate {RT : TraitsRuntime}
  (traits : list (string * ctrait)) (kw : pydict) : Prop :=
  Forall (fun kv => is_Some (validate (trait_of traits (fst kv)) (snd kv))) kw.

(** The two class objects that editing [root] creates for the name [Node],
    and the state in which the first of them has just been allocated by
    [_create_ModelClass] (line 569), before its traits are inferred. *)
Definition Node0 : cref := CRef 0 "Node".
Definition Node1 : cref := CRef 1 "Node".

Definition Node0_allocated : state :=
  snd (new_class {| c_name := "Node";
                    c_kind := ModelClass;
                    c_traits := ClassModel_traits;
                    c_templates := [] |} initial_state).

(** The entry of [__dynamically_created_classes] for a name. *)
Definition dynamic_class (st : state) (name : string) : option cref :=
  __dynamically_created_classes st !! name.

(** The class traits of the class object at [cid] in the heap of [st]. *)
Definition class_traits_at (st : state) (cid : nat)
  : option (list (string * ctrait)) :=
  c_traits <$> heap st !! cid.

(** A dictionary found where an [Account] declares [number = Int], and the
    editor that the conversion block of [set_init] makes of it. *)
Definition unfit_number : value := VDict [("x", VInt 1)].

Definition unfit_number_editor : value :=
  VGenericTrait false true None
    (GenericTrait_traits ++ [("x", CTrait T_Int false)]) [("x", VInt 1)].

(** Plain objects of a class named [Account], for which [Account_state]
    registers the hand-written model [Account] as handler: one whose
    [number] is a text, in both attribute orders, and one whose [active] is
    a number, in both attribute orders. *)
Definition AccountData : pyclass := PyClass "Account" true.

Definition text_account : value :=
  VObj AccountData [("number", VStr "12"); ("active", VBool true)].

Definition text_account' : value :=
  VObj AccountData [("active", VBool true); ("number", VStr "12")].

Definition miscast_account : value :=
  VObj AccountData [("active", VInt 1); ("number", VInt 5)].

Definition miscast_account' : value :=
  VObj AccountData [("number", VInt 5); ("active", VInt 1)].

(** A second user whose [number] is a text, where the first has a number. *)
Definition text_user : value :=
  VObj User [("name", VStr "F2"); ("number", VStr "two")].

(** ** What inference may do to the interpreter state *)

(** The class object [r'] is [r] up to its class traits. *)
Definition class_fixed (r r' : class_rec) : Prop :=
  c_name r' = c_name r /\ c_kind r' = c_kind r /\
  c_templates r' = c_templates r.

(** [st'] comes from [st] by creating classes, filing them, retyping class
    traits and logging: the registered handlers are the same, no name has
    left [__dynamically_created_classes], every class object is still there
    with its name, kind and templates, and the log has only grown. *)
Definition extends (st st' : state) : Prop :=
  _api_types_to_trait st' = _api_types_to_trait st /\
  (forall name,
     is_Some (__dynamically_created_classes st !! name) ->
     is_Some (__dynamically_created_classes st' !! name)) /\
  (forall i r,
     heap st !! i = Some r ->
     exists r', heap st' !! i = Some r' /\ class_fixed r r') /\
  (exists lines, stream st' = stream st ++ lines).

(** Every dynamically created class is filed under its own name and is a
    class object of the heap. *)
Definition registry_wf (st : state) : Prop :=
  forall name c,
    __dynamically_created_classes st !! name = Some c ->
    cname c = name /\
    exists r, heap st !! cid c = Some r /\ c_name r = name.

(** How a computation relates the state it starts in to the state it ends
    in, whatever its outcome. *)
Definition preserves {A} (R : state -> state -> Prop) (m : M A) : Prop :=
  forall st, R st (snd (m st)).

(** The invariant of inference: [extends], and [registry_wf] is kept. *)
Definition grows (st st' : state) : Prop :=
  extends st st' /\ (registry_wf st -> registry_wf st').

(** Conversion back leaves registries and class objects alone. *)
Definition same_classes (st st' : state) : Prop :=
  _api_types_to_trait st' = _api_types_to_trait st /\
  __dynamically_created_classes st' = __dynamically_created_classes st /\
  heap st' = heap st /\
  (exists lines, stream st' = stream st ++ lines).

(** ** The entry point [edit] (lines 745-761) *)

Definition is_AttributeError (e : exn) : bool :=
  match e with AttributeError _ => true | _ => false end.

(** [trait_ed.configure_traits()]: the dialog runs on a model instance and
    leaves it as the edits of the user, [user], make it.  A value that is
    not a model instance has no such method. *)
Definition configure_traits (user : value -> value) (trait_ed : value)
  : M value :=
  if isinstance_HasTraits trait_ed then ret (user trait_ed)
  else raise (AttributeError "object has no attribute 'configure_traits'").

(** [target.__dict__.update(e)] where [e] is what [get_object(True)]
    returned. *)
Definition dict_update_from (target : value) (e : value) : result value :=
  match e with
  | VDict elems => obj_dict_update target elems
  | VList [] => obj_dict_update target []
  | _ => Raise (TypeError "cannot convert dictionary update sequence")
  end.

(** [edit(obj, replace)].  [obj.__dict__] exists for the values [vars]
    accepts, [obj.update] for dictionaries. *)
Definition edit {RT : TraitsRuntime} (user : value -> value) (fuel : nat)
  (obj : value) (replace : bool) : M value :=
  let* trait_ed := get_or_create_editor_for_obj fuel obj in
  let* trait_ed := configure_traits user trait_ed in
  if replace then
    try_except
      (match vars obj with
       | OK _ =>
           let* e := get_object fuel trait_ed true in
           lift (dict_update_from obj e)
       | Raise _ =>
           raise (AttributeError "object has no attribute '__dict__'")
       end)
      is_AttributeError
      (fun _ =>
         match obj with
         | VDict d =>
             let* e := get_object fuel trait_ed true in
             match e with
             | VDict elems => ret (VDict (dict_update d elems))
             | VList [] => ret obj
             | _ =>
                 raise (TypeError "cannot convert dictionary update sequence")
             end
         | _ => raise (AttributeError "object has no attribute 'update'")
         end)
  else get_object fuel trait_ed false.

(** A list-like value all of whose elements are of the base type [t]. *)
Definition homogeneous (t : pytype) (obj : value) : Prop :=
  _is_list obj = true /\ elements obj <> [] /\
  in_registered_base_types t = true /\
  Forall (fun x => _type_func x = t) (elements obj).

(** ** Flat values: dictionaries and lists of scalars *)

(** [None], integers and strings.  Booleans are left out: [bool] is a
    subclass of both [bool] and [int], so the trait that
    [BaseTypes.__getitem__] finds for it is the one of whichever key the
    dictionary yields first. *)
Definition is_scalar (v : value) : bool :=
  match v with
  | VNone | VInt _ | VStr _ => true
  | _ => false
  end.

(** The trait [_base_types_to_trait] gives to a scalar. *)
Definition scalar_trait (v : value) : trait :=
  match v with
  | VNone => T_Generic
  | VInt _ => T_Int
  | VStr _ => T_CStr
  | _ => T_Any
  end.

(** The items whose key does not start with an underscore. *)
Definition public_items (items : pydict) : pydict :=
  List.filter (fun kv => negb (startswith_underscore (fst kv))) items.

(** No handler and no dynamically created class is filed under the name of
    a scalar type. *)
Definition no_scalar_handlers (st : state) : Prop :=
  forall v, is_scalar v = true -> fst (get_obj_t (_type_func v) st) = OK None.

(** The traits and the dictionary of the [GenericTrait] made of the public
    scalar items [l]. *)
Definition flat_traits (l : pydict) : list (string * ctrait) :=
  GenericTrait_traits ++
  map (fun kv => (fst kv, CTrait (scalar_trait (snd kv)) false)) l.

Definition flat_editor (as_list is_dict : bool) (orig_obj : option value)
  (l : pydict) : value :=
  VGenericTrait as_list is_dict orig_obj (flat_traits l) l.

(** The fields [pos0], [pos1], ... of a list taken as a pseudo-struct. *)
Definition positional (xs : list value) : pydict :=
  map (fun '(i, val) => ("pos" +:+ str_nat i, val)) (enumerate xs).

(** ** Objects with scalar attributes *)

(** The class traits of the model class made for an object whose public
    attributes are [l]. *)
Definition model_traits (l : pydict) : list (string * ctrait) :=
  ClassModel_traits ++
  map (fun kv => (fst kv, CTrait (scalar_trait (snd kv)) false)) l.

Definition flat_model (name : string) (l : pydict) : class_rec :=
  {| c_name := name; c_kind := ModelClass; c_traits := model_traits l;
     c_templates := [] |}.

(** The attributes [set_init] assigns: those that are not [None]. *)
Definition assigned (l : pydict) : pydict :=
  List.filter (fun kv => negb (is_None (snd kv))) l.

(** The state with another class heap. *)
Definition with_heap (st : state) (h : list class_rec) : state :=
  {| _api_types_to_trait := _api_types_to_trait st;
     __dynamically_created_classes := __dynamically_created_classes st;
     heap := h;
     stream := stream st;
     depth := depth st |}.

(** The state once the model class of the objects named [name], with public
    attributes [l], is created and filed. *)
Definition model_filed (st : state) (name : string) (l : pydict) : state :=
  {| _api_types_to_trait := _api_types_to_trait st;
     __dynamically_created_classes :=
       <[name := CRef (length (heap st)) name]>
         (__dynamically_created_classes st);
     heap := heap st ++ [flat_model name l];
     stream := stream st;
     depth := depth st |}.

(** What [self.get()] reads at [k] from an editor that holds [d'], made for
    an object with attributes [d]: the value the editor holds, else [None]
    for an attribute that was [None]. *)
Definition read_from_editor (d d' : pydict) (k : string) (v : value) : Prop :=
  dict_get d' k = Some v \/
  (dict_get d' k = None /\ v = VNone /\ (k, VNone) ∈ public_items d).

(** ** Values without attributes *)

(** [None], a number, an object without a [__dict__]: neither list-like nor
    a dictionary, and [vars] rejects them. *)
Definition is_atom (v : value) : bool :=
  match v with
  | VNone | VBool _ | VInt _ | VOpaque _ => true
  | _ => false
  end.

(** A trait whose default needs no constructor call: anything but
    [Instance(klass, ())]. *)
Definition plain_default (t : trait) : bool :=
  match t with
  | T_Instance _ true => false
  | _ => true
  end.

Definition plain_defaults (traits : list (string * ctrait)) : bool :=
  forallb (fun kt => plain_default (trait_type (snd kt))) traits.

(** ** GenericTrait: item access (lines 419-434) *)

(** [GenericTrait.__getitem__(key)] for an index [key]: the attribute
    [pos<key>].  An attribute that has neither a value nor a declared trait
    does not exist. *)
Definition GenericTrait___getitem__ {RT : TraitsRuntime} (self : value)
  (key : nat) : M value :=
  match self with
  | VGenericTrait is_list _ _ traits d =>
      if negb is_list then
        raise (TypeError "The current object doesnt represent a list")
      else
        let name := "pos" +:+ str_nat key in
        match dict_get d name, dict_get traits name with
        | None, None =>
            raise (AttributeError "object has no attribute 'pos<key>'")
        | _, _ => getattr traits d name
        end
  | _ => raise (AttributeError "__getitem__")
  end.

(** [GenericTrait.__setitem__(key, value)]: [setattr] on the attribute
    [pos<key>], whose result, [None], is returned; the instance as the call
    leaves it. *)
Definition GenericTrait___setitem__ {RT : TraitsRuntime} (self : value)
  (key : nat) (val : value) : result value * value :=
  match self with
  | VGenericTrait is_list is_dict orig_obj traits d =>
      if negb is_list then
        (Raise (TypeError "The current object doesnt represent a list"), self)
      else
        match trait_set traits d [("pos" +:+ str_nat key, val)] with
        | (OK _, d') =>
            (OK VNone, VGenericTrait is_list is_dict orig_obj traits d')
        | (Raise e, d') =>
            (Raise e, VGenericTrait is_list is_dict orig_obj traits d')
        end
  | _ => (Raise (AttributeError "__setitem__"), self)
  end.

(** The log lines of the elements that [cast_back] could not rebuild. *)
Definition no_noarg_lines (cast_to : pytype) (depth : nat)
  (matrix : list value) : list log_line :=
  map (fun _ => LogLine LOG_LEVEL.ERROR depth (msg_no_noarg_constructor cast_to))
      matrix.

(** ** Lists of objects of one class *)

(** The object with attributes [d] has the shape of the one with attributes
    [d1]: the same public attributes in the same order, each holding a
    scalar other than [None] of the type the attribute has in [d1]. *)
Definition same_shape (d1 d : pydict) : Prop :=
  NoDup (dict_keys d) /\
  ("Templates" ∉ dict_keys d) /\
  Forall2
    (fun kv kv1 =>
       fst kv = fst kv1 /\ is_scalar (snd kv) = true /\
       is_None (snd kv) = false /\
       scalar_trait (snd kv) = scalar_trait (snd kv1))
    (public_items d) (public_items d1).

(** The editor of one element: an instance of the model class [model]
    linked to the object, holding its public attributes. *)
Definition element_editor (model : cref) (c : pyclass) (d : pydict) : value :=
  VClassModel model (Some (VObj c d)) (public_items d).

(** The list class of the model class of the objects named [name]. *)
Definition list_model (name : string) (model : cref) (c : pyclass)
  : class_rec :=
  {| c_name := "ListOf" +:+ name;
     c_kind := ListClass (Some (InnerClass model)) None (Some (py_user c));
     c_traits := ListClassModel_traits;
     c_templates := [] |}.

(** The state once the model class and the list class of a list of objects
    of class [c], the first with public attributes [l], are created and
    filed. *)
Definition list_filed (st : state) (c : pyclass) (l : pydict) : state :=
  {| _api_types_to_trait := _api_types_to_trait st;
     __dynamically_created_classes :=
       <[("ListOf" +:+ py_name c) :=
           CRef (S (length (heap st))) ("ListOf" +:+ py_name c)]>
         (<[py_name c := CRef (length (heap st)) (py_name c)]>
            (__dynamically_created_classes st));
     heap := (heap st ++ [flat_model (py_name c) l])
             ++ [list_model (py_name c)
                   (CRef (length (heap st)) (py_name c)) c];
     stream := stream st;
     depth := depth st |}.

(** ** Results *)

(** *** Editing an editor *)

(** C9. A value that is already a model instance (a [ClassModel], a
    [ListClassModel] or a [GenericTrait] object) is returned as it is by
    [get_or_create_editor_for_obj], with no class created and no state
    changed; [get_or_create_trait_for] pairs the same instance with an
    [Instance] trait of its class. *)
Theorem editor_of_model_instance_is_itself
  (RT : TraitsRuntime) (fuel : nat) (obj : value) (st : state) :
  isinstance_HasTraits obj = true ->
  get_or_create_editor_for_obj fuel obj st = (OK obj, st) /\
  get_or_create_trait_for (S fuel) obj st
    = (OK (T_Instance (klass_of obj) true, obj), st).
Proof.
  intros Hobj. split.
  - unfold get_or_create_editor_for_obj. now rewrite Hobj.
  - cbn [get_or_create_trait_for]. unfold get_or_create_trait_for_body.
    now rewrite Hobj.
Qed.

Lemma editor_of_model_instance_is_itself_witness :
  isinstance_HasTraits an_account = true /\
  get_or_create_editor_for_obj 0 an_account initial_state
    = (OK an_account, initial_state).
Proof.
  split; [reflexivity |].
  apply (editor_of_model_instance_is_itself traits_runtime 0 an_account
           initial_state).
  reflexivity.
Defined.

(** *** Registration of hand-written models *)

Lemma fold_insert_lookup (types : list (string * cref))
  (m : gmap string cref) (name : string) :
  fold_left (fun m kv => <[fst kv := snd kv]> m) types m !! name
  = match dict_get (rev types) name with
    | Some c => Some c
    | None => m !! name
    end.
Proof.
  revert m. induction types as [| [k c] types IH]; intros m; [reflexivity |].
  cbn [fold_left rev fst snd]. rewrite IH.
  assert (Hget : forall (l : list (string * cref)),
             dict_get (l ++ [(k, c)]) name
             = match dict_get l name with
               | Some c' => Some c'
               | None => if String.eqb k name then Some c else None
               end).
  { induction l as [| [k' c'] l IHl]; cbn; [reflexivity |].
    destruct (String.eqb k' name); [reflexivity | apply IHl]. }
  rewrite Hget. destruct (dict_get (rev types) name); [reflexivity |].
  destruct (String.eqb_spec k name) as [-> | Hne].
  - apply lookup_insert_eq.
  - now apply lookup_insert_ne.
Qed.

(** C8, as the code has it.  Registration never fails: each name given is
    bound to the handler given for it, replacing whatever was registered
    under that name before, and the other names keep their handlers;
    registering again the handlers that are already registered leaves the
    state as it is; and [get_obj_t] returns the registered handler of a
    name in preference to a dynamically created class of that name. *)
Theorem register_api_type_handler_overwrites
  (types : list (string * cref)) (st : state) :
  let st' := snd (register_api_type_handler types st) in
  fst (register_api_type_handler types st) = OK tt /\
  (forall name,
     _api_types_to_trait st' !! name
     = match dict_get (rev types) name with
       | Some c => Some c
       | None => _api_types_to_trait st !! name
       end) /\
  __dynamically_created_classes st' = __dynamically_created_classes st /\
  register_api_type_handler types st' = (OK tt, st') /\
  (forall t c,
     _api_types_to_trait st' !! __name__ t = Some c ->
     get_obj_t t st' = (OK (Some c), st')).
Proof.
  cbn zeta. unfold register_api_type_handler, set_api_types_to_trait.
  cbn [fst snd _api_types_to_trait __dynamically_created_classes].
  split; [reflexivity |]. split; [apply fold_insert_lookup |].
  split; [reflexivity |]. split.
  - f_equal. f_equal. apply map_eq. intros name.
    rewrite !fold_insert_lookup. now destruct (dict_get (rev types) name).
  - intros t c Hc. unfold get_obj_t, bind, get_state, ret.
    cbn [_api_types_to_trait] in *. now rewrite Hc.
Qed.

(** C8, counterexample.  A second registration under the same name with a
    different handler does not fail: it replaces the first handler. *)
Lemma register_api_type_handler_no_duplicate_error :
  let A := CRef 0 "Foo" in
  let B := CRef 1 "Foo" in
  let st1 := snd (register_api_type_handler [("Foo", A)] initial_state) in
  A <> B /\
  _api_types_to_trait st1 !! "Foo" = Some A /\
  fst (register_api_type_handler [("Foo", B)] st1) = OK tt /\
  _api_types_to_trait (snd (register_api_type_handler [("Foo", B)] st1))
    !! "Foo" = Some B.
Proof.
  cbn zeta. split; [discriminate |]. repeat split; vm_compute; reflexivity.
Qed.

(** *** Typed lists: [append] and [+] *)

(** [users_editor] is what editing the list [[user1, user2]] produces. *)
Lemma users_editor_synthesized :
  get_or_create_editor_for_obj 10 (VList [user1; user2]) initial_state
  = (OK users_editor, users_state).
Proof. vm_compute. reflexivity. Qed.

(** C10, as the code has it.  [+] on a list model returns [None] whenever it
    returns, and then the items of the instance are the former items
    followed by the validated elements of the operand; it returns in this
    way for every operand that has a length and whose elements the item
    trait of the list accepts; when it raises, the instance is as it was. *)
Theorem ListClassModel_add_in_place
  (RT : TraitsRuntime) (self other : value) :
  (forall v self',
     ListClassModel___add__ self other = (OK v, self') ->
     v = VNone /\
     exists c trait_t orig_class _matrix xs ys,
       self = VListClassModel c trait_t orig_class _matrix /\
       sized_elements other = Some xs /\
       validate_all (validate (t_edit trait_t)) xs = Some ys /\
       self' = VListClassModel c trait_t orig_class (_matrix ++ ys)) /\
  (forall c trait_t orig_class _matrix xs ys,
     self = VListClassModel c trait_t orig_class _matrix ->
     sized_elements other = Some xs ->
     validate_all (validate (t_edit trait_t)) xs = Some ys ->
     ListClassModel___add__ self other
     = (OK VNone, VListClassModel c trait_t orig_class (_matrix ++ ys))) /\
  (forall e self',
     ListClassModel___add__ self other = (Raise e, self') -> self' = self).
Proof.
  split; [| split].
  - intros v self' H. unfold ListClassModel___add__ in H.
    destruct self as [| | | | | | | | | | c t oc m |]; try discriminate.
    destruct (sized_elements other) as [xs |] eqn:Hxs; [| discriminate].
    destruct (validate_all _ xs) as [ys |] eqn:Hys; [| discriminate].
    injection H as <- <-. split; [reflexivity |].
    exists c, t, oc, m, xs, ys. auto.
  - intros c t oc m xs ys -> Hxs Hys. cbn. now rewrite Hxs, Hys.
  - intros e self' H. unfold ListClassModel___add__ in H.
    destruct self as [| | | | | | | | | | c t oc m |];
      try (injection H as _ <-; reflexivity).
    destruct (sized_elements other) as [xs |];
      [| injection H as _ <-; reflexivity].
    destruct (validate_all _ xs) as [ys |]; [discriminate |].
    injection H as _ <-. reflexivity.
Qed.

Lemma ListClassModel_add_in_place_witness :
  ListClassModel___add__ users_editor (VList [edited_user user3])
  = (OK VNone,
     VListClassModel ListOfUser (InnerClass User_model) (Some (py_user User))
       ([edited_user user1; edited_user user2] ++ [edited_user user3])).
Proof.
  apply (ListClassModel_add_in_place traits_runtime users_editor
           (VList [edited_user user3]))
    with (xs := [edited_user user3]); reflexivity.
Defined.

(** C10, counterexample.  With an operand whose element the item trait of
    the list rejects, [+] raises [TraitError]: it neither returns [None] nor
    extends the items. *)
Lemma ListClassModel_add_rejects_operand :
  exists why,
    ListClassModel___add__ users_editor (VList [VInt 3])
    = (Raise (TraitError why), users_editor).
Proof. eexists. vm_compute. reflexivity. Qed.




(** *** Templates *)

Lemma dict_get_set_eq {A} (d : list (string * A)) (k : string) (v : A) :
  dict_get (dict_set d k v) k = Some v.
Proof.
  induction d as [| [k' v'] d IH]; cbn.
  - now rewrite String.eqb_refl.
  - destruct (String.eqb k' k) eqn:E; cbn.
    + now rewrite String.eqb_refl.
    + now rewrite E.
Qed.

Lemma dict_get_set_ne {A} (d : list (string * A)) (k k' : string) (v : A) :
  k <> k' -> dict_get (dict_set d k v) k' = dict_get d k'.
Proof.
  intros Hne. induction d as [| [k0 v0] d IH]; cbn.
  - destruct (String.eqb_spec k k'); [contradiction | reflexivity].
  - destruct (String.eqb_spec k0 k) as [-> | Hk0]; cbn.
    + destruct (String.eqb_spec k k'); [contradiction | reflexivity].
    + destruct (String.eqb k0 k'); [reflexivity | apply IH].
Qed.

Section TraitSet.
Context {RT : TraitsRuntime}.
Variable traits : list (string * ctrait).

Lemma trait_set_raises_TraitError (d kw : pydict) (e : exn) (d' : pydict) :
  trait_set traits d kw = (Raise e, d') -> is_TraitError e = true.
Proof.
  revert d. induction kw as [| [k v] kw IH]; intros d; cbn; [discriminate |].
  unfold validate_trait. destruct (validate _ v).
  - apply IH.
  - intros H. injection H as <- _. reflexivity.
Qed.

Lemma trait_set_all_validate (d kw : pydict) :
  all_validate traits kw ->
  exists d',
    trait_set traits d kw = (OK tt, d') /\
    (forall k, ~ In k (dict_keys kw) -> dict_get d' k = dict_get d k) /\
    (forall k v,
       List.NoDup (dict_keys kw) -> In (k, v) kw ->
       dict_get d' k = validate (trait_of traits k) v).
Proof.
  revert d. induction kw as [| [k v] kw IH]; intros d Hall.
  - exists d. cbn. split; [reflexivity |]. split; [auto | intros k v _ []].
  - inversion Hall as [| ? ? [x Hx] Hall']; subst. cbn in Hx.
    destruct (IH (dict_set d k x) Hall') as (d' & Hset & Hother & Hin).
    exists d'. cbn. unfold validate_trait. rewrite Hx. split; [exact Hset |].
    split.
    + intros k' Hk'. rewrite Hother by (intros ?; apply Hk'; now right).
      apply dict_get_set_ne. intros ->. apply Hk'. now left.
    + intros k' v' Hnd [Heq | Hin'].
      * injection Heq as <- <-. cbn in Hnd. apply NoDup_cons_iff in Hnd.
        rewrite Hother by apply Hnd. rewrite Hx. apply dict_get_set_eq.
      * cbn in Hnd. apply NoDup_cons_iff in Hnd. now apply Hin.
Qed.

Lemma trait_set_stops_at_invalid (d kw1 kw2 : pydict) (k : string)
  (v : value) :
  all_validate traits kw1 ->
  validate (trait_of traits k) v = None ->
  exists why d1,
    trait_set traits d kw1 = (OK tt, d1) /\
    trait_set traits d (kw1 ++ (k, v) :: kw2) = (Raise (TraitError why), d1).
Proof.
  revert d. induction kw1 as [| [k1 v1] kw1 IH]; intros d Hall Hbad.
  - eexists _, d. cbn. unfold validate_trait. rewrite Hbad. auto.
  - inversion Hall as [| ? ? [x Hx] Hall']; subst. cbn in Hx.
    destruct (IH (dict_set d k1 x) Hall' Hbad) as (why & d1 & H1 & H2).
    exists why, d1. cbn. unfold validate_trait. rewrite Hx. auto.
Qed.

End TraitSet.

(** C4, as the code has it.  For an instance of a class with templates,
    and templates that do not assign [Templates] itself: a declared template
    all of whose values validate is applied in full, the fields it does not
    mention keeping their values; an undeclared name (the empty selection
    included) resets the whole instance, after which every attribute reads
    as the default of its trait; and a declared template with a value that
    its field rejects raises [TraitError] at that value, leaving assigned
    the fields that precede it in the iteration order of the mapping and
    untouched the others: nothing is rolled back. *)
Theorem Templates_changed_outcomes
  (RT : TraitsRuntime) (st : state) (c : cref) (orig_obj : option value)
  (d : pydict) (r : class_rec) (new : string) :
  heap st !! cid c = Some r ->
  let self := VClassModel c orig_obj d in
  let traits := traits_of_instance r in
  (forall kw,
     dict_get (c_templates r) new = Some kw ->
     ~ In "Templates" (dict_keys kw) ->
     all_validate traits kw ->
     exists d',
       _Templates_changed st self new = (OK tt, VClassModel c orig_obj d') /\
       (forall k, ~ In k (dict_keys kw) -> dict_get d' k = dict_get d k) /\
       (forall k v,
          List.NoDup (dict_keys kw) -> In (k, v) kw ->
          dict_get d' k = validate (trait_of traits k) v)) /\
  (dict_get (c_templates r) new = None ->
   _Templates_changed st self new = (OK tt, VClassModel c None []) /\
   forall name,
     getattr traits [] name = default_value (trait_of traits name)) /\
  (forall kw1 k v kw2,
     dict_get (c_templates r) new = Some (kw1 ++ (k, v) :: kw2) ->
     ~ In "Templates" (dict_keys kw1) ->
     all_validate traits kw1 ->
     validate (trait_of traits k) v = None ->
     exists why d1,
       trait_set traits d kw1 = (OK tt, d1) /\
       _Templates_changed st self new
       = (Raise (TraitError why), VClassModel c orig_obj d1)).
Proof.
  intros Hr self traits. split; [| split].
  - intros kw Hkw _ Hall.
    destruct (trait_set_all_validate traits d kw Hall) as (d' & Hset & H1 & H2).
    exists d'. split; [| split; assumption].
    unfold _Templates_changed, self. rewrite Hr, Hkw. fold traits.
    now rewrite Hset.
  - intros Hnone. split; [| reflexivity].
    unfold _Templates_changed, self. now rewrite Hr, Hnone.
  - intros kw1 k v kw2 Hkw _ Hall Hbad.
    destruct (trait_set_stops_at_invalid traits d kw1 kw2 k v Hall Hbad)
      as (why & d1 & H1 & H2).
    exists why, d1. split; [exact H1 |].
    unfold _Templates_changed, self. rewrite Hr, Hkw. fold traits.
    now rewrite H2.
Qed.

Lemma Templates_changed_outcomes_witness :
  let st := Account_state [("t1", [("number", VInt 5)])] in
  heap st !! cid Account = Some (Account_rec [("t1", [("number", VInt 5)])]) /\
  _Templates_changed st an_account "bogus"
  = (OK tt, VClassModel Account None []).
Proof.
  cbn zeta. split; [reflexivity |].
  apply (Templates_changed_outcomes traits_runtime
           (Account_state [("t1", [("number", VInt 5)])]) Account None
           [("number", VInt 1); ("active", VBool true)]
           (Account_rec [("t1", [("number", VInt 5)])]) "bogus");
    reflexivity.
Defined.

(** C4, counterexample.  A declared template holding a value that its field
    rejects is applied in part.  Whichever of the two fields the mapping
    yields first, one of the two templates leaves the instance with one
    field at its preset value and the other at its old value, and raises. *)
Lemma Templates_changed_partial_preset :
  (exists why,
     _Templates_changed
       (Account_state [("t1", [("number", VInt 5); ("active", VStr "x")])])
       an_account "t1"
     = (Raise (TraitError why),
        VClassModel Account None
          [("number", VInt 5); ("active", VBool true)])) /\
  (exists why,
     _Templates_changed
       (Account_state [("t1", [("active", VBool false); ("number", VStr "x")])])
       an_account "t1"
     = (Raise (TraitError why),
        VClassModel Account None
          [("number", VInt 1); ("active", VBool false)])).
Proof. split; eexists; vm_compute; reflexivity. Qed.

(** *** Memoization of synthesized classes *)

(** When the name is present in [__dynamically_created_classes], both
    get-or-create functions return the stored class and leave the state as
    it is. *)
Lemma get_or_create_returns_stored
  (RT : TraitsRuntime) (rec_trait_for : value -> M (trait * value))
  (st : state) (stored : cref) :
  (forall obj,
     dynamic_class st (__name__ (_type_func obj)) = Some stored ->
     get_or_create_ModelClass_for_obj rec_trait_for obj st
     = (OK stored, st)) /\
  (forall innerClass orig_class,
     dynamic_class st ("ListOf" +:+ __name__ innerClass) = Some stored ->
     _get_or_create_ClassListOf innerClass orig_class st = (OK stored, st)).
Proof.
  unfold dynamic_class. split.
  - intros obj H. unfold get_or_create_ModelClass_for_obj, bind, get_state.
    now rewrite H.
  - intros innerClass orig_class H.
    unfold _get_or_create_ClassListOf, bind, get_state. now rewrite H.
Qed.

(** C1, on an object that holds an object of its own class.  While
    [_create_ModelClass] infers the traits of the class [Node0] it has
    allocated for [root], the request made for [leaf] finds no entry for
    the name, creates a second class [Node1] and registers it; the outer
    call then overwrites that entry with [Node0].  The two classes differ
    in the trait of [child], and a later request for [leaf] is answered
    with [Node0], not with the class the first request for it returned. *)
Theorem nested_same_type_replaces_registry_entry :
  let rec_trait_for := get_or_create_trait_for 9 in
  let inferring :=
    _create_get_traits rec_trait_for
      (fun _ key t => add_class_trait Node0 key t) tt
      (VDict [("child", leaf)]) Node0_allocated in
  let requested := get_or_create_ModelClass_for_obj rec_trait_for root
                     initial_state in
  dynamic_class initial_state "Node" = None /\
  fst inferring = OK (tt, [("child", VClassModel Node1 (Some leaf) [])]) /\
  dynamic_class (snd inferring) "Node" = Some Node1 /\
  fst requested = OK Node0 /\
  dynamic_class (snd requested) "Node" = Some Node0 /\
  Node0 <> Node1 /\
  class_traits_at (snd requested) 0
  = Some (ClassModel_traits ++
          [("child", CTrait (T_Instance (K_class Node1) true) false)]) /\
  class_traits_at (snd requested) 1
  = Some (ClassModel_traits ++ [("child", CTrait T_Generic false)]) /\
  fst (get_or_create_ModelClass_for_obj rec_trait_for leaf (snd requested))
  = OK Node0.
Proof.
  cbn zeta. repeat split; try discriminate; vm_compute; reflexivity.
Qed.

(** *** Conversion back *)

(** C2, on the [system] object of the module docstring.  The attribute that
    held a dictionary holds, after [get_object], the [GenericTrait] editor
    made for that dictionary: [get_conv] converts back only the values that
    are [ClassModel] instances.  The nested editor itself converts back to
    the dictionary, and the same data given as a dictionary, which
    [GenericTrait.get_object] converts through [cast_back], comes back
    equal. *)
Theorem struct_with_dict_attribute_not_converted_back :
  let built := get_or_create_editor_for_obj 10 system_obj initial_state in
  let built_dict := get_or_create_editor_for_obj 10 system_dict initial_state in
  exists ed g ed',
    fst built = OK ed /\
    fst (get_object 10 ed false (snd built))
    = OK (VObj System [("location", VStr "Bytes Av, 16"); ("admin", g)]) /\
    isinstance_HasTraits g = true /\
    g <> admin /\
    fst (get_object 10 g false (snd built)) = OK admin /\
    fst built_dict = OK ed' /\
    fst (get_object 10 ed' false (snd built_dict)) = OK system_dict.
Proof.
  cbn zeta.
  exists (VClassModel (CRef 0 "System") (Some system_obj)
            [("location", VStr "Bytes Av, 16");
             ("admin",
              VGenericTrait false true None
                (GenericTrait_traits ++
                 [("name", CTrait T_CStr false);
                  ("number", CTrait T_Int false)])
                [("name", VStr "F1"); ("number", VInt 1)])]).
  exists (VGenericTrait false true None
            (GenericTrait_traits ++
             [("name", CTrait T_CStr false); ("number", CTrait T_Int false)])
            [("name", VStr "F1"); ("number", VInt 1)]).
  exists (VGenericTrait false true None
            (GenericTrait_traits ++
             [("location", CTrait T_CStr false);
              ("admin", CTrait (T_Instance K_GenericTrait true) false)])
            [("location", VStr "Bytes Av, 16");
             ("admin",
              VGenericTrait false true None
                (GenericTrait_traits ++
                 [("name", CTrait T_CStr false);
                  ("number", CTrait T_Int false)])
                [("name", VStr "F1"); ("number", VInt 1)])]).
  repeat split; try discriminate; vm_compute; reflexivity.
Qed.

(** C3, on a mixed list of eleven elements.  The pseudo-struct has the
    fields [pos0] ... [pos10], each holding the element of that position,
    but [get_object] reads them back in the order of [sorted] on the field
    names, which puts [pos10] between [pos1] and [pos2]: the last element of
    the list comes back third. *)
Theorem mixed_list_comes_back_in_name_order :
  let built := get_or_create_editor_for_obj 10 mixed11 initial_state in
  exists traits d,
    fst built = OK (VGenericTrait true false None traits d) /\
    d = map (fun '(i, val) => ("pos" +:+ str_nat i, val))
            (enumerate (elements mixed11)) /\
    sorted (dict_keys d)
    = ["pos0"; "pos1"; "pos10"; "pos2"; "pos3"; "pos4"; "pos5"; "pos6";
       "pos7"; "pos8"; "pos9"] /\
    fst (get_object 10 (VGenericTrait true false None traits d) false
           (snd built))
    = OK (VList [VInt 0; VStr "a"; VInt 10; VInt 2; VInt 3; VInt 4; VInt 5;
                 VInt 6; VInt 7; VInt 8; VInt 9]) /\
    fst (get_object 10 (VGenericTrait true false None traits d) false
           (snd built))
    <> OK mixed11.
Proof.
  cbn zeta.
  exists (GenericTrait_traits ++
          [("pos0", CTrait T_Int false); ("pos1", CTrait T_CStr false);
           ("pos2", CTrait T_Int false); ("pos3", CTrait T_Int false);
           ("pos4", CTrait T_Int false); ("pos5", CTrait T_Int false);
           ("pos6", CTrait T_Int false); ("pos7", CTrait T_Int false);
           ("pos8", CTrait T_Int false); ("pos9", CTrait T_Int false);
           ("pos10", CTrait T_Int false)]).
  eexists. split; [vm_compute; reflexivity |].
  split; [vm_compute; reflexivity |]. split; [vm_compute; reflexivity |].
  split; [vm_compute; reflexivity |].
  intros H. vm_compute in H. discriminate H.
Qed.

(** Up to ten elements the order of the field names is the order of the
    positions, so the values come back in sequence order. *)
Lemma sorted_positional_keys_upto_ten (n : nat) :
  n <= 10 ->
  sorted (map (fun i => "pos" +:+ str_nat i) (seq 0 n))
  = map (fun i => "pos" +:+ str_nat i) (seq 0 n).
Proof.
  intros Hn.
  do 11 (destruct n as [| n]; [vm_compute; reflexivity |]). lia.
Qed.

(** *** Lists without an inner type, and empty lists *)

(** C5, as the code has it.  The constructor of a list model raises its
    [TraitError] when no inner type is passed to it and the class declares
    none, for a list of any length; with an inner type it builds an empty
    instance when there is no element to add; and inferring the trait of an
    empty list does not fail: the list becomes a positional [GenericTrait]
    without fields, in an unchanged state. *)
Theorem list_synthesis_failure
  (RT : TraitsRuntime) (rec_trait_for : value -> M (trait * value))
  (rec_call : cref -> value -> M value) (c : cref)
  (class_orig orig_class : option pytype) (st : state) :
  (forall obj,
     ListClassModel___init__ rec_call c None class_orig obj None orig_class st
     = (Raise (TraitError
         "Lists must have an inner type specified, in the least case 'Any'"),
        st)) /\
  (forall obj class_inner trait_t inner,
     match trait_t with Some t => Some t | None => class_inner end
     = Some inner ->
     elements obj = [] ->
     ListClassModel___init__ rec_call c class_inner class_orig obj trait_t
       orig_class st
     = (OK (VListClassModel c inner
              (match orig_class with Some o => Some o | None => class_orig end)
              []),
        st)) /\
  create_list_trait rec_trait_for rec_call (VList []) st
  = (OK (T_Instance K_GenericTrait false,
         VGenericTrait true false None GenericTrait_traits []),
     st).
Proof.
  split; [| split].
  - reflexivity.
  - intros obj class_inner trait_t inner Hinner Hel.
    unfold ListClassModel___init__. rewrite Hinner, Hel.
    destruct (match orig_class with Some o => Some o | None => class_orig end);
      cbn; destruct (negb (is_None obj) && _is_list obj); reflexivity.
  - reflexivity.
Qed.

Lemma list_synthesis_failure_witness :
  ListClassModel___init__ (call_class 0) ListOfUser None None (VList [])
    (Some (InnerClass User_model)) (Some (py_user User)) initial_state
  = (OK (VListClassModel ListOfUser (InnerClass User_model)
           (Some (py_user User)) []),
     initial_state).
Proof.
  apply (list_synthesis_failure traits_runtime
           (get_or_create_trait_for 0) (call_class 0) ListOfUser None
           (Some (py_user User)) initial_state); reflexivity.
Defined.

(** C5, counterexample.  Editing an empty list, with no hint of any kind,
    does not fail; and a list class without inner type fails on a list
    that is not empty. *)
Lemma empty_list_is_not_the_failure :
  fst (get_or_create_editor_for_obj 10 (VList []) initial_state)
  = OK (VGenericTrait true false None GenericTrait_traits []) /\
  fst (call_class 5 (CRef 0 "BareList") (VList [VInt 1; VInt 2])
         Bare_list_state)
  = Raise (TraitError
      "Lists must have an inner type specified, in the least case 'Any'").
Proof. split; vm_compute; reflexivity. Qed.

(** *** Fields that fit no trait *)

Lemma for_each_app {A B} (l1 l2 : list A) (acc : B) (body : B -> A -> M B)
  (st : state) :
  for_each (l1 ++ l2) acc body st
  = (let* acc' := for_each l1 acc body in for_each l2 acc' body) st.
Proof.
  revert acc st. induction l1 as [| x l1 IH]; intros acc st; [reflexivity |].
  cbn [for_each app]. unfold bind in *.
  destruct (body acc x st) as [[acc' | e] st']; [| reflexivity].
  apply IH.
Qed.

Section SetInit.
Context {RT : TraitsRuntime}.
Variable rec_trait_for : value -> M (trait * value).
Variable rec_call : cref -> value -> M value.
Variable c : cref.

Lemma trait_set_other_keys (traits : list (string * ctrait))
  (d kw d' : pydict) (res : result unit) (key : string) :
  trait_set traits d kw = (res, d') ->
  ~ In key (dict_keys kw) -> dict_get d' key = dict_get d key.
Proof.
  revert d. induction kw as [| [k v] kw IH]; intros d; cbn.
  - intros H _. now injection H as _ <-.
  - intros H Hk. destruct (validate_trait traits k v) as [x | e].
    + rewrite (IH _ H) by (intros ?; apply Hk; now right).
      apply dict_get_set_ne. intros ->. apply Hk. now left.
    + now injection H as _ <-.
Qed.

(** An iteration of the loop writes, at most, the key it handles. *)
Lemma set_init_assign_other_keys (mod_traits mod' : pydict) (k key : string)
  (val : value) (st st' : state) :
  set_init_assign rec_call c mod_traits k val st = (OK mod', st') ->
  key <> k -> dict_get mod' key = dict_get mod_traits key.
Proof.
  intros H Hne. unfold set_init_assign, bind, class_of in H.
  destruct (heap st !! cid c) as [r |]; [| discriminate].
  destruct (validate_trait (traits_of_instance r) k val) as [x | e].
  - injection H as <- _. apply dict_get_set_ne. congruence.
  - destruct (is_TraitError e); [| discriminate].
    destruct (_is_list val).
    + destruct (elements val) as [| val0 l].
      * now injection H as <- _.
      * unfold _getClassListOf, bind, get_state, ret in H.
        destruct (__dynamically_created_classes st !! _) as [tl |];
          [| discriminate].
        destruct (rec_call tl val st) as [[obj | e'] st1]; [| discriminate].
        injection H as <- _. apply dict_get_set_ne. congruence.
    + unfold log in H. destruct (_ <=? _); now injection H as <- _.
Qed.

Lemma set_init_step_other_keys (mod_traits mod' : pydict)
  (kv : string * value) (key : string) (st st' : state) :
  set_init_step rec_trait_for rec_call c mod_traits kv st = (OK mod', st') ->
  key <> fst kv -> dict_get mod' key = dict_get mod_traits key.
Proof.
  intros H Hne. unfold set_init_step in H.
  destruct (set_init_skips (fst kv) (snd kv)).
  - now injection H as <- _.
  - unfold bind in H.
    destruct (set_init_convert rec_trait_for c (fst kv) (snd kv) st)
      as [[[val' |] | e] st1]; try discriminate.
    + eapply set_init_assign_other_keys; eauto.
    + now injection H as <- _.
Qed.

Lemma set_init_loop_other_keys (props : pydict) (mod_traits mod' : pydict)
  (key : string) (st st' : state) :
  for_each props mod_traits (set_init_step rec_trait_for rec_call c) st
  = (OK mod', st') ->
  ~ In key (dict_keys props) -> dict_get mod' key = dict_get mod_traits key.
Proof.
  revert mod_traits st. induction props as [| kv props IH];
    intros mod_traits st; cbn [for_each].
  - intros H _. now injection H as <- _.
  - unfold bind. intros H Hk.
    destruct (set_init_step rec_trait_for rec_call c mod_traits kv st)
      as [[mod1 | e] st1] eqn:Hstep; [| discriminate].
    rewrite (IH _ _ H) by (intros ?; apply Hk; now right).
    eapply set_init_step_other_keys; eauto.
    intros ->. apply Hk. now left.
Qed.

End SetInit.

Lemma dict_get_In_Some {A} (d : list (string * A)) (k : string) :
  In k (dict_keys d) -> exists v, dict_get d k = Some v.
Proof.
  induction d as [| [k' v'] d IH]; cbn; [intros [] |].
  destruct (String.eqb_spec k' k) as [-> | Hne]; [eauto |].
  intros [Heq | Hin]; [contradiction | now apply IH].
Qed.

(** C7.  The lenient drop of an unfit field, and where it is missed.  A
    field declared [Int] that receives a text does not fit its trait; the
    text is list-like for [_is_list], no list class is filed for [str], and
    line 235 calls the [None] that [_getClassListOf] returned: [set_init]
    raises [TypeError], the instance is not built and nothing is logged,
    whichever way the attributes are ordered, and also when the model was
    inferred from a first list element.  The sibling branch of lines
    240-242 does what is meant: a field declared [Bool] that receives a
    number is left out, one line is logged, and the other field is
    assigned. *)
Theorem text_in_number_field_aborts_construction :
  (fst (get_or_create_editor_for_obj 10 text_account (Account_state []))
   = Raise (TypeError "'NoneType' object is not callable") /\
   stream (snd (get_or_create_editor_for_obj 10 text_account
                  (Account_state []))) = []) /\
  (fst (get_or_create_editor_for_obj 10 text_account' (Account_state []))
   = Raise (TypeError "'NoneType' object is not callable") /\
   stream (snd (get_or_create_editor_for_obj 10 text_account'
                  (Account_state []))) = []) /\
  fst (get_or_create_editor_for_obj 10 (VList [user1; text_user])
         initial_state)
  = Raise (TypeError "'NoneType' object is not callable") /\
  (fst (get_or_create_editor_for_obj 10 miscast_account (Account_state []))
   = OK (VClassModel Account (Some miscast_account) [("number", VInt 5)]) /\
   stream (snd (get_or_create_editor_for_obj 10 miscast_account
                  (Account_state [])))
   = [LogLine LOG_LEVEL.ERROR 1
        (msg_exception
           (TraitError "the value does not validate against the trait"))]) /\
  fst (get_or_create_editor_for_obj 10 miscast_account' (Account_state []))
  = OK (VClassModel Account (Some miscast_account') [("number", VInt 5)]).
Proof.
  repeat split; vm_compute; reflexivity.
Qed.

(** ** What inference does to the state *)

Lemma extends_refl (st : state) : extends st st.
Proof.
  repeat split; try tauto.
  - intros i r H. exists r. unfold class_fixed. auto.
  - exists []. now rewrite app_nil_r.
Qed.

Lemma extends_trans (st1 st2 st3 : state) :
  extends st1 st2 -> extends st2 st3 -> extends st1 st3.
Proof.
  intros (Ha & Hd & Hh & [l1 Hl1]) (Ha' & Hd' & Hh' & [l2 Hl2]).
  repeat split.
  - congruence.
  - auto.
  - intros i r H. destruct (Hh i r H) as (r' & H' & F1 & F2 & F3).
    destruct (Hh' i r' H') as (r'' & H'' & G1 & G2 & G3).
    exists r''. unfold class_fixed. repeat split; congruence.
  - exists (l1 ++ l2). rewrite Hl2, Hl1. now rewrite app_assoc.
Qed.

Lemma grows_refl (st : state) : grows st st.
Proof. split; [apply extends_refl | auto]. Qed.

Lemma grows_trans (st1 st2 st3 : state) :
  grows st1 st2 -> grows st2 st3 -> grows st1 st3.
Proof.
  intros [E1 W1] [E2 W2]. split; [eapply extends_trans; eauto | auto].
Qed.

Section Preserves.
Variable R : state -> state -> Prop.
Hypothesis R_refl : forall st, R st st.
Hypothesis R_trans : forall st1 st2 st3, R st1 st2 -> R st2 st3 -> R st1 st3.

Lemma preserves_ret {A} (a : A) : preserves R (ret a).
Proof. intros st. apply R_refl. Qed.

Lemma preserves_raise {A} (e : exn) : preserves R (@raise A e).
Proof. intros st. apply R_refl. Qed.

Lemma preserves_lift {A} (r : result A) : preserves R (lift r).
Proof. intros st. apply R_refl. Qed.

Lemma preserves_get_state : preserves R get_state.
Proof. intros st. apply R_refl. Qed.

Lemma preserves_class_of (c : cref) : preserves R (class_of c).
Proof.
  intros st. unfold class_of. destruct (heap st !! cid c); apply R_refl.
Qed.

Lemma preserves_bind {A B} (m : M A) (k : A -> M B) :
  preserves R m -> (forall a, preserves R (k a)) -> preserves R (bind m k).
Proof.
  intros Hm Hk st. unfold bind. specialize (Hm st).
  destruct (m st) as [[a | e] st1]; cbn in *; [| exact Hm].
  eapply R_trans; [exact Hm | apply Hk].
Qed.

Lemma preserves_try_except {A} (m : M A) (catches : exn -> bool)
  (h : exn -> M A) :
  preserves R m -> (forall e, preserves R (h e)) ->
  preserves R (try_except m catches h).
Proof.
  intros Hm Hh st. unfold try_except. specialize (Hm st).
  destruct (m st) as [[a | e] st1]; cbn in *; [exact Hm |].
  destruct (catches e); [| exact Hm].
  eapply R_trans; [exact Hm | apply Hh].
Qed.

Lemma preserves_for_each {A B} (l : list A) (acc : B) (body : B -> A -> M B) :
  (forall acc x, preserves R (body acc x)) ->
  preserves R (for_each l acc body).
Proof.
  intros Hb. revert acc. induction l as [| x l IH]; intros acc; cbn.
  - apply preserves_ret.
  - apply preserves_bind; [apply Hb | intros acc'; apply IH].
Qed.

End Preserves.

(** The state operations of inference, one by one. *)

Lemma grows_log (level : nat) (msg : log_msg) : preserves grows (log level msg).
Proof.
  intros st. unfold log. destruct (level <=? loglevel); cbn;
    [| apply grows_refl].
  split; [| intros H; exact H].
  repeat split; cbn; try tauto.
  - intros i r H. exists r. unfold class_fixed. auto.
  - eauto.
Qed.

Lemma grows_set_depth (f : nat -> nat) : preserves grows (set_depth f).
Proof.
  intros st. cbn. split; [| intros H; exact H].
  repeat split; cbn; try tauto.
  - intros i r H. exists r. unfold class_fixed. auto.
  - exists []. now rewrite app_nil_r.
Qed.

Lemma grows_new_class (r : class_rec) : preserves grows (new_class r).
Proof.
  intros st. cbn. split.
  - repeat split; cbn; try tauto.
    + intros i r0 H. exists r0. split; [now apply lookup_app_l_Some |].
      unfold class_fixed. auto.
    + exists []. now rewrite app_nil_r.
  - intros Hwf name c Hc. destruct (Hwf name c Hc) as (Hn & r0 & Hr0 & Hname).
    split; [exact Hn |]. exists r0. cbn. split; [| exact Hname].
    now apply lookup_app_l_Some.
Qed.

Lemma grows_set_class_traits (c : cref)
  (f : list (string * ctrait) -> list (string * ctrait)) :
  preserves grows (set_class_traits c f).
Proof.
  intros st. cbn.
  assert (Hheap : forall i r,
             heap st !! i = Some r ->
             exists r',
               alter (fun r => {| c_name := c_name r; c_kind := c_kind r;
                                  c_traits := f (c_traits r);
                                  c_templates := c_templates r |})
                     (cid c) (heap st) !! i = Some r' /\ class_fixed r r').
  { intros i r H. destruct (decide (cid c = i)) as [<- | Hne].
    - rewrite list_lookup_alter_eq, H. cbn. eexists. split; [reflexivity |].
      unfold class_fixed. auto.
    - rewrite list_lookup_alter_ne by exact Hne. exists r.
      unfold class_fixed. auto. }
  split.
  - split; [reflexivity |]. split; [cbn; tauto |].
    split; [exact Hheap |]. exists []. cbn. now rewrite app_nil_r.
  - intros Hwf name c0 Hc0. cbn in Hc0.
    destruct (Hwf name c0 Hc0) as (Hn & r0 & Hr0 & Hname).
    split; [exact Hn |]. cbn.
    destruct (Hheap _ _ Hr0) as (r' & Hr' & Hf & _). exists r'.
    split; [exact Hr' | congruence].
Qed.

Lemma grows_bind {A B} (m : M A) (k : A -> M B) :
  preserves grows m -> (forall a, preserves grows (k a)) ->
  preserves grows (bind m k).
Proof. apply preserves_bind. exact grows_trans. Qed.

Lemma grows_try_except {A} (m : M A) (catches : exn -> bool)
  (h : exn -> M A) :
  preserves grows m -> (forall e, preserves grows (h e)) ->
  preserves grows (try_except m catches h).
Proof. apply preserves_try_except. exact grows_trans. Qed.

Lemma grows_for_each {A B} (l : list A) (acc : B) (body : B -> A -> M B) :
  (forall acc x, preserves grows (body acc x)) ->
  preserves grows (for_each l acc body).
Proof. apply preserves_for_each; [exact grows_refl | exact grows_trans]. Qed.

Lemma grows_unchanged {A} (m : M A) :
  (forall st, snd (m st) = st) -> preserves grows m.
Proof. intros H st. rewrite H. apply grows_refl. Qed.

(** One step of a proof that a computation keeps [grows]. *)
Ltac grows_step :=
  match goal with
  | |- preserves grows (bind _ _) => apply grows_bind; [| intros ?]
  | |- preserves grows (try_except _ _ _) =>
      apply grows_try_except; [| intros ?]
  | |- preserves grows (for_each _ _ _) => apply grows_for_each; intros ? ?
  | |- preserves grows (ret _) => apply grows_unchanged; reflexivity
  | |- preserves grows (raise _) => apply grows_unchanged; reflexivity
  | |- preserves grows (lift _) => apply grows_unchanged; reflexivity
  | |- preserves grows get_state => apply grows_unchanged; reflexivity
  | |- preserves grows (log _ _) => apply grows_log
  | |- preserves grows (set_depth _) => apply grows_set_depth
  | |- preserves grows (new_class _) => apply grows_new_class
  | |- preserves grows (set_class_traits _ _) => apply grows_set_class_traits
  | |- preserves grows (class_of _) =>
      apply (preserves_class_of grows grows_refl)
  | |- preserves grows (match ?x with _ => _ end) => destruct x
  | |- preserves grows ((match ?x with _ => _ end) _) =>
      destruct x; cbv beta
  | _ => solve [auto]
  end.

Section GrowsSynthesis.
Context {RT : TraitsRuntime}.

Lemma grows_add_class_trait (c : cref) (name : string) (t : trait) :
  preserves grows (add_class_trait c name t).
Proof. unfold add_class_trait. repeat grows_step. Qed.

Lemma grows_get_obj_t (t : pytype) : preserves grows (get_obj_t t).
Proof. apply grows_unchanged. reflexivity. Qed.

Lemma grows_getClassListOf (t : pytype) : preserves grows (_getClassListOf t).
Proof. apply grows_unchanged. reflexivity. Qed.

(** Filing under [name] a class object called [name]. *)
Lemma grows_file (name : string) (c : cref) (st : state) :
  cname c = name ->
  (exists r, heap st !! cid c = Some r /\ c_name r = name) ->
  grows st
    (snd (set_dynamically_created_classes (fun m => <[name := c]> m) st)).
Proof.
  intros Hname Hr. cbn. split.
  - split; [reflexivity |]. split; [| split].
    + cbn. intros n [x Hx]. destruct (decide (name = n)) as [<- | Hne].
      * rewrite lookup_insert_eq. eauto.
      * rewrite lookup_insert_ne by exact Hne. eauto.
    + cbn. intros i r H. exists r. unfold class_fixed. auto.
    + exists []. cbn. now rewrite app_nil_r.
  - intros Hwf n c0. cbn. destruct (decide (name = n)) as [<- | Hne].
    + rewrite lookup_insert_eq. intros [= <-]. auto.
    + rewrite lookup_insert_ne by exact Hne. apply Hwf.
Qed.

Lemma grows_create_ListClass (name : string) (innerClass : cref)
  (orig_class : option pytype) :
  preserves grows (_create_ListClass name innerClass orig_class).
Proof.
  intros st. unfold _create_ListClass, bind, log. cbn [Nat.leb LOG_LEVEL.DEBUG loglevel].
  set (r := {| c_name := name;
               c_kind := ListClass (Some (InnerClass innerClass)) None
                                   orig_class;
               c_traits := ListClassModel_traits;
               c_templates := [] |}).
  cbn [new_class ret snd fst].
  eapply grows_trans; [apply (grows_new_class r st) |].
  apply grows_file; [reflexivity |]. cbn. exists r. split; [| reflexivity].
  rewrite lookup_app_r by lia. now rewrite Nat.sub_diag.
Qed.

Lemma grows_get_or_create_ClassListOf (innerClass : cref)
  (orig_class : option pytype) :
  preserves grows (_get_or_create_ClassListOf innerClass orig_class).
Proof.
  intros st. unfold _get_or_create_ClassListOf, bind, get_state.
  destruct (__dynamically_created_classes st !! _).
  - apply grows_refl.
  - apply grows_create_ListClass.
Qed.

End GrowsSynthesis.

Section GrowsBodies.
Context {RT : TraitsRuntime}.
Variable rec_trait_for : value -> M (trait * value).
Variable rec_call : cref -> value -> M value.
Hypothesis rec_trait_for_grows : forall obj, preserves grows (rec_trait_for obj).
Hypothesis rec_call_grows : forall c obj, preserves grows (rec_call c obj).

Lemma grows_create_get_traits {T} (add_trait_f : T -> string -> trait -> M T)
  (acc : T) (obj_props : value) :
  (forall acc key t, preserves grows (add_trait_f acc key t)) ->
  preserves grows (_create_get_traits rec_trait_for add_trait_f acc obj_props).
Proof.
  intros Hadd. unfold _create_get_traits. repeat grows_step.
  all: try apply grows_get_obj_t; auto.
Qed.

Lemma grows_GenericTrait_init (obj : value) (as_list : bool) :
  preserves grows (GenericTrait___init__ rec_trait_for obj as_list).
Proof.
  unfold GenericTrait___init__. repeat grows_step.
  all: try (apply grows_create_get_traits; intros; repeat grows_step).
Qed.

Lemma grows_set_init_step (c : cref) (mod_traits : pydict)
  (kv : string * value) :
  preserves grows (set_init_step rec_trait_for rec_call c mod_traits kv).
Proof.
  unfold set_init_step, set_init_convert, set_init_assign.
  repeat grows_step.
  all: try apply grows_get_obj_t; try apply grows_add_class_trait;
    try apply grows_getClassListOf; auto.
Qed.

Lemma grows_set_init (c : cref) (d : pydict) (traits : value) :
  preserves grows (set_init rec_trait_for rec_call c d traits).
Proof.
  unfold set_init, set_init_finish. repeat grows_step.
  all: try apply grows_set_init_step.
Qed.

Lemma grows_ClassModel_init (c : cref) (obj : value) :
  preserves grows (ClassModel___init__ rec_trait_for rec_call c obj).
Proof.
  unfold ClassModel___init__. repeat grows_step.
  all: try apply grows_set_init.
Qed.

Lemma grows_ListClassModel_init (c : cref) (ci : option inner_t)
  (co : option pytype) (obj : value) (trait_t : option inner_t)
  (orig_class : option pytype) :
  preserves grows
    (ListClassModel___init__ rec_call c ci co obj trait_t orig_class).
Proof.
  unfold ListClassModel___init__. repeat grows_step.
Qed.

Lemma grows_call_class_body (c : cref) (obj : value) :
  preserves grows (call_class_body rec_trait_for rec_call c obj).
Proof.
  unfold call_class_body. repeat grows_step.
  - apply grows_ClassModel_init.
  - apply grows_ListClassModel_init.
Qed.

Lemma grows_create_ModelClass (name : string) (obj : value) :
  preserves grows (_create_ModelClass rec_trait_for name obj).
Proof.
  intros st. unfold _create_ModelClass.
  unfold bind at 1. cbn [log LOG_LEVEL.DEBUG loglevel Nat.leb].
  unfold bind at 1. unfold lift at 1.
  destruct (vars obj) as [obj_props | e]; [| apply grows_refl].
  set (r := {| c_name := name; c_kind := ModelClass;
               c_traits := ClassModel_traits; c_templates := [] |}).
  unfold bind at 1. cbn [new_class].
  set (c := CRef (length (heap st)) (c_name r)).
  set (st1 := snd (new_class r st)).
  assert (H01 : grows st st1) by apply grows_new_class.
  assert (Hc1 : heap st1 !! cid c = Some r).
  { cbn. rewrite lookup_app_r by lia. now rewrite Nat.sub_diag. }
  change {| _api_types_to_trait := _api_types_to_trait st;
            __dynamically_created_classes := __dynamically_created_classes st;
            heap := heap st ++ [r]; stream := stream st; depth := depth st |}
    with st1.
  unfold bind at 1.
  pose proof (grows_create_get_traits
                (fun (_ : ()) key t => add_class_trait c key t) tt
                (VDict obj_props)
                (fun _ key t => grows_add_class_trait c key t) st1) as H12.
  destruct (_create_get_traits rec_trait_for _ tt (VDict obj_props) st1)
    as [[a | e] st2]; cbn [snd] in H12.
  - unfold bind. cbn [set_dynamically_created_classes ret snd].
    eapply grows_trans; [exact H01 |]. eapply grows_trans; [exact H12 |].
    apply (grows_file name c st2); [reflexivity |].
    destruct H12 as [(_ & _ & Hh & _) _].
    destruct (Hh _ _ Hc1) as (r' & Hr' & Hn & _). exists r'. split; [exact Hr' |].
    exact Hn.
  - cbn [snd]. eapply grows_trans; eauto.
Qed.

Lemma grows_get_or_create_ModelClass_for_obj (obj : value) :
  preserves grows (get_or_create_ModelClass_for_obj rec_trait_for obj).
Proof.
  unfold get_or_create_ModelClass_for_obj. repeat grows_step.
  apply grows_create_ModelClass.
Qed.

Lemma grows_create_list_trait (obj : value) :
  preserves grows (create_list_trait rec_trait_for rec_call obj).
Proof.
  unfold create_list_trait. repeat grows_step.
  all: try apply grows_get_obj_t; try apply grows_GenericTrait_init;
    try apply grows_get_or_create_ModelClass_for_obj;
    try apply grows_get_or_create_ClassListOf; auto.
Qed.

Lemma grows_create_generic_trait (obj : value) :
  preserves grows (create_generic_trait rec_trait_for rec_call obj).
Proof.
  unfold create_generic_trait. repeat grows_step.
  all: try apply grows_create_list_trait; try apply grows_GenericTrait_init;
    try apply grows_get_or_create_ModelClass_for_obj; auto.
Qed.

Lemma grows_get_or_create_trait_for_body (obj : value) :
  preserves grows (get_or_create_trait_for_body rec_trait_for rec_call obj).
Proof.
  unfold get_or_create_trait_for_body. repeat grows_step.
  all: try apply grows_get_obj_t; try apply grows_create_generic_trait; auto.
Qed.

End GrowsBodies.

Lemma synthesis_grows (RT : TraitsRuntime) (fuel : nat) :
  (forall obj, preserves grows (get_or_create_trait_for fuel obj)) /\
  (forall c obj, preserves grows (call_class fuel c obj)).
Proof.
  induction fuel as [| fuel [IH1 IH2]].
  - split; intros; apply grows_unchanged; reflexivity.
  - split; intros; cbn [get_or_create_trait_for call_class].
    + now apply grows_get_or_create_trait_for_body.
    + now apply grows_call_class_body.
Qed.

(** X1.  Inference never touches the registered handlers: whatever value is
    edited, from whatever state, [_api_types_to_trait] is afterwards what it
    was, and so a type name with a registered handler is still answered
    with that handler by [get_obj_t]. *)
Theorem inference_keeps_registered_handlers
  (RT : TraitsRuntime) (fuel : nat) (obj : value) (st : state)
  (t : pytype) (handler : cref) :
  _api_types_to_trait st !! __name__ t = Some handler ->
  let st' := snd (get_or_create_editor_for_obj fuel obj st) in
  _api_types_to_trait st' = _api_types_to_trait st /\
  get_obj_t t st' = (OK (Some handler), st').
Proof.
  intros Hh st'.
  assert (Hapi : _api_types_to_trait st' = _api_types_to_trait st).
  { unfold st', get_or_create_editor_for_obj.
    destruct (isinstance_HasTraits obj); [reflexivity |].
    unfold bind.
    pose proof (proj1 (synthesis_grows RT fuel) obj st) as [(Ha & _) _].
    destruct (get_or_create_trait_for fuel obj st) as [[[ti to] | e] st1];
      exact Ha. }
  split; [exact Hapi |].
  unfold get_obj_t, bind, get_state, ret. now rewrite Hapi, Hh.
Qed.

Lemma inference_keeps_registered_handlers_witness :
  get_obj_t (py_user (PyClass "Account" true))
    (snd (get_or_create_editor_for_obj 10 system_obj (Account_state [])))
  = (OK (Some Account),
     snd (get_or_create_editor_for_obj 10 system_obj (Account_state []))).
Proof.
  apply (inference_keeps_registered_handlers traits_runtime 10 system_obj
           (Account_state []) (py_user (PyClass "Account" true)) Account).
  reflexivity.
Defined.

(** X2.  Inference only adds: after editing any value, every name that was
    in [__dynamically_created_classes] is still there, every class object
    still exists with the name, kind and templates it had, and the log is
    the former log followed by new lines. *)
Theorem inference_extends_state
  (RT : TraitsRuntime) (fuel : nat) (obj : value) (c : cref) (st : state) :
  extends st (snd (get_or_create_editor_for_obj fuel obj st)) /\
  extends st (snd (get_or_create_trait_for fuel obj st)) /\
  extends st (snd (call_class fuel c obj st)).
Proof.
  destruct (synthesis_grows RT fuel) as [H1 H2].
  split; [| split; [apply H1 | apply H2]].
  unfold get_or_create_editor_for_obj.
  destruct (isinstance_HasTraits obj); [apply extends_refl |].
  unfold bind. pose proof (H1 obj st) as [He _].
  destruct (get_or_create_trait_for fuel obj st) as [[[ti to] | e] st1];
    exact He.
Qed.

(** X3.  If every dynamically created class is filed under its own name,
    it stays so through any inference, and the model class found or
    created for an object bears the name of the type of the object and is
    a class object of the heap, filed under that name. *)
Theorem model_class_is_named_after_type
  (RT : TraitsRuntime) (fuel : nat) (obj : value) (st : state) :
  registry_wf st ->
  registry_wf (snd (get_or_create_trait_for fuel obj st)) /\
  forall c st',
    get_or_create_ModelClass_for_obj (get_or_create_trait_for fuel) obj st
    = (OK c, st') ->
    registry_wf st' /\
    cname c = __name__ (_type_func obj) /\
    dynamic_class st' (__name__ (_type_func obj)) = Some c /\
    exists r, heap st' !! cid c = Some r /\
              c_name r = __name__ (_type_func obj).
Proof.
  intros Hwf. destruct (synthesis_grows RT fuel) as [H1 H2].
  split; [now apply (H1 obj st) |].
  intros c st' Hrun.
  pose proof (grows_get_or_create_ModelClass_for_obj _ H1 obj st) as [_ Hw].
  rewrite Hrun in Hw. cbn [snd] in Hw. specialize (Hw Hwf).
  assert (Hdyn : dynamic_class st' (__name__ (_type_func obj)) = Some c).
  { unfold dynamic_class.
    unfold get_or_create_ModelClass_for_obj, bind, get_state in Hrun.
    destruct (__dynamically_created_classes st !! _) as [c0 |] eqn:Hc0.
    - injection Hrun as <- <-. exact Hc0.
    - unfold _create_ModelClass, bind, log, lift in Hrun.
      cbn [Nat.leb LOG_LEVEL.DEBUG loglevel] in Hrun.
      destruct (vars obj) as [props |]; [| discriminate].
      cbn [new_class] in Hrun.
      destruct (_create_get_traits _ _ _ _ _) as [[a | e] st2];
        [| discriminate].
      cbn in Hrun. injection Hrun as <- <-. cbn. apply lookup_insert_eq. }
  split; [exact Hw |]. destruct (Hw _ _ Hdyn) as (Hn & r & Hr & Hrn).
  split; [exact Hn |]. split; [exact Hdyn |]. eauto.
Qed.

Lemma model_class_is_named_after_type_witness :
  registry_wf initial_state /\
  registry_wf (snd (get_or_create_trait_for 10 root initial_state)).
Proof.
  assert (H : registry_wf initial_state).
  { intros name c Hc. cbn in Hc. rewrite lookup_empty in Hc. discriminate. }
  split; [exact H |].
  apply (model_class_is_named_after_type traits_runtime 10 root
           initial_state H).
Defined.

(** ** What conversion back does to the state *)

Lemma same_classes_refl (st : state) : same_classes st st.
Proof. repeat split. exists []. now rewrite app_nil_r. Qed.

Lemma same_classes_trans (st1 st2 st3 : state) :
  same_classes st1 st2 -> same_classes st2 st3 -> same_classes st1 st3.
Proof.
  intros (A1 & D1 & H1 & [l1 L1]) (A2 & D2 & H2 & [l2 L2]).
  repeat split; try congruence.
  exists (l1 ++ l2). rewrite L2, L1. now rewrite app_assoc.
Qed.

Lemma same_classes_unchanged {A} (m : M A) :
  (forall st, snd (m st) = st) -> preserves same_classes m.
Proof. intros H st. rewrite H. apply same_classes_refl. Qed.

Lemma same_classes_log (level : nat) (msg : log_msg) :
  preserves same_classes (log level msg).
Proof.
  intros st. unfold log. destruct (level <=? loglevel); cbn;
    [| apply same_classes_refl].
  repeat split. cbn. eauto.
Qed.

(** One step of a proof that a computation keeps [same_classes]. *)
Ltac same_step :=
  match goal with
  | |- preserves same_classes (bind _ _) =>
      apply (preserves_bind same_classes same_classes_trans); [| intros ?]
  | |- preserves same_classes (try_except _ _ _) =>
      apply (preserves_try_except same_classes same_classes_trans);
      [| intros ?]
  | |- preserves same_classes (for_each _ _ _) =>
      apply (preserves_for_each same_classes same_classes_refl
               same_classes_trans); intros ? ?
  | |- preserves same_classes (ret _) =>
      apply same_classes_unchanged; reflexivity
  | |- preserves same_classes (raise _) =>
      apply same_classes_unchanged; reflexivity
  | |- preserves same_classes (lift _) =>
      apply same_classes_unchanged; reflexivity
  | |- preserves same_classes (log _ _) => apply same_classes_log
  | |- preserves same_classes (class_of _) =>
      apply (preserves_class_of same_classes same_classes_refl)
  | |- preserves same_classes (match ?x with _ => _ end) => destruct x
  | |- preserves same_classes ((match ?x with _ => _ end) _) =>
      destruct x; cbv beta
  | _ => solve [auto]
  end.

Section SameClasses.
Context {RT : TraitsRuntime}.

(** Calling a model class without an object changes nothing. *)
Lemma call_class_noarg_state (c : cref) (st : state) :
  snd (call_class 1 c VNone st) = st.
Proof.
  cbn [call_class]. unfold call_class_body, bind, class_of.
  destruct (heap st !! cid c) as [r |]; [| reflexivity].
  destruct (c_kind r) as [| ii it oc]; [reflexivity |].
  unfold ListClassModel___init__.
  destruct (match ii with Some t => Some t | None => it end);
    [| reflexivity].
  destruct oc; reflexivity.
Qed.

Lemma same_classes_call_noarg (t : pytype) :
  preserves same_classes (call_noarg t).
Proof.
  destruct t; cbn [call_noarg]; repeat same_step.
  apply same_classes_unchanged. apply call_class_noarg_state.
Qed.

Lemma same_classes_default_value (t : trait) :
  preserves same_classes (default_value t).
Proof.
  destruct t as [| | | | | | | | k [|] | [| v vs]]; cbn [default_value];
    repeat same_step; try destruct k; repeat same_step;
    apply same_classes_call_noarg.
Qed.

Lemma same_classes_trait_get (traits : list (string * ctrait)) (d : pydict) :
  preserves same_classes (trait_get traits d).
Proof.
  unfold trait_get, getattr. repeat same_step.
  apply same_classes_default_value.
Qed.

Variable rec_get_object : value -> bool -> M value.
Hypothesis rec_same :
  forall v b, preserves same_classes (rec_get_object v b).

Lemma same_classes_cast_back (obj : value) (cast_to : option pytype) :
  preserves same_classes (cast_back rec_get_object obj cast_to).
Proof.
  unfold cast_back. repeat same_step.
  all: try apply same_classes_call_noarg.
Qed.

Lemma same_classes_get_object_body (self : value) (as_dict : bool) :
  preserves same_classes (get_object_body rec_get_object self as_dict).
Proof.
  unfold get_object_body, ClassModel_get_object, ClassModel_get_conv,
    ListClassModel_get_object, GenericTrait_get_object.
  destruct self; repeat same_step.
  all: try apply same_classes_trait_get; try apply same_classes_cast_back.
Qed.

End SameClasses.

(** X4.  Converting back never creates, files or changes a class: after
    [get_object] on any value, both registries and the class heap are what
    they were, and the log is the former log followed by new lines. *)
Theorem get_object_keeps_classes
  (RT : TraitsRuntime) (fuel : nat) (self : value) (as_dict : bool)
  (st : state) :
  same_classes st (snd (get_object fuel self as_dict st)).
Proof.
  revert self as_dict st. induction fuel as [| fuel IH];
    intros self as_dict st; cbn [get_object].
  - apply same_classes_refl.
  - apply same_classes_get_object_body. exact IH.
Qed.

(** ** Lists of one base type, and [edit] *)

Lemma remove_dups_constant {A} `{EqDecision A} (t : A) (l : list A) :
  l <> [] -> Forall (fun x => x = t) l -> remove_dups l = [t].
Proof.
  induction l as [| x l IH]; [congruence |]. intros _ Hall.
  apply Forall_cons_iff in Hall as [-> Hall]. cbn.
  destruct l as [| y l].
  - cbn. destruct (decide_rel _ _ _) as [H | H]; [| reflexivity].
    now apply elem_of_nil in H.
  - destruct (decide_rel _ _ _) as [H | H].
    + apply IH; [discriminate | exact Hall].
    + exfalso. apply H. apply Forall_cons_iff in Hall as [-> _]. left.
Qed.

(** What [create_list_trait] and the entry point answer for a list-like
    value whose elements are all of one base type. *)
Lemma homogeneous_list_editor
  (RT : TraitsRuntime) (rec_trait_for : value -> M (trait * value))
  (rec_call : cref -> value -> M value) (t : pytype) (obj : value)
  (st : state) (fuel : nat) :
  homogeneous t obj ->
  create_list_trait rec_trait_for rec_call obj st
  = (OK (T_List (T_Type t), obj), st) /\
  (fst (get_obj_t (_type_func obj) st) = OK None ->
   exists d,
     get_or_create_editor_for_obj (S fuel) obj st
     = (OK obj,
        {| _api_types_to_trait := _api_types_to_trait st;
           __dynamically_created_classes := __dynamically_created_classes st;
           heap := heap st; stream := stream st; depth := d |})).
Proof.
  intros (Hlist & Hne & Hbase & Hall).
  assert (Hcreate :
    create_list_trait rec_trait_for rec_call obj st
    = (OK (T_List (T_Type t), obj), st)).
  { unfold create_list_trait.
    rewrite (remove_dups_constant t (map _type_func (elements obj))).
    - destruct (elements obj) as [| x xs]; [congruence |].
      rewrite Hbase. unfold bind, log. cbn.
      destruct (bool_decide (t = py_str)) eqn:E; [| reflexivity].
      apply bool_decide_eq_true in E. now subst.
    - destruct (elements obj); [congruence | discriminate].
    - apply Forall_map. exact Hall. }
  split; [exact Hcreate |]. intros Hnone.
  unfold get_or_create_editor_for_obj.
    assert (Hnot : isinstance_HasTraits obj = false)
      by (destruct obj; try discriminate; reflexivity).
    rewrite Hnot. cbn [get_or_create_trait_for].
    unfold get_or_create_trait_for_body. rewrite Hnot.
    unfold get_obj_t, bind, get_state, ret in *. cbn in Hnone |- *.
    destruct (_api_types_to_trait st !! _); [discriminate |].
    destruct (__dynamically_created_classes st !! _); [discriminate |].
    unfold create_generic_trait. rewrite Hlist. unfold bind, log. cbn.
    match goal with
    | |- context [create_list_trait ?a ?b obj ?s] =>
        pose proof (fun H => remove_dups_constant t
                      (map _type_func (elements obj)) H
                      (proj2 (Forall_map _ _ _) Hall)) as Hrd
    end.
    unfold create_list_trait. rewrite Hrd
      by (destruct (elements obj); [congruence | discriminate]).
    destruct (elements obj) as [| x xs]; [congruence |].
    rewrite Hbase. unfold bind, log. cbn.
    destruct (bool_decide (t = py_str)); cbn; eauto.
Qed.

(** X5.  A list-like value whose elements are all of one base type is not
    given an editor: [create_list_trait] answers with a [List] trait of
    that type and the value itself, in an unchanged state; and when no
    handler is known for the type of the value, so does the entry point
    [get_or_create_editor_for_obj]. *)
Theorem homogeneous_list_is_its_own_editor
  (RT : TraitsRuntime) (rec_trait_for : value -> M (trait * value))
  (rec_call : cref -> value -> M value) (t : pytype) (obj : value)
  (st : state) (fuel : nat) :
  homogeneous t obj ->
  create_list_trait rec_trait_for rec_call obj st
  = (OK (T_List (T_Type t), obj), st) /\
  (fst (get_obj_t (_type_func obj) st) = OK None ->
   fst (get_or_create_editor_for_obj (S fuel) obj st) = OK obj /\
   extends st (snd (get_or_create_editor_for_obj (S fuel) obj st)) /\
   __dynamically_created_classes
     (snd (get_or_create_editor_for_obj (S fuel) obj st))
   = __dynamically_created_classes st /\
   heap (snd (get_or_create_editor_for_obj (S fuel) obj st)) = heap st).
Proof.
  intros Hh.
  destruct (homogeneous_list_editor RT rec_trait_for rec_call t obj st fuel
              Hh) as [Hcreate Hed].
  split; [exact Hcreate |]. intros Hnone.
  destruct (Hed Hnone) as [d Hrun]. rewrite Hrun. cbn [fst snd].
  split; [reflexivity |]. split; [| split; reflexivity].
  repeat split; cbn; try tauto.
  - intros i r H. exists r. unfold class_fixed. auto.
  - exists []. now rewrite app_nil_r.
Qed.

Lemma homogeneous_list_is_its_own_editor_witness :
  homogeneous py_int (VList [VInt 1; VInt 2]) /\
  fst (get_or_create_editor_for_obj (RT := traits_runtime) 1
         (VList [VInt 1; VInt 2]) initial_state)
  = OK (VList [VInt 1; VInt 2]).
Proof.
  assert (H : homogeneous py_int (VList [VInt 1; VInt 2])).
  { repeat split; [discriminate | repeat constructor]. }
  split; [exact H |].
  exact (proj1 (proj2 (homogeneous_list_is_its_own_editor traits_runtime
                         (get_or_create_trait_for 0) (call_class 0) py_int
                         (VList [VInt 1; VInt 2]) initial_state 0 H)
                  eq_refl)).
Defined.

(** X6.  [edit] of a list-like value whose elements are all of one base
    type fails once the editor is to be shown, whatever [replace] is: the
    value is its own editor, and it has no [configure_traits]. *)
Theorem edit_of_homogeneous_list_raises
  (RT : TraitsRuntime) (user : value -> value) (fuel : nat) (t : pytype)
  (obj : value) (replace : bool) (st : state) :
  homogeneous t obj ->
  fst (get_obj_t (_type_func obj) st) = OK None ->
  exists why,
    fst (edit user (S fuel) obj replace st) = Raise (AttributeError why).
Proof.
  intros Hh Hnone.
  destruct (homogeneous_list_editor RT
              (get_or_create_trait_for 0) (call_class 0) t obj st fuel Hh)
    as [_ Hed].
  destruct (Hed Hnone) as (d & Hrun).
  unfold edit, bind. rewrite Hrun. unfold configure_traits.
  destruct Hh as (Hlist & _).
  assert (Hnot : isinstance_HasTraits obj = false)
    by (destruct obj; try discriminate; reflexivity).
  rewrite Hnot. cbn. eauto.
Qed.

Lemma edit_of_homogeneous_list_raises_witness :
  exists why,
    fst (edit (fun ed => ed) 1 (VList [VInt 1; VInt 2; VInt 3]) false
           initial_state)
    = Raise (AttributeError why).
Proof.
  apply (edit_of_homogeneous_list_raises traits_runtime (fun ed => ed) 0
           py_int (VList [VInt 1; VInt 2; VInt 3]) false initial_state).
  - repeat split; [discriminate | repeat constructor].
  - reflexivity.
Defined.



(** ** Flat values come back as they were *)

Lemma dict_set_fresh {A} (d : list (string * A)) (k : string) (v : A) :
  k ∉ dict_keys d -> dict_set d k v = d ++ [(k, v)].
Proof.
  induction d as [| [k' v'] d IH]; cbn; [reflexivity |].
  intros Hk. apply not_elem_of_cons in Hk as [Hne Hk].
  destruct (String.eqb_spec k' k) as [-> | _]; [congruence |].
  now rewrite IH.
Qed.

Lemma fold_dict_set_fresh {A B} (f : string * B -> A) (l : list (string * B))
  (acc : list (string * A)) :
  NoDup (dict_keys l) ->
  (forall k, k ∈ dict_keys l -> k ∉ dict_keys acc) ->
  fold_left (fun a kv => dict_set a (fst kv) (f kv)) l acc
  = acc ++ map (fun kv => (fst kv, f kv)) l.
Proof.
  revert acc. induction l as [| [k v] l IH]; intros acc Hnd Hdis; cbn.
  - now rewrite app_nil_r.
  - cbn in Hnd. apply NoDup_cons in Hnd as [Hk Hnd].
    rewrite dict_set_fresh by (apply Hdis; left).
    rewrite IH; [now rewrite <- app_assoc | exact Hnd |].
    intros k' Hk'. unfold dict_keys. rewrite map_app. cbn.
    rewrite elem_of_app, list_elem_of_singleton.
    intros [Hin | ->]; [| contradiction].
    apply (Hdis k'); [now right | exact Hin].
Qed.

Lemma dict_get_app_fresh {A} (d1 d2 : list (string * A)) (k : string) :
  k ∉ dict_keys d1 -> dict_get (d1 ++ d2) k = dict_get d2 k.
Proof.
  induction d1 as [| [k' v'] d1 IH]; cbn; [reflexivity |].
  intros Hk. apply not_elem_of_cons in Hk as [Hne Hk].
  destruct (String.eqb_spec k' k) as [-> | _]; [congruence | now apply IH].
Qed.

Lemma dict_get_map_first {A B} (f : string * B -> A) (l : list (string * B))
  (k : string) (v : B) :
  dict_get (map (fun kv => (fst kv, f kv)) ((k, v) :: l)) k = Some (f (k, v)).
Proof. cbn. now rewrite String.eqb_refl. Qed.

Lemma remove_dups_NoDup {A} `{EqDecision A} (l : list A) :
  NoDup l -> remove_dups l = l.
Proof.
  induction l as [| x l IH]; [reflexivity |]. intros Hnd.
  apply NoDup_cons in Hnd as [Hx Hnd]. cbn.
  destruct (decide_rel _ _ _); [contradiction | now rewrite IH].
Qed.

Lemma remove_dups_app_absorb {A} `{EqDecision A} (l1 l2 : list A) :
  (forall x, x ∈ l1 -> x ∈ l2) ->
  remove_dups (l1 ++ l2) = remove_dups l2.
Proof.
  induction l1 as [| x l1 IH]; [reflexivity |]. intros Hin. cbn.
  destruct (decide_rel _ _ _) as [_ | Hn].
  - apply IH. intros y Hy. apply Hin. now right.
  - exfalso. apply Hn. apply elem_of_app. right. apply Hin. left.
Qed.

Lemma remove_dups_app_disjoint {A} `{EqDecision A} (l1 l2 : list A) :
  NoDup l1 -> (forall x, x ∈ l1 -> x ∉ l2) ->
  remove_dups (l1 ++ l2) = l1 ++ remove_dups l2.
Proof.
  induction l1 as [| x l1 IH]; [reflexivity |]. intros Hnd Hdis.
  apply NoDup_cons in Hnd as [Hx Hnd]. cbn.
  destruct (decide_rel _ _ _) as [Hin | _].
  - exfalso. apply elem_of_app in Hin as [Hin | Hin]; [contradiction |].
    apply (Hdis x); [left | exact Hin].
  - rewrite IH; [reflexivity | exact Hnd |].
    intros y Hy. apply Hdis. now right.
Qed.

Lemma GenericTrait_traits_private (k : string) :
  startswith_underscore k = false -> k ∉ dict_keys GenericTrait_traits.
Proof.
  intros Hk Hin. cbn in Hin.
  repeat (apply elem_of_cons in Hin as [-> | Hin]; [discriminate Hk |]).
  now apply elem_of_nil in Hin.
Qed.

Lemma dict_get_of_NoDup {A} (l : list (string * A)) (k : string) (v : A) :
  NoDup (dict_keys l) -> (k, v) ∈ l -> dict_get l k = Some v.
Proof.
  induction l as [| [k' v'] l IH]; intros Hnd Hin.
  - now apply elem_of_nil in Hin.
  - cbn in Hnd. apply NoDup_cons in Hnd as [Hk' Hnd].
    apply elem_of_cons in Hin as [[= -> ->] | Hin]; cbn.
    + now rewrite String.eqb_refl.
    + destruct (String.eqb_spec k' k) as [-> | _]; [| now apply IH].
      exfalso. apply Hk'. clear -Hin.
      induction l as [| [k0 v0] l IHl]; [now apply elem_of_nil in Hin |].
      apply elem_of_cons in Hin as [[= <- <-] | Hin]; cbn; [left |].
      right. now apply IHl.
Qed.

Lemma elem_of_dict_keys {A} (l : list (string * A)) (k : string) (v : A) :
  (k, v) ∈ l -> k ∈ dict_keys l.
Proof.
  induction l as [| [k0 v0] l IHl]; intros Hin;
    [now apply elem_of_nil in Hin |].
  apply elem_of_cons in Hin as [[= <- <-] | Hin]; cbn; [left |].
  right. now apply IHl.
Qed.

Lemma dict_keys_map {A B} (f : string * B -> A) (l : list (string * B)) :
  dict_keys (map (fun kv => (fst kv, f kv)) l) = dict_keys l.
Proof. unfold dict_keys. rewrite map_map. reflexivity. Qed.

Lemma map_pair_eta {A} (l : list (string * A)) :
  map (fun kv => (fst kv, snd kv)) l = l.
Proof. induction l as [| [k v] l IH]; cbn; congruence. Qed.

(** A scalar validates against the trait of its type, as itself. *)
Lemma traits_validate_scalar (v : value) :
  is_scalar v = true -> traits_validate (scalar_trait v) v = Some v.
Proof. destruct v; try discriminate; reflexivity. Qed.

Lemma registered_base_type_scalar (v : value) :
  is_scalar v = true ->
  in_registered_base_types (_type_func v) = true /\
  registered_base_type (_type_func v) = Some (scalar_trait v) /\
  match v with
  | VNone => class_default_value (scalar_trait v)
  | _ => v
  end = v.
Proof. destruct v; try discriminate; repeat split. Qed.

Lemma get_obj_t_state (t : pytype) (st : state) : snd (get_obj_t t st) = st.
Proof. reflexivity. Qed.

Section FlatBuild.
Variable rec_trait_for : value -> M (trait * value).
Variable st : state.
Hypothesis Hst : no_scalar_handlers st.

(** The loop of [_create_get_traits] over items whose public values are
    scalars. *)
Lemma create_get_traits_flat (its : pydict)
  (acc : list (string * ctrait)) (traits_ed : pydict) :
  Forall (fun kv => is_scalar (snd kv) = true) (public_items its) ->
  _create_get_traits rec_trait_for
    (fun traits key t => ret (dict_set traits key (CTrait t false)))
    acc (VDict its) st
  = (OK (fold_left
           (fun a kv => dict_set a (fst kv)
                          (CTrait (scalar_trait (snd kv)) false))
           (public_items its) acc,
         fold_left (fun a kv => dict_set a (fst kv) (snd kv))
           (public_items its) []),
     st).
Proof.
  unfold _create_get_traits. unfold bind at 1. cbn [lift items].
  generalize (@nil (string * value)) as te. revert acc.
  induction its as [| [k v] its IH]; intros acc te Hsc; [reflexivity |].
  cbn [for_each]. unfold bind at 1. unfold public_items in *.
  cbn [List.filter fst] in *.
  destruct (startswith_underscore k); cbn [negb] in *.
  - cbn [ret]. apply IH. exact Hsc.
  - apply Forall_cons_iff in Hsc as [Hv Hsc]. cbn [snd] in Hv.
    destruct (registered_base_type_scalar v Hv) as (Hin & Hreg & Hdef).
    unfold bind at 1. cbn [log LOG_LEVEL.INFO loglevel Nat.leb].
    unfold bind at 1.
    pose proof (Hst v Hv) as Hnone. pose proof (get_obj_t_state (_type_func v) st) as Hs.
    destruct (get_obj_t (_type_func v) st) as [r s]. cbn in Hnone, Hs.
    subst r s. rewrite Hin, Hreg. unfold bind at 1. cbn [ret].
    rewrite Hdef. cbn [fold_left fst snd]. apply IH. exact Hsc.
Qed.

End FlatBuild.

Section FlatEditor.
Variable l : pydict.
Hypothesis Hnd : NoDup (dict_keys l).
Hypothesis Hpub : Forall (fun kv => startswith_underscore (fst kv) = false) l.
Hypothesis Hsc : Forall (fun kv => is_scalar (snd kv) = true) l.

Lemma flat_keys_fresh (k : string) :
  k ∈ dict_keys l -> k ∉ dict_keys GenericTrait_traits.
Proof.
  intros Hk. apply GenericTrait_traits_private.
  clear -Hk Hpub. induction l as [| [k0 v0] l0 IH];
    [now apply elem_of_nil in Hk |].
  apply Forall_cons_iff in Hpub as [H0 Hp]. cbn in Hk.
  apply elem_of_cons in Hk as [-> | Hk]; [exact H0 | now apply IH].
Qed.

Lemma flat_traits_fold :
  fold_left
    (fun a kv => dict_set a (fst kv) (CTrait (scalar_trait (snd kv)) false))
    l GenericTrait_traits
  = flat_traits l.
Proof.
  apply (fold_dict_set_fresh
           (fun kv => CTrait (scalar_trait (snd kv)) false));
    [exact Hnd | exact flat_keys_fresh].
Qed.

Lemma flat_dict_fold :
  fold_left (fun a kv => dict_set a (fst kv) (snd kv)) l [] = l.
Proof.
  rewrite (fold_dict_set_fresh snd);
    [apply map_pair_eta | exact Hnd |].
  intros k _ Hin. now apply elem_of_nil in Hin.
Qed.

Lemma flat_trait_of (k : string) (v : value) :
  (k, v) ∈ l -> dict_get (flat_traits l) k
                = Some (CTrait (scalar_trait v) false).
Proof.
  intros Hin. unfold flat_traits.
  rewrite dict_get_app_fresh
    by (apply flat_keys_fresh; eapply elem_of_dict_keys; eauto).
  apply (dict_get_of_NoDup
           (map (fun kv => (fst kv, CTrait (scalar_trait (snd kv)) false)) l)).
  - now rewrite dict_keys_map.
  - clear -Hin. induction l as [| [k0 v0] l0 IH];
      [now apply elem_of_nil in Hin |].
    apply elem_of_cons in Hin as [[= <- <-] | Hin]; cbn; [left |].
    right. now apply IH.
Qed.

(** [self.set] of the inferred values succeeds and stores them as they
    are. *)
Lemma trait_set_flat_suffix (suf d : pydict) :
  (forall kv, kv ∈ suf -> kv ∈ l) ->
  NoDup (dict_keys suf) ->
  (forall k, k ∈ dict_keys suf -> k ∉ dict_keys d) ->
  trait_set (RT := traits_runtime) (flat_traits l) d suf = (OK tt, d ++ suf).
Proof.
  revert d. induction suf as [| [k v] suf IH]; intros d Hsub Hn Hfresh;
    cbn [trait_set].
  - now rewrite app_nil_r.
  - cbn in Hn. apply NoDup_cons in Hn as [Hk Hn].
    assert (Hin : (k, v) ∈ l) by (apply Hsub; left).
    unfold validate_trait, trait_of. rewrite (flat_trait_of k v Hin).
    cbn [trait_type validate traits_runtime].
    rewrite traits_validate_scalar.
    + rewrite dict_set_fresh by (apply Hfresh; left).
      rewrite IH; [now rewrite <- app_assoc | | exact Hn |].
      * intros kv Hkv. apply Hsub. now right.
      * intros k' Hk'. unfold dict_keys. rewrite map_app. cbn.
        rewrite elem_of_app, list_elem_of_singleton.
        intros [H | ->]; [| contradiction].
        apply (Hfresh k'); [now right | exact H].
    + exact (proj1 (Forall_forall _ _) Hsc (k, v) Hin).
Qed.

Lemma trait_set_flat :
  trait_set (RT := traits_runtime) (flat_traits l) [] l = (OK tt, l).
Proof.
  apply (trait_set_flat_suffix l []); [auto | exact Hnd |].
  intros k _ Hin. now apply elem_of_nil in Hin.
Qed.

Lemma public_names_flat : public_names (flat_traits l) l = dict_keys l.
Proof.
  unfold public_names, flat_traits.
  replace (dict_keys (GenericTrait_traits ++ _))
    with (dict_keys GenericTrait_traits ++ dict_keys l)
    by (unfold dict_keys at 3; rewrite map_app; f_equal;
        symmetry; apply dict_keys_map).
  rewrite <- app_assoc.
  rewrite remove_dups_app_disjoint.
  - rewrite remove_dups_app_absorb by auto.
    rewrite remove_dups_NoDup by exact Hnd.
    rewrite List.filter_app. cbn -[dict_get].
    change (GenericTrait_traits ++
            map (fun kv => (fst kv, CTrait (scalar_trait (snd kv)) false)) l)
      with (flat_traits l).
    assert (Hkeep : forall suf,
               (forall kv, kv ∈ suf -> kv ∈ l) ->
               List.filter
                 (fun n => match dict_get (flat_traits l) n with
                           | Some ct => negb (private ct)
                           | None => true
                           end) (dict_keys suf) = dict_keys suf).
    { induction suf as [| [k v] suf IH]; intros Hsub; [reflexivity |].
      cbn [dict_keys map List.filter fst].
      rewrite (flat_trait_of k v) by (apply Hsub; left). cbn.
      f_equal. apply IH. intros kv Hkv. apply Hsub. now right. }
    rewrite Hkeep by auto. reflexivity.
  - apply (bool_decide_unpack _). vm_compute. reflexivity.
  - intros k Hk Hin. apply elem_of_app in Hin as [Hin | Hin];
      now apply (flat_keys_fresh k Hin).
Qed.

Lemma trait_get_flat (st : state) :
  trait_get (RT := traits_runtime) (flat_traits l) l st = (OK l, st).
Proof.
  unfold trait_get. rewrite public_names_flat.
  assert (Hloop : forall suf acc,
             (forall kv, kv ∈ suf -> kv ∈ l) ->
             for_each (dict_keys suf) acc
               (fun elems name =>
                  let* v := getattr (flat_traits l) l name in
                  ret (elems ++ [(name, v)])) st
             = (OK (acc ++ suf), st)).
  { induction suf as [| [k v] suf IH]; intros acc Hsub; cbn.
    - now rewrite app_nil_r.
    - unfold bind at 1. unfold bind at 1. unfold getattr.
      rewrite (dict_get_of_NoDup l k v Hnd) by (apply Hsub; left).
      cbn [ret]. rewrite IH by (intros kv Hkv; apply Hsub; now right).
      now rewrite <- app_assoc. }
  apply (Hloop l []). auto.
Qed.

Lemma cast_back_flat (rec_get_object : value -> bool -> M value)
  (st : state) :
  for_each l []
    (fun (acc : pydict) '((key, val) : string * value) =>
       let* x := cast_back (RT := traits_runtime) rec_get_object val None in
       ret (acc ++ [(key, x)])) st
  = (OK l, st).
Proof.
  assert (Hloop : forall suf acc,
             Forall (fun kv => is_scalar (snd kv) = true) suf ->
             for_each suf acc
               (fun (acc : pydict) '((key, val) : string * value) =>
                  let* x := cast_back (RT := traits_runtime) rec_get_object
                              val None in
                  ret (acc ++ [(key, x)])) st
             = (OK (acc ++ suf), st)).
  { induction suf as [| [k v] suf IH]; intros acc Hs; cbn.
    - now rewrite app_nil_r.
    - apply Forall_cons_iff in Hs as [Hv Hs]. cbn in Hv.
      unfold bind at 1. unfold bind at 1. unfold cast_back.
      destruct (registered_base_type_scalar v Hv) as (-> & _).
      cbn [ret]. rewrite IH by exact Hs. now rewrite <- app_assoc. }
  apply (Hloop l []). exact Hsc.
Qed.

End FlatEditor.

Lemma public_items_public (its : pydict) :
  Forall (fun kv => startswith_underscore (fst kv) = false) (public_items its).
Proof.
  unfold public_items. induction its as [| [k v] its IH]; cbn; [constructor |].
  destruct (startswith_underscore k) eqn:E; cbn; [exact IH |].
  constructor; [exact E | exact IH].
Qed.

Lemma public_items_keys_NoDup (its : pydict) :
  NoDup (dict_keys its) -> NoDup (dict_keys (public_items its)).
Proof.
  unfold public_items. induction its as [| [k v] its IH]; cbn; [auto |].
  intros Hnd. apply NoDup_cons in Hnd as [Hk Hnd].
  destruct (negb (startswith_underscore k)); cbn; [| now apply IH].
  apply NoDup_cons. split; [| now apply IH].
  intros Hin. apply Hk. clear -Hin.
  induction its as [| [k0 v0] its IH]; cbn in *; [exact Hin |].
  destruct (negb (startswith_underscore k0)); cbn in *.
  - apply elem_of_cons in Hin as [-> | Hin]; [left | right; now apply IH].
  - right. now apply IH.
Qed.

Lemma public_items_elem (its : pydict) (kv : string * value) :
  kv ∈ public_items its -> kv ∈ its.
Proof.
  unfold public_items. induction its as [| [k v] its IH]; cbn; [auto |].
  destruct (negb (startswith_underscore k)); cbn.
  - intros Hin. apply elem_of_cons in Hin as [-> | Hin];
      [left | right; now apply IH].
  - intros Hin. right. now apply IH.
Qed.

(** Writing back into a dictionary values it already holds changes
    nothing. *)
Lemma dict_set_same {A} (d : list (string * A)) (k : string) (v : A) :
  dict_get d k = Some v -> dict_set d k v = d.
Proof.
  induction d as [| [k' v'] d IH]; cbn; [discriminate |].
  destruct (String.eqb_spec k' k) as [-> | _].
  - now intros [= ->].
  - intros H. now rewrite IH.
Qed.

Lemma dict_update_same {A} (d e : list (string * A)) :
  (forall k v, (k, v) ∈ e -> dict_get d k = Some v) -> dict_update d e = d.
Proof.
  unfold dict_update. induction e as [| [k v] e IH]; intros H; cbn;
    [reflexivity |].
  rewrite dict_set_same by (apply H; left).
  apply IH. intros k' v' Hin. apply H. now right.
Qed.

Section FlatDict.
Variable its : pydict.
Hypothesis Hnd : NoDup (dict_keys its).
Hypothesis Hsc : Forall (fun kv => is_scalar (snd kv) = true) (public_items its).

Lemma GenericTrait_init_flat_dict
  (rec_trait_for : value -> M (trait * value)) (st : state) :
  no_scalar_handlers st ->
  GenericTrait___init__ (RT := traits_runtime) rec_trait_for (VDict its)
    false st
  = (OK (flat_editor false true None (public_items its)), st).
Proof.
  intros Hst. unfold GenericTrait___init__. unfold bind at 1.
  cbn [vars ret]. unfold bind at 1.
  rewrite (create_get_traits_flat rec_trait_for st Hst its _ [] Hsc).
  rewrite (flat_traits_fold _ (public_items_keys_NoDup _ Hnd)
             (public_items_public _)).
  rewrite (flat_dict_fold _ (public_items_keys_NoDup _ Hnd)).
  rewrite (trait_set_flat _ (public_items_keys_NoDup _ Hnd)
             (public_items_public _) Hsc).
  reflexivity.
Qed.

Lemma get_object_flat_dict (fuel : nat) (orig : option value)
  (as_dict : bool) (st : state) :
  get_object (RT := traits_runtime) (S fuel)
    (flat_editor false true orig (public_items its)) as_dict st
  = (OK (VDict (public_items its)), st).
Proof.
  unfold flat_editor. cbn [get_object get_object_body].
  unfold GenericTrait_get_object. unfold bind at 1.
  rewrite (trait_get_flat _ (public_items_keys_NoDup _ Hnd)
             (public_items_public _)).
  unfold bind at 1.
  rewrite (cast_back_flat _ Hsc). cbn. now rewrite orb_true_r.
Qed.

End FlatDict.

(** The editor of a dictionary of scalars, and the state it is built in:
    only the depth counter is written, and it is back at its value. *)
Lemma flat_dict_editor (fuel : nat) (its : pydict) (st : state) :
  NoDup (dict_keys its) ->
  Forall (fun kv => is_scalar (snd kv) = true) (public_items its) ->
  no_scalar_handlers st ->
  fst (get_obj_t py_dict st) = OK None ->
  get_or_create_editor_for_obj (RT := traits_runtime) (S (S fuel))
    (VDict its) st
  = (OK (flat_editor false true None (public_items its)),
     {| _api_types_to_trait := _api_types_to_trait st;
        __dynamically_created_classes := __dynamically_created_classes st;
        heap := heap st; stream := stream st; depth := depth st |}).
Proof.
  intros Hnd Hsc Hst Hdict.
  unfold get_or_create_editor_for_obj. cbn [isinstance_HasTraits].
  cbn [get_or_create_trait_for]. unfold get_or_create_trait_for_body.
  cbn [isinstance_HasTraits _type_func]. unfold bind at 1.
  unfold bind at 1. cbn [set_depth]. unfold bind at 1.
  set (st1 := {| _api_types_to_trait := _api_types_to_trait st;
                 __dynamically_created_classes :=
                   __dynamically_created_classes st;
                 heap := heap st; stream := stream st;
                 depth := S (depth st) |}).
  assert (Hst1 : no_scalar_handlers st1)
    by (intros v Hv; exact (Hst v Hv)).
  assert (Hd1 : get_obj_t py_dict st1 = (OK None, st1)).
  { unfold get_obj_t, bind, get_state, ret in *. cbn in *.
    destruct (_api_types_to_trait st !! "dict"); [discriminate |].
    destruct (__dynamically_created_classes st !! "dict");
      [discriminate | reflexivity]. }
  rewrite Hd1. unfold bind at 1. cbn [log LOG_LEVEL.MORE_INFO loglevel Nat.leb].
  unfold bind at 1. unfold create_generic_trait. cbn [_is_list].
  unfold bind at 1. cbn [log LOG_LEVEL.INFO loglevel Nat.leb vars].
  unfold bind at 1.
  rewrite (GenericTrait_init_flat_dict its Hnd Hsc _ st1 Hst1).
  reflexivity.
Qed.

Lemma same_classes_depth (st : state) (n : nat) :
  same_classes st
    {| _api_types_to_trait := _api_types_to_trait st;
       __dynamically_created_classes := __dynamically_created_classes st;
       heap := heap st; stream := stream st; depth := n |}.
Proof. repeat split. exists []. cbn. now rewrite app_nil_r. Qed.





(** *** Lists of scalars of mixed types *)

Lemma positional_keys_from (i : nat) (xs : list value) :
  dict_keys (map (fun '(i, val) => ("pos" +:+ str_nat i, val))
               (enumerate_from i xs))
  = map (fun i => "pos" +:+ str_nat i) (seq i (length xs)).
Proof.
  revert i. induction xs as [| x xs IH]; intros i; [reflexivity |].
  cbn. f_equal. apply IH.
Qed.

Lemma positional_keys (xs : list value) :
  dict_keys (positional xs)
  = map (fun i => "pos" +:+ str_nat i) (seq 0 (length xs)).
Proof. apply positional_keys_from. Qed.

Lemma positional_values (xs : list value) : map snd (positional xs) = xs.
Proof.
  unfold positional, enumerate. generalize 0.
  induction xs as [| x xs IH]; intros i; [reflexivity |].
  cbn. f_equal. apply IH.
Qed.

Lemma positional_public (xs : list value) :
  Forall (fun kv => startswith_underscore (fst kv) = false) (positional xs).
Proof.
  unfold positional, enumerate. generalize 0.
  induction xs as [| x xs IH]; intros i; cbn; constructor;
    [reflexivity | apply IH].
Qed.

Lemma positional_scalar (xs : list value) :
  Forall (fun x => is_scalar x = true) xs ->
  Forall (fun kv => is_scalar (snd kv) = true) (positional xs).
Proof.
  unfold positional, enumerate. generalize 0.
  induction xs as [| x xs IH]; intros i Hsc; cbn; [constructor |].
  apply Forall_cons_iff in Hsc as [Hx Hsc].
  constructor; [exact Hx | now apply IH].
Qed.

Lemma public_items_all (l : pydict) :
  Forall (fun kv => startswith_underscore (fst kv) = false) l ->
  public_items l = l.
Proof.
  unfold public_items. induction l as [| kv l IH]; intros Hp;
    [reflexivity |].
  apply Forall_cons_iff in Hp as [H0 Hp]. cbn. rewrite H0. cbn.
  now rewrite IH.
Qed.

Lemma positional_keys_NoDup (xs : list value) :
  length xs <= 10 -> NoDup (dict_keys (positional xs)).
Proof.
  rewrite positional_keys. generalize (length xs) as n. intros n Hn.
  do 11 (destruct n as [| n];
         [apply (bool_decide_unpack _); vm_compute; reflexivity |]).
  lia.
Qed.

Lemma omap_dict_get_fresh {A} (k : string) (v : A) (l : list (string * A))
  (ks : list string) :
  k ∉ ks -> omap (dict_get ((k, v) :: l)) ks = omap (dict_get l) ks.
Proof.
  induction ks as [| k' ks IH]; intros Hk; [reflexivity |].
  apply not_elem_of_cons in Hk as [Hne Hk].
  assert (Hget : dict_get ((k, v) :: l) k' = dict_get l k').
  { cbn. destruct (String.eqb_spec k k') as [-> | _]; [congruence |].
    reflexivity. }
  change (match dict_get ((k, v) :: l) k' with
          | Some y => y :: omap (dict_get ((k, v) :: l)) ks
          | None => omap (dict_get ((k, v) :: l)) ks
          end
          = match dict_get l k' with
            | Some y => y :: omap (dict_get l) ks
            | None => omap (dict_get l) ks
            end).
  now rewrite Hget, IH.
Qed.

(** Reading a dictionary at each of its keys gives its values in order. *)
Lemma omap_dict_get_keys {A} (l : list (string * A)) :
  NoDup (dict_keys l) -> omap (dict_get l) (dict_keys l) = map snd l.
Proof.
  induction l as [| [k v] l IH]; intros Hnd; [reflexivity |].
  cbn in Hnd. apply NoDup_cons in Hnd as [Hk Hnd].
  change (omap (dict_get ((k, v) :: l)) (dict_keys ((k, v) :: l)))
    with (match dict_get ((k, v) :: l) k with
          | Some y => y :: omap (dict_get ((k, v) :: l)) (dict_keys l)
          | None => omap (dict_get ((k, v) :: l)) (dict_keys l)
          end).
  rewrite (omap_dict_get_fresh k v l (dict_keys l) Hk), (IH Hnd).
  cbn. now rewrite String.eqb_refl.
Qed.

Section FlatList.
Variable xs : list value.
Hypothesis Hlen : length xs <= 10.
Hypothesis Hsc : Forall (fun x => is_scalar x = true) xs.

Lemma GenericTrait_init_flat_list
  (rec_trait_for : value -> M (trait * value)) (obj : value) (st : state) :
  elements obj = xs ->
  no_scalar_handlers st ->
  GenericTrait___init__ (RT := traits_runtime) rec_trait_for obj true st
  = (OK (flat_editor true false None (positional xs)), st).
Proof.
  intros Hobj Hst. unfold GenericTrait___init__. unfold bind at 1.
  cbn [ret]. unfold bind at 1. rewrite Hobj. fold (positional xs).
  assert (Hpub := positional_public xs).
  assert (Hnd := positional_keys_NoDup xs Hlen).
  assert (Hs := positional_scalar xs Hsc).
  rewrite (create_get_traits_flat rec_trait_for st Hst (positional xs) _ [])
    by (now rewrite public_items_all).
  rewrite (public_items_all _ Hpub).
  rewrite (flat_traits_fold _ Hnd Hpub).
  rewrite (flat_dict_fold _ Hnd).
  rewrite (trait_set_flat _ Hnd Hpub Hs).
  reflexivity.
Qed.

Lemma get_object_flat_list (fuel : nat) (orig : option value)
  (is_dict as_dict : bool) (st : state) :
  get_object (RT := traits_runtime) (S fuel)
    (flat_editor true is_dict orig (positional xs)) as_dict st
  = (OK (VList xs), st).
Proof.
  assert (Hpub := positional_public xs).
  assert (Hnd := positional_keys_NoDup xs Hlen).
  assert (Hs := positional_scalar xs Hsc).
  unfold flat_editor. cbn [get_object get_object_body].
  unfold GenericTrait_get_object. unfold bind at 1.
  rewrite (trait_get_flat _ Hnd Hpub).
  unfold bind at 1.
  rewrite (cast_back_flat _ Hs). cbn [negb ret].
  rewrite positional_keys, (sorted_positional_keys_upto_ten _ Hlen),
    <- positional_keys, (omap_dict_get_keys _ Hnd), positional_values.
  reflexivity.
Qed.

End FlatList.

(** The editor of a list of scalars of more than one type (or of none). *)
Lemma flat_list_editor (fuel : nat) (xs : list value) (st : state) :
  length xs <= 10 ->
  Forall (fun x => is_scalar x = true) xs ->
  length (remove_dups (map _type_func xs)) <> 1 ->
  no_scalar_handlers st ->
  fst (get_obj_t py_list st) = OK None ->
  get_or_create_editor_for_obj (RT := traits_runtime) (S (S fuel))
    (VList xs) st
  = (OK (flat_editor true false None (positional xs)),
     {| _api_types_to_trait := _api_types_to_trait st;
        __dynamically_created_classes := __dynamically_created_classes st;
        heap := heap st; stream := stream st; depth := depth st |}).
Proof.
  intros Hlen Hsc Hmixed Hst Hlist.
  unfold get_or_create_editor_for_obj. cbn [isinstance_HasTraits].
  cbn [get_or_create_trait_for]. unfold get_or_create_trait_for_body.
  cbn [isinstance_HasTraits _type_func]. unfold bind at 1.
  unfold bind at 1. cbn [set_depth]. unfold bind at 1.
  set (st1 := {| _api_types_to_trait := _api_types_to_trait st;
                 __dynamically_created_classes :=
                   __dynamically_created_classes st;
                 heap := heap st; stream := stream st;
                 depth := S (depth st) |}).
  assert (Hst1 : no_scalar_handlers st1)
    by (intros v Hv; exact (Hst v Hv)).
  assert (Hd1 : get_obj_t py_list st1 = (OK None, st1)).
  { unfold get_obj_t, bind, get_state, ret in *. cbn in *.
    destruct (_api_types_to_trait st !! "list"); [discriminate |].
    destruct (__dynamically_created_classes st !! "list");
      [discriminate | reflexivity]. }
  rewrite Hd1. unfold bind at 1. cbn [log LOG_LEVEL.MORE_INFO loglevel Nat.leb].
  unfold bind at 1. unfold create_generic_trait. cbn [_is_list].
  unfold bind at 1. cbn [log LOG_LEVEL.INFO loglevel Nat.leb].
  unfold bind at 1. unfold create_list_trait. cbn [elements].
  destruct (remove_dups (map _type_func xs)) as [| t [| t' ts]];
    [| now contradiction Hmixed |];
    unfold bind at 1;
    rewrite (GenericTrait_init_flat_list xs Hlen Hsc _ (VList xs) st1
               eq_refl Hst1);
    reflexivity.
Qed.

(** X10.  A list of at most ten scalars that are not all of one type (an
    empty list included) comes back from its editor as the same list: the
    editor is the [GenericTrait] over the fields [pos0], [pos1], ..., no
    class is created, and [get_object] returns the elements in their
    order. *)
Theorem mixed_scalar_list_round_trip
  (fuel : nat) (xs : list value) (st : state) :
  length xs <= 10 ->
  Forall (fun x => is_scalar x = true) xs ->
  length (remove_dups (map _type_func xs)) <> 1 ->
  no_scalar_handlers st ->
  fst (get_obj_t py_list st) = OK None ->
  let ed := flat_editor true false None (positional xs) in
  fst (get_or_create_editor_for_obj (RT := traits_runtime) (S (S fuel))
         (VList xs) st) = OK ed /\
  same_classes st
    (snd (get_or_create_editor_for_obj (RT := traits_runtime) (S (S fuel))
            (VList xs) st)) /\
  forall fuel' as_dict st',
    get_object (RT := traits_runtime) (S fuel') ed as_dict st'
    = (OK (VList xs), st').
Proof.
  intros Hlen Hsc Hmixed Hst Hlist ed.
  rewrite (flat_list_editor fuel xs st Hlen Hsc Hmixed Hst Hlist).
  cbn [fst snd].
  split; [reflexivity |]. split; [apply same_classes_depth |].
  intros fuel' as_dict st'. apply get_object_flat_list; assumption.
Qed.

Lemma mixed_scalar_list_round_trip_witness :
  get_object (RT := traits_runtime) 1
    (flat_editor true false None
       (positional [VInt 3; VStr "three"; VNone; VInt 4]))
    false initial_state
  = (OK (VList [VInt 3; VStr "three"; VNone; VInt 4]), initial_state).
Proof.
  apply (mixed_scalar_list_round_trip 0
           [VInt 3; VStr "three"; VNone; VInt 4] initial_state).
  - cbn. lia.
  - repeat constructor.
  - vm_compute. lia.
  - intros v Hv. destruct v; try discriminate; reflexivity.
  - reflexivity.
Defined.


(** *** Objects with scalar attributes *)

Lemma dict_get_fresh {A} (d : list (string * A)) (k : string) :
  k ∉ dict_keys d -> dict_get d k = None.
Proof.
  induction d as [| [k' v'] d IH]; cbn; [reflexivity |].
  intros Hk. apply not_elem_of_cons in Hk as [Hne Hk].
  destruct (String.eqb_spec k' k) as [-> | _]; [congruence | now apply IH].
Qed.

Lemma alter_last {A} (f : A -> A) (h : list A) (r : A) :
  alter f (length h) (h ++ [r]) = h ++ [f r].
Proof. induction h as [| x h IH]; cbn; [reflexivity | now rewrite IH]. Qed.

Lemma lookup_last {A} (h : list A) (r : A) : (h ++ [r]) !! length h = Some r.
Proof. now apply list_lookup_middle. Qed.

Lemma with_heap_same (st : state) : with_heap st (heap st) = st.
Proof. now destruct st. Qed.

Lemma ClassModel_traits_fresh (k : string) :
  startswith_underscore k = false -> k <> "Templates" ->
  k ∉ dict_keys ClassModel_traits.
Proof.
  intros Hk Ht Hin. cbn in Hin.
  apply elem_of_cons in Hin as [-> | Hin]; [discriminate Hk |].
  apply elem_of_cons in Hin as [-> | Hin]; [discriminate Hk |].
  apply elem_of_cons in Hin as [-> | Hin]; [congruence |].
  now apply elem_of_nil in Hin.
Qed.

Section ModelBuild.
Variable rec_trait_for : value -> M (trait * value).
Variable name : string.
Variable h0 : list class_rec.

(** The loop of [_create_get_traits] when it adds class traits to the class
    that was allocated last. *)
Lemma create_get_traits_model (its : pydict) :
  forall (ts : list (string * ctrait)) (te : pydict) (st : state),
  heap st = h0 ++ [ClassRec name ModelClass ts []] ->
  no_scalar_handlers st ->
  Forall (fun kv => is_scalar (snd kv) = true) (public_items its) ->
  NoDup (dict_keys (public_items its)) ->
  (forall k, k ∈ dict_keys (public_items its) -> k ∉ dict_keys ts) ->
  for_each its (tt, te)
    (fun '(acc, traits_ed) '(key, val) =>
       if startswith_underscore key then ret (acc, traits_ed)
       else
         log LOG_LEVEL.INFO (msg_text "Adding") ;;
         let* trait_t := get_obj_t (_type_func val) in
         match trait_t with
         | Some _ =>
             let* (t_inter, t_obj) := rec_trait_for val in
             let* acc :=
               add_class_trait (CRef (length h0) name) key t_inter in
             ret (acc, dict_set traits_ed key t_obj)
         | None =>
             if in_registered_base_types (_type_func val) then
               match registered_base_type (_type_func val) with
               | Some trait_t =>
                   let* acc :=
                     add_class_trait (CRef (length h0) name) key trait_t in
                   ret (acc,
                        dict_set traits_ed key
                          (match val with
                           | VNone => class_default_value trait_t
                           | _ => val
                           end))
               | None => raise (TypeError "None is not a trait")
               end
             else
               let* (t_inter, t_obj) := rec_trait_for val in
               let* acc :=
                 add_class_trait (CRef (length h0) name) key t_inter in
               ret (acc, dict_set traits_ed key t_obj)
         end) st
  = (OK (tt,
         fold_left (fun a kv => dict_set a (fst kv) (snd kv))
           (public_items its) te),
     with_heap st
       (h0 ++ [ClassRec name ModelClass
                 (ts ++ map (fun kv => (fst kv,
                                        CTrait (scalar_trait (snd kv)) false))
                          (public_items its)) []])).
Proof.
  induction its as [| [k v] its IH]; intros ts te st Hheap Hst Hsc Hnd Hfresh.
  - cbn. rewrite app_nil_r, <- Hheap, with_heap_same. reflexivity.
  - cbn [for_each]. unfold bind at 1. unfold public_items in *.
    cbn [List.filter fst] in *.
    destruct (startswith_underscore k); cbn [negb] in *.
    + cbn [ret]. now apply IH.
    + apply Forall_cons_iff in Hsc as [Hv Hsc]. cbn [snd] in Hv.
      cbn [dict_keys map fst] in Hnd. apply NoDup_cons in Hnd as [Hk Hnd].
      destruct (registered_base_type_scalar v Hv) as (Hin & Hreg & Hdef).
      unfold bind at 1. cbn [log LOG_LEVEL.INFO loglevel Nat.leb].
      unfold bind at 1.
      pose proof (Hst v Hv) as Hnone.
      pose proof (get_obj_t_state (_type_func v) st) as Hs.
      destruct (get_obj_t (_type_func v) st) as [r s]. cbn in Hnone, Hs.
      subst r s. rewrite Hin, Hreg. unfold bind at 1.
      unfold add_class_trait at 1. unfold bind at 1. unfold class_of at 1.
      cbn [cid]. rewrite Hheap, lookup_last. cbn [c_traits].
      rewrite dict_get_fresh by (apply Hfresh; left).
      unfold set_class_traits at 1. cbn [cid ret]. rewrite Hheap, alter_last.
      cbn [c_name c_kind c_traits c_templates].
      rewrite Hdef.
      match goal with
      | |- for_each _ _ _ ?s = _ => set (st1 := s)
      end.
      rewrite (IH (ts ++ [(k, CTrait (scalar_trait v) false)])
                 (dict_set te k v) st1).
      * cbn [fold_left fst snd map]. rewrite <- app_assoc. reflexivity.
      * reflexivity.
      * intros w Hw. exact (Hst w Hw).
      * exact Hsc.
      * exact Hnd.
      * intros k' Hk'. unfold dict_keys. rewrite map_app. cbn.
        rewrite elem_of_app, list_elem_of_singleton.
        intros [H | ->]; [| contradiction].
        apply (Hfresh k'); [now right | exact H].
Qed.

End ModelBuild.

Lemma dict_keys_elem {A} (l : list (string * A)) (k : string) :
  k ∈ dict_keys l -> exists v, (k, v) ∈ l.
Proof.
  induction l as [| [k0 v0] l IH]; cbn; intros Hk;
    [now apply elem_of_nil in Hk |].
  apply elem_of_cons in Hk as [-> | Hk].
  - exists v0. left.
  - destruct (IH Hk) as [v Hv]. exists v. now right.
Qed.

Lemma dict_get_elem {A} (l : list (string * A)) (k : string) (v : A) :
  dict_get l k = Some v -> (k, v) ∈ l.
Proof.
  induction l as [| [k0 v0] l IH]; cbn; [discriminate |].
  destruct (String.eqb_spec k0 k) as [-> | _].
  - intros [= ->]. left.
  - intros H. right. now apply IH.
Qed.

Lemma filter_elem {A} (p : A -> bool) (l : list A) (x : A) :
  x ∈ List.filter p l <-> x ∈ l /\ p x = true.
Proof. rewrite !list_elem_of_In. apply filter_In. Qed.

Lemma filter_keys_NoDup {A} (p : string * A -> bool) (l : list (string * A)) :
  NoDup (dict_keys l) -> NoDup (dict_keys (List.filter p l)).
Proof.
  induction l as [| [k v] l IH]; cbn; [auto |].
  intros Hnd. apply NoDup_cons in Hnd as [Hk Hnd].
  destruct (p (k, v)); cbn; [| now apply IH].
  apply NoDup_cons. split; [| now apply IH].
  intros Hin. apply Hk. apply dict_keys_elem in Hin as [v' Hin].
  apply filter_elem in Hin as [Hin _]. eapply elem_of_dict_keys; eauto.
Qed.

Lemma dict_get_None_fresh {A} (l : list (string * A)) (k : string) :
  dict_get l k = None -> k ∉ dict_keys l.
Proof.
  intros Hg Hin. apply dict_keys_elem in Hin as [v Hin].
  induction l as [| [k0 v0] l IH]; [now apply elem_of_nil in Hin |].
  cbn in Hg. destruct (String.eqb_spec k0 k) as [-> | Hne]; [discriminate |].
  apply elem_of_cons in Hin as [[= -> ->] | Hin]; [congruence | auto].
Qed.

(** Two dictionaries with the same keys in the same order and the same
    value at each key are equal. *)
Lemma dict_ext {A} (a b : list (string * A)) :
  dict_keys a = dict_keys b -> NoDup (dict_keys a) ->
  (forall k, dict_get a k = dict_get b k) -> a = b.
Proof.
  revert b. induction a as [| [k v] a IH]; intros [| [k' v'] b] Hk Hnd Hg;
    try discriminate; [reflexivity |].
  cbn in Hk. injection Hk as <- Hk.
  cbn in Hnd. apply NoDup_cons in Hnd as [Hfresh Hnd].
  pose proof (Hg k) as Hv. cbn in Hv. rewrite String.eqb_refl in Hv.
  injection Hv as <-. f_equal. apply IH; [exact Hk | exact Hnd |].
  intros q. pose proof (Hg q) as Hq. cbn in Hq.
  destruct (String.eqb_spec k q) as [Heq | _]; [subst q | exact Hq].
  rewrite (dict_get_fresh a k Hfresh).
  rewrite (dict_get_fresh b k); [reflexivity |].
  unfold dict_keys. now rewrite <- Hk.
Qed.

Lemma dict_set_keys {A} (d : list (string * A)) (k : string) (v : A) :
  k ∈ dict_keys d -> dict_keys (dict_set d k v) = dict_keys d.
Proof.
  induction d as [| [k0 v0] d IH]; cbn; intros Hk;
    [now apply elem_of_nil in Hk |].
  destruct (String.eqb_spec k0 k) as [-> | Hne]; cbn; [reflexivity |].
  apply elem_of_cons in Hk as [-> | Hk]; [congruence |].
  f_equal. now apply IH.
Qed.

Lemma dict_update_keys {A} (d e : list (string * A)) :
  (forall k, k ∈ dict_keys e -> k ∈ dict_keys d) ->
  dict_keys (dict_update d e) = dict_keys d.
Proof.
  unfold dict_update. revert d.
  induction e as [| [k v] e IH]; intros d Hsub; [reflexivity |].
  cbn [fold_left fst snd]. rewrite IH.
  - apply dict_set_keys. apply Hsub. left.
  - intros k' Hk'. rewrite dict_set_keys by (apply Hsub; left).
    apply Hsub. now right.
Qed.

(** What [d.update(e)] holds at a key: the value [e] has for it, else the
    value [d] had. *)
Lemma dict_get_update {A} (d e : list (string * A)) (k : string) :
  NoDup (dict_keys e) ->
  dict_get (dict_update d e) k
  = match dict_get e k with Some v => Some v | None => dict_get d k end.
Proof.
  unfold dict_update. revert d.
  induction e as [| [k0 v0] e IH]; intros d Hnd; [reflexivity |].
  cbn in Hnd. apply NoDup_cons in Hnd as [Hfresh Hnd].
  cbn [fold_left fst snd dict_get]. rewrite (IH _ Hnd).
  destruct (String.eqb_spec k0 k) as [<- | Hne].
  - rewrite (dict_get_fresh e k0 Hfresh). apply dict_get_set_eq.
  - destruct (dict_get e k); [reflexivity |]. now apply dict_get_set_ne.
Qed.

Lemma filter_NoDup {A} (p : A -> bool) (l : list A) :
  NoDup l -> NoDup (List.filter p l).
Proof.
  rewrite !NoDup_ListNoDup. apply List.NoDup_filter.
Qed.

Section FlatObject.
Variable c : pyclass.
Variable d : pydict.
Hypothesis Hnd : NoDup (dict_keys d).
Hypothesis Hsc : Forall (fun kv => is_scalar (snd kv) = true) (public_items d).
Hypothesis Htempl : "Templates" ∉ dict_keys d.

Lemma public_key_fresh (k : string) :
  k ∈ dict_keys (public_items d) -> k ∉ dict_keys ClassModel_traits.
Proof.
  intros Hk. apply dict_keys_elem in Hk as [v Hin].
  apply ClassModel_traits_fresh.
  - exact (proj1 (Forall_forall _ _) (public_items_public d) _ Hin).
  - intros ->. apply Htempl. apply (elem_of_dict_keys d _ v).
    now apply public_items_elem.
Qed.

(** [_create_ModelClass] on the object: one class is allocated, given one
    class trait for each public attribute, and filed under the name of the
    class of the object. *)
Lemma create_ModelClass_flat
  (rec_trait_for : value -> M (trait * value)) (st : state) :
  no_scalar_handlers st ->
  _create_ModelClass rec_trait_for (py_name c) (VObj c d) st
  = (OK (CRef (length (heap st)) (py_name c)),
     model_filed st (py_name c) (public_items d)).
Proof.
  intros Hst. unfold _create_ModelClass. unfold bind at 1.
  cbn [log LOG_LEVEL.DEBUG loglevel Nat.leb]. unfold bind at 1.
  cbn [vars lift]. unfold bind at 1. unfold new_class at 1.
  cbn [c_name]. unfold bind at 1. unfold _create_get_traits.
  unfold bind at 1. cbn [items lift].
  match goal with
  | |- context [for_each d (tt, []) _ ?s] => set (st1 := s)
  end.
  rewrite (create_get_traits_model rec_trait_for (py_name c) (heap st) d
             ClassModel_traits [] st1 eq_refl
             (fun w Hw => Hst w Hw) Hsc
             (public_items_keys_NoDup d Hnd) public_key_fresh).
  reflexivity.
Qed.

Lemma public_items_intro (k : string) (v : value) :
  (k, v) ∈ d -> startswith_underscore k = false -> (k, v) ∈ public_items d.
Proof.
  intros Hin Hk. apply filter_elem. split; [exact Hin |]. cbn. now rewrite Hk.
Qed.

Lemma model_trait_of (k : string) (v : value) :
  (k, v) ∈ public_items d ->
  dict_get (model_traits (public_items d)) k
  = Some (CTrait (scalar_trait v) false).
Proof.
  intros Hin. unfold model_traits.
  rewrite dict_get_app_fresh
    by (apply public_key_fresh; eapply elem_of_dict_keys; eauto).
  apply (dict_get_of_NoDup
           (map (fun kv => (fst kv, CTrait (scalar_trait (snd kv)) false))
              (public_items d))).
  - rewrite dict_keys_map. now apply public_items_keys_NoDup.
  - revert Hin. generalize (public_items d) as l.
    induction l as [| [k0 v0] l0 IH]; intros Hin;
      [now apply elem_of_nil in Hin |].
    apply elem_of_cons in Hin as [[= <- <-] | Hin]; cbn; [left |].
    right. now apply IH.
Qed.

Lemma public_scalar (k : string) (v : value) :
  (k, v) ∈ public_items d -> is_scalar v = true.
Proof. intros Hin. exact (proj1 (Forall_forall _ _) Hsc (k, v) Hin). Qed.

(** The loop of [set_init] records every public attribute that is not
    [None], as it is, and leaves the state alone. *)
Lemma set_init_loop_flat
  (rec_trait_for : value -> M (trait * value))
  (rec_call : cref -> value -> M value) (cr : cref) (st : state) :
  heap st !! cid cr = Some (flat_model (py_name c) (public_items d)) ->
  for_each d []
    (set_init_step (RT := traits_runtime) rec_trait_for rec_call cr) st
  = (OK (assigned (public_items d)), st).
Proof.
  intros Hheap.
  assert (Hloop : forall suf acc,
             (forall kv, kv ∈ suf -> kv ∈ d) ->
             NoDup (dict_keys suf) ->
             (forall k, k ∈ dict_keys suf -> k ∉ dict_keys acc) ->
             for_each suf acc
               (set_init_step (RT := traits_runtime) rec_trait_for rec_call
                  cr) st
             = (OK (acc ++ assigned (public_items suf)), st)).
  { induction suf as [| [k v] suf IH]; intros acc Hsub Hn Hfresh.
    - cbn. now rewrite app_nil_r.
    - cbn [for_each]. unfold bind at 1.
      cbn in Hn. apply NoDup_cons in Hn as [Hk Hn].
      assert (Hin : (k, v) ∈ d) by (apply Hsub; left).
      assert (Hrest : forall acc',
                 (forall k', k' ∈ dict_keys suf -> k' ∉ dict_keys acc') ->
                 for_each suf acc'
                   (set_init_step (RT := traits_runtime) rec_trait_for
                      rec_call cr) st
                 = (OK (acc' ++ assigned (public_items suf)), st)).
      { intros acc' Hf. apply IH; [| exact Hn | exact Hf].
        intros kv Hkv. apply Hsub. now right. }
      assert (Hne : String.eqb k "Templates" = false).
      { apply String.eqb_neq. intros ->. apply Htempl.
        eapply elem_of_dict_keys; eauto. }
      unfold set_init_step at 1, set_init_skips. cbn [fst snd].
      unfold public_items, assigned. cbn [List.filter fst snd].
      rewrite Hne, orb_false_r.
      destruct (startswith_underscore k) eqn:Hpriv; cbn [orb negb ret].
      + apply Hrest. intros k' Hk'. apply Hfresh. now right.
      + assert (Hs : is_scalar v = true)
          by (apply (public_scalar k); now apply public_items_intro).
        destruct (is_None v) eqn:Hnone; cbn [negb List.filter snd].
        * cbn [ret]. rewrite Hnone. cbn [negb].
          apply Hrest. intros k' Hk'. apply Hfresh. now right.
        * rewrite Hnone. cbn [negb].
          unfold set_init_convert.
          destruct (registered_base_type_scalar v Hs) as (-> & _).
          cbn [negb andb]. unfold bind at 1. cbn [ret].
          unfold set_init_assign. unfold bind at 1. unfold class_of.
          rewrite Hheap. unfold traits_of_instance, flat_model, Templates_trait.
          cbn [c_templates c_traits app].
          unfold validate_trait, trait_of.
          rewrite (model_trait_of k v) by (now apply public_items_intro).
          cbn [trait_type validate traits_runtime].
          rewrite (traits_validate_scalar v Hs). cbn [ret].
          rewrite dict_set_fresh by (apply Hfresh; left).
          rewrite Hrest.
          -- now rewrite <- app_assoc.
          -- intros k' Hk'. unfold dict_keys. rewrite map_app. cbn.
             rewrite elem_of_app, list_elem_of_singleton.
             intros [H | ->]; [| contradiction].
             apply (Hfresh k'); [now right | exact H]. }
  apply (Hloop d []); [auto | exact Hnd |].
  intros k _ Hin. now apply elem_of_nil in Hin.
Qed.

Lemma assigned_elem (kv : string * value) :
  kv ∈ assigned (public_items d) -> kv ∈ public_items d.
Proof. intros H. now apply filter_elem in H as [H _]. Qed.

(** [self.set] of the recorded values succeeds and stores them as they
    are. *)
Lemma trait_set_model :
  trait_set (RT := traits_runtime) (model_traits (public_items d)) []
    (assigned (public_items d))
  = (OK tt, assigned (public_items d)).
Proof.
  assert (Hloop : forall suf dd,
             (forall kv, kv ∈ suf -> kv ∈ public_items d) ->
             NoDup (dict_keys suf) ->
             (forall k, k ∈ dict_keys suf -> k ∉ dict_keys dd) ->
             trait_set (RT := traits_runtime)
               (model_traits (public_items d)) dd suf
             = (OK tt, dd ++ suf)).
  { induction suf as [| [k v] suf IH]; intros dd Hsub Hn Hfresh;
      cbn [trait_set].
    - now rewrite app_nil_r.
    - cbn in Hn. apply NoDup_cons in Hn as [Hk Hn].
      assert (Hin : (k, v) ∈ public_items d) by (apply Hsub; left).
      unfold validate_trait, trait_of. rewrite (model_trait_of k v Hin).
      cbn [trait_type validate traits_runtime].
      rewrite (traits_validate_scalar v (public_scalar k v Hin)).
      rewrite dict_set_fresh by (apply Hfresh; left).
      rewrite IH; [now rewrite <- app_assoc | | exact Hn |].
      + intros kv Hkv. apply Hsub. now right.
      + intros k' Hk'. unfold dict_keys. rewrite map_app. cbn.
        rewrite elem_of_app, list_elem_of_singleton.
        intros [H | ->]; [| contradiction].
        apply (Hfresh k'); [now right | exact H]. }
  apply (Hloop (assigned (public_items d)) []).
  - apply assigned_elem.
  - apply filter_keys_NoDup. now apply public_items_keys_NoDup.
  - intros k _ Hin. now apply elem_of_nil in Hin.
Qed.

(** Calling the model class on the object. *)
Lemma call_class_flat (fuel : nat) (cr : cref) (st : state) :
  heap st !! cid cr = Some (flat_model (py_name c) (public_items d)) ->
  call_class (RT := traits_runtime) (S fuel) cr (VObj c d) st
  = (OK (VClassModel cr (Some (VObj c d)) (assigned (public_items d))), st).
Proof.
  intros Hheap. cbn [call_class]. unfold call_class_body.
  unfold bind at 1. unfold class_of at 1. rewrite Hheap.
  cbn [flat_model c_kind]. unfold ClassModel___init__.
  cbn [is_None vars]. unfold bind at 1. unfold set_init.
  unfold bind at 1. cbn [ret]. unfold bind at 1.
  rewrite (set_init_loop_flat _ _ cr st Hheap).
  unfold set_init_finish. unfold bind at 1. unfold class_of at 1.
  rewrite Hheap. unfold traits_of_instance, flat_model, Templates_trait.
  cbn [c_templates c_traits app].
  rewrite trait_set_model. reflexivity.
Qed.

Lemma assigned_get_None (k : string) (v : value) :
  (k, v) ∈ public_items d ->
  dict_get (assigned (public_items d)) k = None -> v = VNone.
Proof.
  intros Hin Hget. destruct (is_None v) eqn:Hn;
    [destruct v; try discriminate; reflexivity |].
  assert (Ha : (k, v) ∈ assigned (public_items d)).
  { apply filter_elem. split; [exact Hin |]. cbn. now rewrite Hn. }
  rewrite (dict_get_of_NoDup _ k v) in Hget; [discriminate | | exact Ha].
  apply filter_keys_NoDup. now apply public_items_keys_NoDup.
Qed.

(** The names [self.get()] reads are names of public attributes. *)
Lemma public_names_model (n : string) :
  n ∈ public_names (model_traits (public_items d))
        (assigned (public_items d)) ->
  n ∈ dict_keys (public_items d).
Proof.
  unfold public_names. intros Hn. apply filter_elem in Hn as [Hn Hp].
  apply (proj1 (elem_of_remove_dups _ _)) in Hn.
  apply elem_of_app in Hn as [Hn | Hn].
  - unfold model_traits, dict_keys in Hn. rewrite map_app in Hn.
    apply elem_of_app in Hn as [Hn | Hn].
    + exfalso. cbn in Hn.
      repeat (apply elem_of_cons in Hn as [-> | Hn];
              [cbn in Hp; discriminate Hp |]).
      now apply elem_of_nil in Hn.
    + fold (dict_keys
              (map (fun kv => (fst kv, CTrait (scalar_trait (snd kv)) false))
                 (public_items d))) in Hn.
      now rewrite dict_keys_map in Hn.
  - apply dict_keys_elem in Hn as [v Hv].
    apply (elem_of_dict_keys _ n v). now apply assigned_elem.
Qed.

(** [self.get()] on the editor: the public attributes, those that were
    [None] read as the default of their trait, which is [None]. *)
Lemma trait_get_model (st : state) :
  exists e,
    trait_get (RT := traits_runtime) (model_traits (public_items d))
      (assigned (public_items d)) st = (OK e, st) /\
    forall kv, kv ∈ e -> kv ∈ public_items d.
Proof.
  unfold trait_get.
  assert (Hloop : forall names acc,
             (forall n, n ∈ names -> n ∈ dict_keys (public_items d)) ->
             exists e,
               for_each names acc
                 (fun elems name =>
                    let* v := getattr (RT := traits_runtime)
                                (model_traits (public_items d))
                                (assigned (public_items d)) name in
                    ret (elems ++ [(name, v)])) st
               = (OK (acc ++ e), st) /\
               forall kv, kv ∈ e -> kv ∈ public_items d).
  { induction names as [| n names IH]; intros acc Hnames.
    - exists []. cbn. rewrite app_nil_r. split; [reflexivity |].
      intros kv Hkv. now apply elem_of_nil in Hkv.
    - assert (Hn : n ∈ dict_keys (public_items d)) by (apply Hnames; left).
      apply dict_keys_elem in Hn as [v0 Hv0].
      assert (Hget : exists v,
                 getattr (RT := traits_runtime)
                   (model_traits (public_items d))
                   (assigned (public_items d)) n st = (OK v, st) /\
                 (n, v) ∈ public_items d).
      { unfold getattr.
        destruct (dict_get (assigned (public_items d)) n) as [v |] eqn:Hg.
        - exists v. split; [reflexivity |].
          apply assigned_elem. now apply dict_get_elem.
        - pose proof (assigned_get_None n v0 Hv0 Hg) as ->.
          exists VNone. split; [| exact Hv0].
          unfold trait_of. rewrite (model_trait_of n VNone Hv0).
          reflexivity. }
      destruct Hget as (v & Hgetv & Hv).
      destruct (IH (acc ++ [(n, v)])) as (e & He & Hsub).
      { intros n' Hn'. apply Hnames. now right. }
      exists ((n, v) :: e). split.
      + cbn [for_each]. unfold bind at 1. unfold bind at 1.
        rewrite Hgetv. cbn [ret]. rewrite He. now rewrite <- app_assoc.
      + intros kv Hkv. apply elem_of_cons in Hkv as [-> | Hkv]; auto. }
  destruct (Hloop (public_names (model_traits (public_items d))
                     (assigned (public_items d))) [])
    as (e & He & Hsub); [apply public_names_model |].
  exists e. split; [exact He | exact Hsub].
Qed.

(** [get_conv] on the editor. *)
Lemma get_conv_flat (rec_get_object : value -> bool -> M value) (cr : cref)
  (st : state) :
  heap st !! cid cr = Some (flat_model (py_name c) (public_items d)) ->
  exists e,
    ClassModel_get_conv (RT := traits_runtime) rec_get_object cr
      (assigned (public_items d)) st = (OK e, st) /\
    forall kv, kv ∈ e -> kv ∈ public_items d.
Proof.
  intros Hheap. unfold ClassModel_get_conv. unfold bind at 1.
  unfold class_of at 1. rewrite Hheap.
  unfold traits_of_instance, flat_model, Templates_trait.
  cbn [c_templates c_traits app]. unfold bind at 1.
  destruct (trait_get_model st) as (e & -> & Hsub).
  exists e. split; [| exact Hsub].
  assert (Hloop : forall suf acc,
             (forall kv, kv ∈ suf -> kv ∈ public_items d) ->
             for_each suf acc
               (fun (acc : pydict) '((k, x) : string * value) =>
                  let* y :=
                    if isinstance_ClassModel x then rec_get_object x false
                    else ret x in
                  ret (acc ++ [(k, y)])) st
             = (OK (acc ++ suf), st)).
  { induction suf as [| [k v] suf IH]; intros acc Hs; cbn.
    - now rewrite app_nil_r.
    - assert (Hv : is_scalar v = true)
        by (apply (public_scalar k); apply Hs; left).
      unfold bind at 1. unfold bind at 1.
      assert (Hno : isinstance_ClassModel v = false)
        by (destruct v; try discriminate; reflexivity).
      rewrite Hno. cbn [ret].
      rewrite IH by (intros kv Hkv; apply Hs; now right).
      now rewrite <- app_assoc. }
  apply (Hloop e []). exact Hsub.
Qed.

(** [get_object] on the editor: the object it was made from, with the
    attributes it had. *)
Lemma get_object_flat_model (fuel : nat) (cr : cref) (st : state) :
  heap st !! cid cr = Some (flat_model (py_name c) (public_items d)) ->
  get_object (RT := traits_runtime) (S fuel)
    (VClassModel cr (Some (VObj c d)) (assigned (public_items d))) false st
  = (OK (VObj c d), st) /\
  exists e,
    get_object (RT := traits_runtime) (S fuel)
      (VClassModel cr (Some (VObj c d)) (assigned (public_items d))) true st
    = (OK (VDict e), st) /\
    dict_update d e = d.
Proof.
  intros Hheap. cbn [get_object get_object_body].
  unfold ClassModel_get_object.
  destruct (get_conv_flat (get_object fuel) cr st Hheap) as (e & He & Hsub).
  assert (Hupd : dict_update d e = d).
  { apply dict_update_same. intros k v Hin.
    apply dict_get_of_NoDup; [exact Hnd |].
    apply public_items_elem. now apply Hsub. }
  split.
  - unfold bind at 1. rewrite He. cbn [obj_dict_update ret].
    now rewrite Hupd.
  - exists e. split; [| exact Hupd].
    unfold bind at 1. rewrite He. reflexivity.
Qed.

(** The editor of the object, and the state it is built in. *)
Lemma flat_object_editor (fuel : nat) (st : state) :
  no_scalar_handlers st ->
  fst (get_obj_t (py_user c) st) = OK None ->
  get_or_create_editor_for_obj (RT := traits_runtime) (S (S fuel))
    (VObj c d) st
  = (OK (VClassModel (CRef (length (heap st)) (py_name c)) (Some (VObj c d))
           (assigned (public_items d))),
     model_filed st (py_name c) (public_items d)).
Proof.
  intros Hst Hnone.
  unfold get_or_create_editor_for_obj. cbn [isinstance_HasTraits].
  cbn [get_or_create_trait_for]. unfold get_or_create_trait_for_body.
  cbn [isinstance_HasTraits _type_func]. unfold bind at 1.
  unfold bind at 1. cbn [set_depth]. unfold bind at 1.
  set (st1 := {| _api_types_to_trait := _api_types_to_trait st;
                 __dynamically_created_classes :=
                   __dynamically_created_classes st;
                 heap := heap st; stream := stream st;
                 depth := S (depth st) |}).
  assert (Hst1 : no_scalar_handlers st1)
    by (intros v Hv; exact (Hst v Hv)).
  assert (Hdyn : __dynamically_created_classes st !! py_name c = None).
  { unfold get_obj_t, bind, get_state, ret in Hnone. cbn in Hnone.
    destruct (_api_types_to_trait st !! py_name c); [discriminate |].
    destruct (__dynamically_created_classes st !! py_name c);
      [discriminate | reflexivity]. }
  assert (Hd1 : get_obj_t (py_user c) st1 = (OK None, st1)).
  { unfold get_obj_t, bind, get_state, ret in *. cbn in *.
    destruct (_api_types_to_trait st !! py_name c); [discriminate |].
    now rewrite Hdyn. }
  rewrite Hd1. unfold bind at 1. cbn [log LOG_LEVEL.MORE_INFO loglevel Nat.leb].
  unfold bind at 1. unfold create_generic_trait. cbn [_is_list].
  unfold bind at 1. cbn [log LOG_LEVEL.INFO loglevel Nat.leb vars].
  unfold bind at 1. unfold get_or_create_ModelClass_for_obj.
  unfold bind at 1. cbn [get_state _type_func].
  change (__name__ (py_user c)) with (py_name c).
  change (__dynamically_created_classes st1)
    with (__dynamically_created_classes st).
  rewrite Hdyn.
  rewrite (create_ModelClass_flat _ st1 Hst1).
  unfold bind at 1.
  rewrite call_class_flat by apply lookup_last.
  reflexivity.
Qed.

(** The editor after the dialog: the user may have given any public
    attribute a new value that is not a model instance, [None]-valued ones
    included, and has removed none. *)
Variable d' : pydict.
Hypothesis Hed_nd : NoDup (dict_keys d').
Hypothesis Hed_sub :
  forall k, k ∈ dict_keys d' -> k ∈ dict_keys (public_items d).
Hypothesis Hed_sup :
  forall k, k ∈ dict_keys (assigned (public_items d)) -> k ∈ dict_keys d'.
Hypothesis Hed_plain :
  Forall (fun kv => isinstance_ClassModel (snd kv) = false) d'.

Lemma public_names_edited (n : string) :
  n ∈ public_names (model_traits (public_items d)) d' <->
  n ∈ dict_keys (public_items d).
Proof.
  unfold public_names. rewrite filter_elem, elem_of_remove_dups, elem_of_app.
  split.
  - intros [[Hn | Hn] Hp]; [| now apply Hed_sub].
    unfold model_traits, dict_keys in Hn. rewrite map_app in Hn.
    apply elem_of_app in Hn as [Hn | Hn].
    + exfalso. cbn in Hn.
      repeat (apply elem_of_cons in Hn as [-> | Hn];
              [cbn in Hp; discriminate Hp |]).
      now apply elem_of_nil in Hn.
    + fold (dict_keys
              (map (fun kv => (fst kv, CTrait (scalar_trait (snd kv)) false))
                 (public_items d))) in Hn.
      now rewrite dict_keys_map in Hn.
  - intros Hn. split.
    + left. unfold model_traits, dict_keys. rewrite map_app.
      apply elem_of_app. right.
      fold (dict_keys
              (map (fun kv => (fst kv, CTrait (scalar_trait (snd kv)) false))
                 (public_items d))).
      now rewrite dict_keys_map.
    + apply dict_keys_elem in Hn as [v Hv].
      now rewrite (model_trait_of n v Hv).
Qed.

Lemma public_names_edited_NoDup :
  NoDup (public_names (model_traits (public_items d)) d').
Proof. apply filter_NoDup, NoDup_remove_dups. Qed.

Lemma trait_get_edited (st : state) :
  exists e,
    trait_get (RT := traits_runtime) (model_traits (public_items d)) d' st
    = (OK e, st) /\
    dict_keys e = public_names (model_traits (public_items d)) d' /\
    forall k v, (k, v) ∈ e -> read_from_editor d d' k v.
Proof.
  unfold trait_get.
  assert (Hloop : forall names acc,
             (forall n, n ∈ names -> n ∈ dict_keys (public_items d)) ->
             exists e,
               for_each names acc
                 (fun elems name =>
                    let* v := getattr (RT := traits_runtime)
                                (model_traits (public_items d)) d' name in
                    ret (elems ++ [(name, v)])) st
               = (OK (acc ++ e), st) /\
               dict_keys e = names /\
               forall k v, (k, v) ∈ e -> read_from_editor d d' k v).
  { induction names as [| n names IH]; intros acc Hnames.
    - exists []. cbn. rewrite app_nil_r. split; [reflexivity |].
      split; [reflexivity |].
      intros k v Hkv. now apply elem_of_nil in Hkv.
    - assert (Hn : n ∈ dict_keys (public_items d)) by (apply Hnames; left).
      apply dict_keys_elem in Hn as [v0 Hv0].
      assert (Hget : exists v,
                 getattr (RT := traits_runtime)
                   (model_traits (public_items d)) d' n st = (OK v, st) /\
                 read_from_editor d d' n v).
      { unfold getattr.
        destruct (dict_get d' n) as [v |] eqn:Hg.
        - exists v. split; [reflexivity |]. now left.
        - assert (Hnone : v0 = VNone).
          { destruct (is_None v0) eqn:Hn0;
              [destruct v0; try discriminate; reflexivity |].
            exfalso. apply (dict_get_None_fresh d' n Hg). apply Hed_sup.
            apply (elem_of_dict_keys _ n v0). apply filter_elem.
            split; [exact Hv0 |]. cbn. now rewrite Hn0. }
          subst v0. exists VNone. split.
          + unfold trait_of. rewrite (model_trait_of n VNone Hv0).
            reflexivity.
          + right. auto. }
      destruct Hget as (v & Hgetv & Hv).
      destruct (IH (acc ++ [(n, v)])) as (e & He & Hkeys & Hread).
      { intros n' Hn'. apply Hnames. now right. }
      exists ((n, v) :: e). split; [| split].
      + cbn [for_each]. unfold bind at 1. unfold bind at 1.
        rewrite Hgetv. cbn [ret]. rewrite He. now rewrite <- app_assoc.
      + cbn [dict_keys map fst]. f_equal. exact Hkeys.
      + intros k w Hkv. apply elem_of_cons in Hkv as [[= -> ->] | Hkv]; auto. }
  destruct (Hloop (public_names (model_traits (public_items d)) d') [])
    as (e & He & Hkeys & Hread).
  { intros n Hn. now apply public_names_edited. }
  exists e. auto.
Qed.

(** Updating the attributes of the object with what was read is updating
    them with the values the editor holds. *)
Lemma update_with_read (e : pydict) :
  dict_keys e = public_names (model_traits (public_items d)) d' ->
  (forall k v, (k, v) ∈ e -> read_from_editor d d' k v) ->
  dict_update d e = dict_update d d'.
Proof.
  intros Hkeys Hread.
  assert (Hpub_in : forall k, k ∈ dict_keys (public_items d) -> k ∈ dict_keys d).
  { intros k Hk. apply dict_keys_elem in Hk as [v Hv].
    apply (elem_of_dict_keys _ k v). now apply public_items_elem. }
  assert (He_sub : forall k, k ∈ dict_keys e -> k ∈ dict_keys d).
  { intros k Hk. rewrite Hkeys in Hk. apply Hpub_in.
    now apply public_names_edited. }
  assert (He_nd : NoDup (dict_keys e))
    by (rewrite Hkeys; apply public_names_edited_NoDup).
  apply dict_ext.
  - rewrite !dict_update_keys; auto.
  - rewrite dict_update_keys; auto.
  - intros k. rewrite !dict_get_update by assumption.
    destruct (dict_get e k) as [v |] eqn:Hge.
    + destruct (Hread k v (dict_get_elem _ _ _ Hge))
        as [-> | (-> & -> & Hnone)]; [reflexivity |].
      symmetry. apply dict_get_of_NoDup; [exact Hnd |].
      now apply public_items_elem.
    + destruct (dict_get d' k) as [v |] eqn:Hgd; [| reflexivity].
      exfalso. apply (dict_get_None_fresh e k Hge). rewrite Hkeys.
      apply public_names_edited. apply Hed_sub.
      apply (elem_of_dict_keys _ k v). now apply dict_get_elem.
Qed.

(** [get_object] on the edited editor: the object it was made from, with
    the values the editor holds. *)
Lemma get_object_edited_model (fuel : nat) (cr : cref) (st : state) :
  heap st !! cid cr = Some (flat_model (py_name c) (public_items d)) ->
  get_object (RT := traits_runtime) (S fuel)
    (VClassModel cr (Some (VObj c d)) d') false st
  = (OK (VObj c (dict_update d d')), st) /\
  exists e,
    get_object (RT := traits_runtime) (S fuel)
      (VClassModel cr (Some (VObj c d)) d') true st
    = (OK (VDict e), st) /\
    dict_update d e = dict_update d d'.
Proof.
  intros Hheap. cbn [get_object get_object_body].
  unfold ClassModel_get_object, ClassModel_get_conv.
  destruct (trait_get_edited st) as (e & He & Hkeys & Hread).
  assert (Hconv :
    (let* r := class_of cr in
     let* elems := trait_get (RT := traits_runtime) (traits_of_instance r) d' in
     for_each elems []
       (fun (acc : pydict) '((k, x) : string * value) =>
          let* y :=
            if isinstance_ClassModel x then get_object fuel x false
            else ret x in
          ret (acc ++ [(k, y)]))) st
    = (OK e, st)).
  { unfold bind at 1. unfold class_of at 1. rewrite Hheap.
    unfold traits_of_instance, flat_model, Templates_trait.
    cbn [c_templates c_traits app]. unfold bind at 1. rewrite He.
    assert (Hloop : forall suf acc,
               (forall k v, (k, v) ∈ suf -> read_from_editor d d' k v) ->
               for_each suf acc
                 (fun (acc : pydict) '((k, x) : string * value) =>
                    let* y :=
                      if isinstance_ClassModel x then get_object fuel x false
                      else ret x in
                    ret (acc ++ [(k, y)])) st
               = (OK (acc ++ suf), st)).
    { induction suf as [| [k v] suf IH]; intros acc Hs; cbn.
      - now rewrite app_nil_r.
      - assert (Hno : isinstance_ClassModel v = false).
        { destruct (Hs k v) as [Hg | (_ & -> & _)]; [left | | reflexivity].
          exact (proj1 (Forall_forall _ _) Hed_plain (k, v)
                   (dict_get_elem _ _ _ Hg)). }
        unfold bind at 1. unfold bind at 1. rewrite Hno. cbn [ret].
        rewrite IH by (intros k' v' Hkv; apply Hs; now right).
        now rewrite <- app_assoc. }
    apply (Hloop e []). exact Hread. }
  pose proof (update_with_read e Hkeys Hread) as Hupd.
  split.
  - unfold bind at 1. rewrite Hconv. cbn [obj_dict_update ret].
    now rewrite Hupd.
  - exists e. split; [| exact Hupd].
    unfold bind at 1. rewrite Hconv. reflexivity.
Qed.

End FlatObject.






(** *** Values that cannot be edited *)

(** X13.  A value that is neither list-like nor a dictionary and has no
    [__dict__] ([None], a number, an object without attributes) has no
    editor: when no handler is known for its type, inference ends in an
    [AttributeError], raised when [GenericTrait] asks the value for its
    items.  Registries and class objects are as they were, and the logging
    depth is left one level deeper than it was. *)
Theorem atom_has_no_editor
  (RT : TraitsRuntime) (fuel : nat) (obj : value) (st : state) :
  is_atom obj = true ->
  fst (get_obj_t (_type_func obj) st) = OK None ->
  (exists why,
     fst (get_or_create_editor_for_obj (S fuel) obj st)
     = Raise (AttributeError why)) /\
  same_classes st (snd (get_or_create_editor_for_obj (S fuel) obj st)) /\
  depth (snd (get_or_create_editor_for_obj (S fuel) obj st)) = S (depth st).
Proof.
  intros Hatom Hnone.
  assert (Hrun :
    exists why,
      get_or_create_editor_for_obj (S fuel) obj st
      = (Raise (AttributeError why),
         {| _api_types_to_trait := _api_types_to_trait st;
            __dynamically_created_classes := __dynamically_created_classes st;
            heap := heap st; stream := stream st;
            depth := S (depth st) |})).
  { unfold get_or_create_editor_for_obj.
    assert (Hnot : isinstance_HasTraits obj = false)
      by (destruct obj; try discriminate; reflexivity).
    rewrite Hnot. cbn [get_or_create_trait_for].
    unfold get_or_create_trait_for_body. rewrite Hnot.
    unfold get_obj_t, bind, get_state, ret in *. cbn in Hnone |- *.
    destruct (_api_types_to_trait st !! _); [discriminate |].
    destruct (__dynamically_created_classes st !! _); [discriminate |].
    unfold create_generic_trait, GenericTrait___init__, _create_get_traits.
    destruct obj; try discriminate; cbn; eauto. }
  destruct Hrun as [why Hrun]. rewrite Hrun. cbn [fst snd].
  split; [eauto |]. split; [apply same_classes_depth | reflexivity].
Qed.

Lemma atom_has_no_editor_witness :
  depth (snd (get_or_create_editor_for_obj (RT := traits_runtime) 1 (VInt 5)
                initial_state))
  = S (depth initial_state).
Proof.
  apply (atom_has_no_editor traits_runtime 0 (VInt 5) initial_state);
    reflexivity.
Defined.

(** *** List classes *)

(** X14.  The list class of an element class is created once: the first
    request creates and files it, [_getClassListOf] then finds it, and a
    later request returns the same class without touching the state,
    whatever original class it is given. *)
Theorem ClassListOf_is_created_once
  (innerClass : cref) (orig_class orig_class' : option pytype) (st : state) :
  exists c,
    fst (_get_or_create_ClassListOf innerClass orig_class st) = OK c /\
    let st1 := snd (_get_or_create_ClassListOf innerClass orig_class st) in
    _getClassListOf innerClass st1 = (OK (Some c), st1) /\
    _get_or_create_ClassListOf innerClass orig_class' st1 = (OK c, st1).
Proof.
  unfold _get_or_create_ClassListOf, _getClassListOf, bind, get_state, ret.
  destruct (__dynamically_created_classes st
              !! ("ListOf" +:+ __name__ innerClass)) as [c |] eqn:E.
  - exists c. cbn. rewrite E. auto.
  - eexists. unfold _create_ListClass, bind, log, new_class,
      set_dynamically_created_classes, ret. cbn.
    rewrite lookup_insert_eq. auto.
Qed.

(** *** Templates and the original object *)

Lemma default_value_plain {RT : TraitsRuntime} (t : trait) (st : state) :
  plain_default t = true ->
  exists v, default_value t st = (OK v, st) /\ isinstance_ClassModel v = false.
Proof.
  destruct t as [| | | | | | ty | item | k args | values]; cbn;
    try discriminate; eauto.
  - destruct args; [discriminate |]. destruct k; cbn; eauto.
  - destruct values; cbn; eauto.
Qed.

Lemma trait_of_plain {RT : TraitsRuntime} (traits : list (string * ctrait))
  (n : string) :
  plain_defaults traits = true -> plain_default (trait_of traits n) = true.
Proof.
  unfold trait_of. induction traits as [| [k ct] traits IH]; cbn;
    [reflexivity |].
  intros H. apply andb_true_iff in H as [Hct H].
  destruct (String.eqb k n); [exact Hct | now apply IH].
Qed.

(** [get_object] on an instance with no attribute set and no original
    object, of a class whose traits have plain defaults: the instance
    itself. *)
Lemma get_object_of_reset {RT : TraitsRuntime} (fuel : nat) (c : cref)
  (r : class_rec) (st : state) :
  heap st !! cid c = Some r ->
  plain_defaults (traits_of_instance r) = true ->
  get_object (S fuel) (VClassModel c None []) false st
  = (OK (VClassModel c None []), st).
Proof.
  intros Hheap Hplain. cbn [get_object get_object_body].
  unfold ClassModel_get_object, ClassModel_get_conv.
  assert (Hget : forall names acc,
             exists e,
               for_each names acc
                 (fun elems name =>
                    let* v := getattr (traits_of_instance r) [] name in
                    ret (elems ++ [(name, v)])) st
               = (OK (acc ++ e), st) /\
               Forall (fun kv => isinstance_ClassModel (snd kv) = false) e).
  { induction names as [| n names IH]; intros acc.
    - exists []. cbn. rewrite app_nil_r. split; [reflexivity | constructor].
    - destruct (default_value_plain (trait_of (traits_of_instance r) n) st
                  (trait_of_plain _ n Hplain)) as (v & Hv & Hno).
      destruct (IH (acc ++ [(n, v)])) as (e & He & Hall).
      assert (Hg : getattr (traits_of_instance r) [] n st = (OK v, st))
        by exact Hv.
      exists ((n, v) :: e). split.
      + cbn [for_each]. unfold bind at 1. unfold bind at 1.
        rewrite Hg. cbn [ret]. rewrite He. now rewrite <- app_assoc.
      + constructor; [exact Hno | exact Hall]. }
  assert (Hconv : forall e acc,
             Forall (fun kv => isinstance_ClassModel (snd kv) = false) e ->
             for_each e acc
               (fun (acc : pydict) '((k, x) : string * value) =>
                  let* y :=
                    if isinstance_ClassModel x then get_object fuel x false
                    else ret x in
                  ret (acc ++ [(k, y)])) st
             = (OK (acc ++ e), st)).
  { induction e as [| [k v] e IH]; intros acc Hall; cbn.
    - now rewrite app_nil_r.
    - apply Forall_cons_iff in Hall as [Hv Hall]. cbn in Hv.
      unfold bind at 1. unfold bind at 1. rewrite Hv. cbn [ret].
      rewrite IH by exact Hall. now rewrite <- app_assoc. }
  unfold bind at 1. unfold bind at 1. unfold class_of at 1. rewrite Hheap.
  unfold bind at 1. unfold trait_get.
  destruct (Hget (public_names (traits_of_instance r) []) [])
    as (e & -> & Hall).
  cbn [app]. rewrite (Hconv e [] Hall). reflexivity.
Qed.

(** X15.  Selecting a template name that the class does not declare (the
    empty selection included) cuts the editor off from the object it was
    made from: the handler resets every attribute, the reference to the
    original object among them, and [get_object] then returns the editor
    itself instead of the object. *)
Theorem template_reset_severs_origin
  (RT : TraitsRuntime) (fuel : nat) (c : cref) (r : class_rec)
  (orig_obj : option value) (d : pydict) (new : string) (st : state) :
  heap st !! cid c = Some r ->
  dict_get (c_templates r) new = None ->
  plain_defaults (traits_of_instance r) = true ->
  _Templates_changed st (VClassModel c orig_obj d) new
  = (OK tt, VClassModel c None []) /\
  get_object (S fuel) (VClassModel c None []) false st
  = (OK (VClassModel c None []), st).
Proof.
  intros Hheap Hnew Hplain. split.
  - unfold _Templates_changed. rewrite Hheap, Hnew. reflexivity.
  - now apply (get_object_of_reset fuel c r).
Qed.

Lemma template_reset_severs_origin_witness :
  get_object (RT := traits_runtime) 1 (VClassModel Account None []) false
    (Account_state [("t1", [("number", VInt 1)])])
  = (OK (VClassModel Account None []),
     Account_state [("t1", [("number", VInt 1)])]).
Proof.
  apply (template_reset_severs_origin traits_runtime 0 Account
           (Account_rec [("t1", [("number", VInt 1)])])
           (Some (VObj (PyClass "Account" true) [("number", VInt 7)]))
           [("number", VInt 7)] ""
           (Account_state [("t1", [("number", VInt 1)])]));
    reflexivity.
Defined.

(** *** Base types *)

(** X16.  Membership in the base types and lookup agree: a type passes
    [in _registered_base_types] exactly when indexing the container with it
    gives a trait, so the trait taken on line 405 is never [None]. *)
Theorem BaseTypes_contains_iff_getitem
  (dic : list (pytype * trait)) (t : pytype) :
  BaseTypes_contains dic t = true <-> is_Some (BaseTypes_getitem dic t).
Proof.
  unfold BaseTypes_contains.
  induction dic as [| [k v] dic IH]; cbn.
  - split; [discriminate | intros [x Hx]; discriminate].
  - destruct (issubclass t k); cbn; [| exact IH].
    split; [eauto | reflexivity].
Qed.

(** *** List-like values in typed fields *)

(** X17.  In [set_init], a list-like value (a string is one) that the
    trait of its field rejects is not dropped like other unfit values.  If
    it is empty the iteration leaves [mod_traits] and the state as they
    were; if it has a first element and no list class is filed for the
    type of that element, the iteration raises [TypeError]: the missing
    list class, [None], is called. *)
Theorem set_init_unfit_list_like
  (RT : TraitsRuntime) (rec_trait_for : value -> M (trait * value))
  (rec_call : cref -> value -> M value) (c : cref) (r : class_rec)
  (mod_traits : pydict) (key : string) (val : value) (st : state) :
  heap st !! cid c = Some r ->
  set_init_skips key val = false ->
  _is_list val = true ->
  validate (trait_of (traits_of_instance r) key) val = None ->
  match elements val with
  | [] =>
      set_init_step rec_trait_for rec_call c mod_traits (key, val) st
      = (OK mod_traits, st)
  | val0 :: _ =>
      fst (_getClassListOf (_type_func val0) st) = OK None ->
      set_init_step rec_trait_for rec_call c mod_traits (key, val) st
      = (Raise (TypeError "'NoneType' object is not callable"), st)
  end.
Proof.
  intros Hheap Hskip Hlist Hval.
  assert (Hstep :
    set_init_step rec_trait_for rec_call c mod_traits (key, val) st
    = match elements val with
      | [] => (OK mod_traits, st)
      | val0 :: _ =>
          (let* tlistc := _getClassListOf (_type_func val0) in
           match tlistc with
           | Some tlistc =>
               let* obj := rec_call tlistc val in
               ret (dict_set mod_traits key obj)
           | None => raise (TypeError "'NoneType' object is not callable")
           end) st
      end).
  { unfold set_init_step. cbn [fst snd]. rewrite Hskip.
    unfold set_init_convert. rewrite Hlist. cbn [negb]. rewrite andb_false_r.
    unfold bind at 1. cbn [ret]. unfold set_init_assign.
    unfold bind at 1. unfold class_of. rewrite Hheap.
    unfold validate_trait. rewrite Hval. cbn [is_TraitError]. rewrite Hlist.
    destruct (elements val); reflexivity. }
  rewrite Hstep. destruct (elements val) as [| val0 rest]; [reflexivity |].
  intros Hnone. unfold bind at 1.
  destruct (_getClassListOf (_type_func val0) st) as [res st1] eqn:E.
  cbn in Hnone. subst res.
  unfold _getClassListOf, bind, get_state, ret in E. cbn in E.
  injection E as _ <-. reflexivity.
Qed.

Lemma set_init_unfit_list_like_witness :
  set_init_step (RT := traits_runtime) (get_or_create_trait_for 0)
    (call_class 0) Account [] ("number", VStr "12") (Account_state [])
  = (Raise (TypeError "'NoneType' object is not callable"), Account_state []).
Proof.
  exact (set_init_unfit_list_like traits_runtime (get_or_create_trait_for 0)
           (call_class 0) Account (Account_rec []) [] "number" (VStr "12")
           (Account_state []) eq_refl eq_refl eq_refl eq_refl eq_refl).
Defined.

(** *** Item access on the editor of a list *)

Lemma str_nat_inj (i j : nat) : str_nat i = str_nat j -> i = j.
Proof.
  unfold str_nat. intros H.
  assert (Hu : Nat.to_uint i = Nat.to_uint j).
  { pose proof (NilEmpty.usu (Nat.to_uint i)) as Hi.
    pose proof (NilEmpty.usu (Nat.to_uint j)) as Hj.
    rewrite H in Hi. rewrite Hi in Hj. now injection Hj. }
  rewrite <- (Unsigned.of_to i), <- (Unsigned.of_to j). now rewrite Hu.
Qed.

Lemma pos_key_inj (i j : nat) :
  "pos" +:+ str_nat i = "pos" +:+ str_nat j -> i = j.
Proof. cbn. intros [= H]. now apply str_nat_inj. Qed.

Lemma positional_lookup_from (o : nat) (xs : list value) (i : nat) :
  dict_get (map (fun '(i, val) => ("pos" +:+ str_nat i, val))
              (enumerate_from o xs))
    ("pos" +:+ str_nat (o + i))
  = xs !! i.
Proof.
  revert o i. induction xs as [| x xs IH]; intros o i; [reflexivity |].
  cbn [enumerate_from map dict_get].
  destruct i as [| i].
  - rewrite Nat.add_0_r, String.eqb_refl. reflexivity.
  - destruct (String.eqb_spec ("pos" +:+ str_nat o)
                ("pos" +:+ str_nat (o + S i))) as [Heq | _].
    + apply pos_key_inj in Heq. lia.
    + replace (o + S i) with (S o + i) by lia. apply IH.
Qed.

Lemma positional_lookup (xs : list value) (i : nat) :
  dict_get (positional xs) ("pos" +:+ str_nat i) = xs !! i.
Proof. apply (positional_lookup_from 0 xs i). Qed.

(** X18.  Indexing the editor of a list gives the elements of the list:
    for the [GenericTrait] made of the fields [pos0], [pos1], ... of a
    list, [editor[i]] is the element at position [i], whatever the length
    of the list; on an editor that does not stand for a list, reading and
    writing an item both raise [TypeError]. *)
Theorem list_editor_indexing
  (RT : TraitsRuntime) (xs : list value) (is_dict : bool)
  (orig_obj : option value) (traits : list (string * ctrait)) (i : nat)
  (x : value) (st : state) :
  xs !! i = Some x ->
  GenericTrait___getitem__
    (VGenericTrait true is_dict orig_obj traits (positional xs)) i st
  = (OK x, st) /\
  (forall d v,
     (exists why,
        GenericTrait___getitem__
          (VGenericTrait false is_dict orig_obj traits d) i st
        = (Raise (TypeError why), st)) /\
     (exists why,
        GenericTrait___setitem__
          (VGenericTrait false is_dict orig_obj traits d) i v
        = (Raise (TypeError why),
           VGenericTrait false is_dict orig_obj traits d))).
Proof.
  intros Hx. split.
  - unfold GenericTrait___getitem__. cbn [negb].
    unfold getattr. rewrite positional_lookup, Hx. reflexivity.
  - intros d v. split; cbn; eauto.
Qed.

Lemma list_editor_indexing_witness :
  GenericTrait___getitem__ (RT := traits_runtime)
    (flat_editor true false None
       (positional [VInt 3; VStr "three"; VNone; VInt 4]))
    1 initial_state
  = (OK (VStr "three"), initial_state).
Proof.
  apply (list_editor_indexing traits_runtime
           [VInt 3; VStr "three"; VNone; VInt 4] false None
           (flat_traits (positional [VInt 3; VStr "three"; VNone; VInt 4]))
           1 (VStr "three") initial_state).
  reflexivity.
Defined.

(** X19.  Writing an item of a list editor and reading it back: when the
    trait of the field [pos<i>] accepts the value, [editor[i] = v] returns
    [None], [editor[i]] then reads the value as it was accepted, and every
    other index reads as it did before. *)
Theorem list_editor_store_select
  (RT : TraitsRuntime) (is_dict : bool) (orig_obj : option value)
  (traits : list (string * ctrait)) (d : pydict) (i : nat) (v v' : value)
  (st : state) :
  validate (trait_of traits ("pos" +:+ str_nat i)) v = Some v' ->
  let ed := VGenericTrait true is_dict orig_obj traits d in
  fst (GenericTrait___setitem__ ed i v) = OK VNone /\
  GenericTrait___getitem__ (snd (GenericTrait___setitem__ ed i v)) i st
  = (OK v', st) /\
  forall j, j <> i ->
    GenericTrait___getitem__ (snd (GenericTrait___setitem__ ed i v)) j st
    = GenericTrait___getitem__ ed j st.
Proof.
  intros Hval ed. subst ed. unfold GenericTrait___setitem__.
  cbn [negb trait_set]. unfold validate_trait. rewrite Hval.
  cbn [fst snd]. split; [reflexivity |]. split.
  - unfold GenericTrait___getitem__, getattr. cbn [negb].
    rewrite dict_get_set_eq. reflexivity.
  - intros j Hj. unfold GenericTrait___getitem__, getattr. cbn [negb].
    rewrite dict_get_set_ne; [reflexivity |].
    intros Heq. apply pos_key_inj in Heq. congruence.
Qed.

Lemma list_editor_store_select_witness :
  GenericTrait___getitem__ (RT := traits_runtime)
    (snd (GenericTrait___setitem__
            (flat_editor true false None
               (positional [VInt 3; VStr "three"; VNone; VInt 4]))
            0 (VInt 7)))
    0 initial_state
  = (OK (VInt 7), initial_state).
Proof.
  apply (list_editor_store_select traits_runtime false None
           (flat_traits (positional [VInt 3; VStr "three"; VNone; VInt 4]))
           (positional [VInt 3; VStr "three"; VNone; VInt 4])
           0 (VInt 7) (VInt 7) initial_state).
  reflexivity.
Defined.

(** *** Lists of objects whose class needs constructor arguments *)

(** X20.  [get_object] on a list model whose original class cannot be
    called without arguments does not give objects of that class back:
    every element that is a model instance is returned as the editor it
    is, one line is logged at level [ERROR] for each of them, and nothing
    else changes. *)
Theorem list_of_unbuildable_comes_back_as_editors
  (RT : TraitsRuntime) (fuel : nat) (lc : cref) (inner : inner_t)
  (c : pyclass) (matrix : list value) (as_dict : bool) (st : state) :
  py_noarg_init c = false ->
  Forall (fun e => isinstance_ClassModel e = true) matrix ->
  get_object (S fuel) (VListClassModel lc inner (Some (py_user c)) matrix)
    as_dict st
  = (OK (VList matrix),
     {| _api_types_to_trait := _api_types_to_trait st;
        __dynamically_created_classes := __dynamically_created_classes st;
        heap := heap st;
        stream := stream st ++ no_noarg_lines (py_user c) (depth st) matrix;
        depth := depth st |}).
Proof.
  intros Hno Hall. cbn [get_object get_object_body].
  unfold ListClassModel_get_object.
  assert (Hloop : forall m acc s,
             Forall (fun e => isinstance_ClassModel e = true) m ->
             for_each m acc
               (fun acc elem =>
                  let* x := cast_back (get_object fuel) elem
                              (Some (py_user c)) in
                  ret (acc ++ [x])) s
             = (OK (acc ++ m),
                {| _api_types_to_trait := _api_types_to_trait s;
                   __dynamically_created_classes :=
                     __dynamically_created_classes s;
                   heap := heap s;
                   stream := stream s
                             ++ no_noarg_lines (py_user c) (depth s) m;
                   depth := depth s |})).
  { induction m as [| e m IH]; intros acc s Hm.
    - cbn. rewrite !app_nil_r. now destruct s.
    - apply Forall_cons_iff in Hm as [He Hm].
      cbn [for_each]. unfold bind at 1. unfold bind at 1.
      assert (Hcast :
        cast_back (get_object fuel) e (Some (py_user c)) s
        = (OK e,
           {| _api_types_to_trait := _api_types_to_trait s;
              __dynamically_created_classes :=
                __dynamically_created_classes s;
              heap := heap s;
              stream := stream s
                        ++ [LogLine LOG_LEVEL.ERROR (depth s)
                              (msg_no_noarg_constructor (py_user c))];
              depth := depth s |})).
      { unfold cast_back.
        assert (Hbase : in_registered_base_types (_type_func e) = false)
          by (destruct e; try discriminate; reflexivity).
        assert (Htl : bool_decide (_type_func e = py_TraitListObject) = false)
          by (destruct e; try discriminate; reflexivity).
        rewrite Hbase, Htl. unfold bind at 1. unfold try_except.
        unfold bind at 1. cbn [call_noarg]. rewrite Hno.
        cbn [raise is_Exception]. unfold bind at 1.
        cbn [log LOG_LEVEL.ERROR loglevel Nat.leb ret]. reflexivity. }
      rewrite Hcast. cbn [ret]. rewrite IH by exact Hm.
      cbn [_api_types_to_trait __dynamically_created_classes heap stream
           depth no_noarg_lines map].
      now rewrite <- !app_assoc. }
  unfold bind at 1. rewrite (Hloop matrix [] st Hall). reflexivity.
Qed.

Lemma list_of_unbuildable_comes_back_as_editors_witness :
  fst (get_object (RT := traits_runtime) 1
         (VListClassModel ListOfUser (InnerClass User_model)
            (Some (py_user (PyClass "User" false)))
            [edited_user user1; edited_user user2])
         false initial_state)
  = OK (VList [edited_user user1; edited_user user2]).
Proof.
  rewrite (list_of_unbuildable_comes_back_as_editors traits_runtime 0
             ListOfUser (InnerClass User_model) (PyClass "User" false)
             [edited_user user1; edited_user user2] false initial_state).
  - reflexivity.
  - reflexivity.
  - repeat constructor.
Defined.

(** *** Lists of objects of one class and one shape *)

Lemma Forall2_elem_l {A B} (P : A -> B -> Prop) (l : list A) (l' : list B)
  (x : A) :
  Forall2 P l l' -> x ∈ l -> exists y, y ∈ l' /\ P x y.
Proof.
  induction 1 as [| a b l l' Hab _ IH]; intros Hx;
    [now apply elem_of_nil in Hx |].
  apply elem_of_cons in Hx as [-> | Hx].
  - exists b. split; [left | exact Hab].
  - destruct (IH Hx) as (y & Hy & Hp). exists y. split; [now right | exact Hp].
Qed.

Lemma ListOf_name_ne (s : string) : "ListOf" +:+ s <> s.
Proof.
  intros H. apply (f_equal String.length) in H.
  change ("ListOf" +:+ s)
    with (String "L" (String "i" (String "s" (String "t" (String "O"
            (String "f" s)))))) in H.
  cbn in H. lia.
Qed.

Section ObjectList.
Variable c : pyclass.
Variable d1 : pydict.
Hypothesis Hshape1 : same_shape d1 d1.

Lemma shape_flat (d : pydict) :
  same_shape d1 d ->
  Forall (fun kv => is_scalar (snd kv) = true) (public_items d).
Proof.
  intros (_ & _ & H2). induction H2 as [| a b l l' (_ & Hs & _) _ IH];
    constructor; auto.
Qed.

Lemma shape_not_None (d : pydict) (k : string) (v : value) :
  same_shape d1 d -> (k, v) ∈ public_items d -> is_None v = false.
Proof.
  intros (_ & _ & H2) Hin.
  destruct (Forall2_elem_l _ _ _ _ H2 Hin) as (y & _ & _ & _ & Hn & _).
  exact Hn.
Qed.

Lemma shape_trait_of (d : pydict) (k : string) (v : value) :
  same_shape d1 d -> (k, v) ∈ public_items d ->
  dict_get (model_traits (public_items d1)) k
  = Some (CTrait (scalar_trait v) false).
Proof.
  intros Hd Hin. pose proof Hd as (_ & _ & H2).
  destruct (Forall2_elem_l _ _ _ _ H2 Hin)
    as ([k1 v1] & Hin1 & Hk & _ & _ & Ht).
  cbn in Hk, Ht. subst k1. rewrite Ht.
  destruct Hshape1 as (Hnd1 & Htempl1 & _).
  exact (model_trait_of d1 Hnd1 Htempl1 k v1 Hin1).
Qed.

Lemma shape_keys (d : pydict) :
  same_shape d1 d ->
  dict_keys (public_items d) = dict_keys (public_items d1).
Proof.
  intros (_ & _ & H2). induction H2 as [| a b l l' (Hk & _) _ IH];
    [reflexivity |].
  cbn [dict_keys map]. rewrite Hk. f_equal. exact IH.
Qed.

Lemma shape_public_NoDup (d : pydict) :
  same_shape d1 d -> NoDup (dict_keys (public_items d)).
Proof. intros (Hnd & _). now apply public_items_keys_NoDup. Qed.

Lemma shape_scalar (d : pydict) (k : string) (v : value) :
  same_shape d1 d -> (k, v) ∈ public_items d -> is_scalar v = true.
Proof.
  intros Hd Hin. exact (proj1 (Forall_forall _ _) (shape_flat d Hd) (k, v) Hin).
Qed.

(** The loop of [set_init] on an element: every public attribute is
    recorded as it is. *)
Lemma set_init_loop_shape (d : pydict)
  (rec_trait_for : value -> M (trait * value))
  (rec_call : cref -> value -> M value) (cr : cref) (st : state) :
  same_shape d1 d ->
  heap st !! cid cr = Some (flat_model (py_name c) (public_items d1)) ->
  for_each d []
    (set_init_step (RT := traits_runtime) rec_trait_for rec_call cr) st
  = (OK (public_items d), st).
Proof.
  intros Hd Hheap. pose proof Hd as (Hnd & Htempl & _).
  assert (Hloop : forall suf acc,
             (forall kv, kv ∈ suf -> kv ∈ d) ->
             NoDup (dict_keys suf) ->
             (forall k, k ∈ dict_keys suf -> k ∉ dict_keys acc) ->
             for_each suf acc
               (set_init_step (RT := traits_runtime) rec_trait_for rec_call
                  cr) st
             = (OK (acc ++ public_items suf), st)).
  { induction suf as [| [k v] suf IH]; intros acc Hsub Hn Hfresh.
    - cbn. now rewrite app_nil_r.
    - cbn [for_each]. unfold bind at 1.
      cbn in Hn. apply NoDup_cons in Hn as [Hk Hn].
      assert (Hin : (k, v) ∈ d) by (apply Hsub; left).
      assert (Hrest : forall acc',
                 (forall k', k' ∈ dict_keys suf -> k' ∉ dict_keys acc') ->
                 for_each suf acc'
                   (set_init_step (RT := traits_runtime) rec_trait_for
                      rec_call cr) st
                 = (OK (acc' ++ public_items suf), st)).
      { intros acc' Hf. apply IH; [| exact Hn | exact Hf].
        intros kv Hkv. apply Hsub. now right. }
      assert (Hne : String.eqb k "Templates" = false).
      { apply String.eqb_neq. intros ->. apply Htempl.
        eapply elem_of_dict_keys; eauto. }
      unfold set_init_step at 1, set_init_skips. cbn [fst snd].
      unfold public_items. cbn [List.filter fst snd].
      rewrite Hne, orb_false_r.
      destruct (startswith_underscore k) eqn:Hpriv; cbn [orb negb ret].
      + apply Hrest. intros k' Hk'. apply Hfresh. now right.
      + assert (Hpub : (k, v) ∈ public_items d)
          by (now apply public_items_intro).
        rewrite (shape_not_None d k v Hd Hpub).
        pose proof (shape_scalar d k v Hd Hpub) as Hs.
        unfold set_init_convert.
        destruct (registered_base_type_scalar v Hs) as (-> & _).
        cbn [negb andb]. unfold bind at 1. cbn [ret].
        unfold set_init_assign. unfold bind at 1. unfold class_of.
        rewrite Hheap. unfold traits_of_instance, flat_model, Templates_trait.
        cbn [c_templates c_traits app].
        unfold validate_trait, trait_of.
        rewrite (shape_trait_of d k v Hd Hpub).
        cbn [trait_type validate traits_runtime].
        rewrite (traits_validate_scalar v Hs). cbn [ret].
        rewrite dict_set_fresh by (apply Hfresh; left).
        rewrite Hrest.
        * now rewrite <- app_assoc.
        * intros k' Hk'. unfold dict_keys. rewrite map_app. cbn.
          rewrite elem_of_app, list_elem_of_singleton.
          intros [H | ->]; [| contradiction].
          apply (Hfresh k'); [now right | exact H]. }
  apply (Hloop d []); [auto | exact Hnd |].
  intros k _ Hin. now apply elem_of_nil in Hin.
Qed.

Lemma trait_set_shape (d : pydict) :
  same_shape d1 d ->
  trait_set (RT := traits_runtime) (model_traits (public_items d1)) []
    (public_items d)
  = (OK tt, public_items d).
Proof.
  intros Hd.
  assert (Hloop : forall suf dd,
             (forall kv, kv ∈ suf -> kv ∈ public_items d) ->
             NoDup (dict_keys suf) ->
             (forall k, k ∈ dict_keys suf -> k ∉ dict_keys dd) ->
             trait_set (RT := traits_runtime)
               (model_traits (public_items d1)) dd suf
             = (OK tt, dd ++ suf)).
  { induction suf as [| [k v] suf IH]; intros dd Hsub Hn Hfresh;
      cbn [trait_set].
    - now rewrite app_nil_r.
    - cbn in Hn. apply NoDup_cons in Hn as [Hk Hn].
      assert (Hin : (k, v) ∈ public_items d) by (apply Hsub; left).
      unfold validate_trait, trait_of. rewrite (shape_trait_of d k v Hd Hin).
      cbn [trait_type validate traits_runtime].
      rewrite (traits_validate_scalar v (shape_scalar d k v Hd Hin)).
      rewrite dict_set_fresh by (apply Hfresh; left).
      rewrite IH; [now rewrite <- app_assoc | | exact Hn |].
      + intros kv Hkv. apply Hsub. now right.
      + intros k' Hk'. unfold dict_keys. rewrite map_app. cbn.
        rewrite elem_of_app, list_elem_of_singleton.
        intros [H | ->]; [| contradiction].
        apply (Hfresh k'); [now right | exact H]. }
  apply (Hloop (public_items d) []); [auto | now apply shape_public_NoDup |].
  intros k _ Hin. now apply elem_of_nil in Hin.
Qed.

(** Calling the model class on an element. *)
Lemma call_class_shape (d : pydict) (fuel : nat) (cr : cref) (st : state) :
  same_shape d1 d ->
  heap st !! cid cr = Some (flat_model (py_name c) (public_items d1)) ->
  call_class (RT := traits_runtime) (S fuel) cr (VObj c d) st
  = (OK (element_editor cr c d), st).
Proof.
  intros Hd Hheap. cbn [call_class]. unfold call_class_body.
  unfold bind at 1. unfold class_of at 1. rewrite Hheap.
  cbn [flat_model c_kind]. unfold ClassModel___init__.
  cbn [is_None vars]. unfold bind at 1. unfold set_init.
  unfold bind at 1. cbn [ret]. unfold bind at 1.
  rewrite (set_init_loop_shape d _ _ cr st Hd Hheap).
  unfold set_init_finish. unfold bind at 1. unfold class_of at 1.
  rewrite Hheap. unfold traits_of_instance, flat_model, Templates_trait.
  cbn [c_templates c_traits app].
  rewrite (trait_set_shape d Hd). reflexivity.
Qed.

Lemma public_names_shape (d : pydict) :
  same_shape d1 d ->
  public_names (model_traits (public_items d1)) (public_items d)
  = dict_keys (public_items d).
Proof.
  intros Hd. destruct Hshape1 as (Hnd1 & Htempl1 & _).
  pose proof (public_items_keys_NoDup d1 Hnd1) as Hl1.
  unfold public_names, model_traits.
  rewrite (shape_keys d Hd).
  replace (dict_keys (ClassModel_traits ++ _))
    with (dict_keys ClassModel_traits ++ dict_keys (public_items d1))
    by (unfold dict_keys at 3; rewrite map_app; f_equal;
        symmetry; apply dict_keys_map).
  rewrite <- app_assoc.
  rewrite remove_dups_app_disjoint.
  - rewrite remove_dups_app_absorb by auto.
    rewrite remove_dups_NoDup by exact Hl1.
    rewrite List.filter_app. cbn -[dict_get].
    change (ClassModel_traits ++
            map (fun kv => (fst kv, CTrait (scalar_trait (snd kv)) false))
              (public_items d1))
      with (model_traits (public_items d1)).
    assert (Hkeep : forall suf,
               (forall kv, kv ∈ suf -> kv ∈ public_items d1) ->
               List.filter
                 (fun n => match dict_get (model_traits (public_items d1)) n
                           with
                           | Some ct => negb (private ct)
                           | None => true
                           end) (dict_keys suf) = dict_keys suf).
    { induction suf as [| [k v] suf IH]; intros Hsub; [reflexivity |].
      cbn [dict_keys map List.filter fst].
      rewrite (model_trait_of d1 Hnd1 Htempl1 k v) by (apply Hsub; left).
      cbn. f_equal. apply IH. intros kv Hkv. apply Hsub. now right. }
    rewrite Hkeep by auto. reflexivity.
  - apply (bool_decide_unpack _). vm_compute. reflexivity.
  - intros k Hk Hin. apply elem_of_app in Hin as [Hin | Hin];
      now apply (public_key_fresh d1 Htempl1 k Hin).
Qed.

Lemma trait_get_shape (d : pydict) (st : state) :
  same_shape d1 d ->
  trait_get (RT := traits_runtime) (model_traits (public_items d1))
    (public_items d) st
  = (OK (public_items d), st).
Proof.
  intros Hd. unfold trait_get. rewrite (public_names_shape d Hd).
  assert (Hloop : forall suf acc,
             (forall kv, kv ∈ suf -> kv ∈ public_items d) ->
             for_each (dict_keys suf) acc
               (fun elems name =>
                  let* v := getattr (RT := traits_runtime)
                              (model_traits (public_items d1))
                              (public_items d) name in
                  ret (elems ++ [(name, v)])) st
             = (OK (acc ++ suf), st)).
  { induction suf as [| [k v] suf IH]; intros acc Hsub; cbn.
    - now rewrite app_nil_r.
    - unfold bind at 1. unfold bind at 1. unfold getattr.
      rewrite (dict_get_of_NoDup (public_items d) k v
                 (shape_public_NoDup d Hd)) by (apply Hsub; left).
      cbn [ret]. rewrite IH by (intros kv Hkv; apply Hsub; now right).
      now rewrite <- app_assoc. }
  apply (Hloop (public_items d) []). auto.
Qed.

(** [get_object] on the editor of an element: its public attributes as a
    dictionary, or the object itself. *)
Lemma get_object_shape (d : pydict) (fuel : nat) (cr : cref) (st : state) :
  same_shape d1 d ->
  heap st !! cid cr = Some (flat_model (py_name c) (public_items d1)) ->
  get_object (RT := traits_runtime) (S fuel) (element_editor cr c d) true st
  = (OK (VDict (public_items d)), st) /\
  get_object (RT := traits_runtime) (S fuel) (element_editor cr c d) false st
  = (OK (VObj c d), st).
Proof.
  intros Hd Hheap. unfold element_editor. cbn [get_object get_object_body].
  unfold ClassModel_get_object.
  assert (Hconv :
    ClassModel_get_conv (RT := traits_runtime) (get_object fuel) cr
      (public_items d) st = (OK (public_items d), st)).
  { unfold ClassModel_get_conv. unfold bind at 1. unfold class_of at 1.
    rewrite Hheap. unfold traits_of_instance, flat_model, Templates_trait.
    cbn [c_templates c_traits app]. unfold bind at 1.
    rewrite (trait_get_shape d st Hd).
    assert (Hloop : forall suf acc,
               (forall kv, kv ∈ suf -> kv ∈ public_items d) ->
               for_each suf acc
                 (fun (acc : pydict) '((k, x) : string * value) =>
                    let* y :=
                      if isinstance_ClassModel x then get_object fuel x false
                      else ret x in
                    ret (acc ++ [(k, y)])) st
               = (OK (acc ++ suf), st)).
    { induction suf as [| [k v] suf IH]; intros acc Hs; cbn.
      - now rewrite app_nil_r.
      - assert (Hv : is_scalar v = true)
          by (apply (shape_scalar d k v Hd); apply Hs; left).
        unfold bind at 1. unfold bind at 1.
        assert (Hno : isinstance_ClassModel v = false)
          by (destruct v; try discriminate; reflexivity).
        rewrite Hno. cbn [ret].
        rewrite IH by (intros kv Hkv; apply Hs; now right).
        now rewrite <- app_assoc. }
    apply (Hloop (public_items d) []). auto. }
  split; unfold bind at 1; rewrite Hconv; [reflexivity |].
  cbn [obj_dict_update]. rewrite dict_update_same; [reflexivity |].
  intros k v Hin. destruct Hd as (Hnd & _).
  apply dict_get_of_NoDup; [exact Hnd | now apply public_items_elem].
Qed.

(** [cast_back] of the editor of an element to the class of the objects: a
    new object of the class with the public attributes of the element. *)
Lemma cast_back_shape (d : pydict) (fuel : nat) (cr : cref) (st : state) :
  same_shape d1 d ->
  py_noarg_init c = true ->
  heap st !! cid cr = Some (flat_model (py_name c) (public_items d1)) ->
  cast_back (RT := traits_runtime) (get_object (S fuel))
    (element_editor cr c d) (Some (py_user c)) st
  = (OK (VObj c (public_items d)), st).
Proof.
  intros Hd Hinit Hheap. unfold cast_back.
  assert (Hbase : in_registered_base_types
                    (_type_func (element_editor cr c d)) = false)
    by reflexivity.
  rewrite Hbase.
  assert (Htl : bool_decide (_type_func (element_editor cr c d)
                             = py_TraitListObject) = false)
    by reflexivity.
  rewrite Htl. unfold bind at 1. unfold try_except. unfold bind at 1.
  cbn [call_noarg]. rewrite Hinit. cbn [ret]. unfold bind at 1.
  rewrite (proj1 (get_object_shape d fuel cr st Hd Hheap)).
  cbn [lift obj_dict_update].
  unfold dict_update. rewrite (flat_dict_fold _ (shape_public_NoDup d Hd)).
  reflexivity.
Qed.

Section ListOfObjects.
Variable ds : list pydict.
Hypothesis Hds : Forall (same_shape d1) ds.
Variable model lc : cref.
Variable st : state.
Hypothesis Hmodel :
  heap st !! cid model = Some (flat_model (py_name c) (public_items d1)).
Hypothesis Hlc :
  heap st !! cid lc = Some (list_model (py_name c) model c).

(** Calling the list class on the list of objects. *)
Lemma call_class_list (fuel : nat) :
  call_class (RT := traits_runtime) (S (S fuel)) lc
    (VList (map (VObj c) ds)) st
  = (OK (VListClassModel lc (InnerClass model) (Some (py_user c))
           (map (element_editor model c) ds)), st).
Proof.
  cbn [call_class]. unfold call_class_body.
  unfold bind at 1. unfold class_of at 1. rewrite Hlc.
  cbn [list_model c_kind]. unfold ListClassModel___init__.
  unfold bind at 1. cbn [ret is_None negb _is_list andb elements].
  assert (Hloop : forall suf acc,
             Forall (same_shape d1) suf ->
             for_each (map (VObj c) suf)
               (VListClassModel lc (InnerClass model) (Some (py_user c)) acc)
               (fun self elem =>
                  let* elem :=
                    if isinstance_class elem model then ret elem
                    else call_class (RT := traits_runtime) (S fuel) model elem
                  in
                  let '(r, self) := ListClassModel_append self elem in
                  lift r ;; ret self) st
             = (OK (VListClassModel lc (InnerClass model) (Some (py_user c))
                      (acc ++ map (element_editor model c) suf)), st)).
  { induction suf as [| d suf IH]; intros acc Hsuf.
    - cbn. now rewrite app_nil_r.
    - apply Forall_cons_iff in Hsuf as [Hd Hsuf].
      cbn [map for_each]. unfold bind at 1. unfold bind at 1.
      cbn [isinstance_class].
      rewrite (call_class_shape d fuel model st Hd Hmodel).
      unfold ListClassModel_append, element_editor at 1 2.
      cbn [t_edit validate traits_runtime traits_validate isinstance_klass
           isinstance_class].
      rewrite bool_decide_eq_true_2 by reflexivity.
      unfold bind at 1. cbn [lift ret].
      fold (element_editor model c d).
      rewrite IH by exact Hsuf. now rewrite <- app_assoc. }
  exact (Hloop ds [] Hds).
Qed.

(** [get_object] on the list model. *)
Lemma get_object_list (fuel : nat) (as_dict : bool) :
  py_noarg_init c = true ->
  get_object (RT := traits_runtime) (S (S fuel))
    (VListClassModel lc (InnerClass model) (Some (py_user c))
       (map (element_editor model c) ds)) as_dict st
  = (OK (VList (map (fun d => VObj c (public_items d)) ds)), st).
Proof.
  intros Hinit.
  change (get_object (S (S fuel))) with (get_object_body (get_object (S fuel))).
  cbn [get_object_body]. unfold ListClassModel_get_object.
  assert (Hloop : forall suf acc,
             Forall (same_shape d1) suf ->
             for_each (map (element_editor model c) suf) acc
               (fun acc elem =>
                  let* x := cast_back (RT := traits_runtime)
                              (get_object (S fuel)) elem
                              (Some (py_user c)) in
                  ret (acc ++ [x])) st
             = (OK (acc ++ map (fun d => VObj c (public_items d)) suf), st)).
  { induction suf as [| d suf IH]; intros acc Hsuf.
    - cbn. now rewrite app_nil_r.
    - apply Forall_cons_iff in Hsuf as [Hd Hsuf].
      cbn [map for_each]. unfold bind at 1. unfold bind at 1.
      rewrite (cast_back_shape d fuel model st Hd Hinit Hmodel).
      cbn [ret]. rewrite IH by exact Hsuf. now rewrite <- app_assoc. }
  unfold bind at 1. rewrite (Hloop ds [] Hds). reflexivity.
Qed.

End ListOfObjects.

End ObjectList.

(** The editor of a list of objects of one class and one shape, and the
    state it is built in. *)
Lemma object_list_editor (fuel : nat) (c : pyclass) (d1 : pydict)
  (ds : list pydict) (st : state) :
  same_shape d1 d1 ->
  Forall (same_shape d1) ds ->
  no_scalar_handlers st ->
  fst (get_obj_t py_list st) = OK None ->
  fst (get_obj_t (py_user c) st) = OK None ->
  __dynamically_created_classes st !! ("ListOf" +:+ py_name c) = None ->
  get_or_create_editor_for_obj (RT := traits_runtime) (S (S (S fuel)))
    (VList (map (VObj c) (d1 :: ds))) st
  = (OK (VListClassModel
           (CRef (S (length (heap st))) ("ListOf" +:+ py_name c))
           (InnerClass (CRef (length (heap st)) (py_name c)))
           (Some (py_user c))
           (map (element_editor (CRef (length (heap st)) (py_name c)) c)
              (d1 :: ds))),
     list_filed st c (public_items d1)).
Proof.
  intros Hshape1 Hds Hst Hlist Hnone Hlistof.
  pose proof Hshape1 as (Hnd1 & Htempl1 & _).
  unfold get_or_create_editor_for_obj. cbn [isinstance_HasTraits].
  cbn [get_or_create_trait_for]. unfold get_or_create_trait_for_body.
  cbn [isinstance_HasTraits _type_func]. unfold bind at 1.
  unfold bind at 1. cbn [set_depth]. unfold bind at 1.
  set (st1 := {| _api_types_to_trait := _api_types_to_trait st;
                 __dynamically_created_classes :=
                   __dynamically_created_classes st;
                 heap := heap st; stream := stream st;
                 depth := S (depth st) |}).
  assert (Hst1 : no_scalar_handlers st1)
    by (intros v Hv; exact (Hst v Hv)).
  assert (Hdyn : __dynamically_created_classes st !! py_name c = None).
  { unfold get_obj_t, bind, get_state, ret in Hnone. cbn in Hnone.
    destruct (_api_types_to_trait st !! py_name c); [discriminate |].
    destruct (__dynamically_created_classes st !! py_name c);
      [discriminate | reflexivity]. }
  assert (Hl1 : get_obj_t py_list st1 = (OK None, st1)).
  { unfold get_obj_t, bind, get_state, ret in *. cbn in *.
    destruct (_api_types_to_trait st !! "list"); [discriminate |].
    destruct (__dynamically_created_classes st !! "list");
      [discriminate | reflexivity]. }
  assert (Hc1 : get_obj_t (py_user c) st1 = (OK None, st1)).
  { unfold get_obj_t, bind, get_state, ret in *. cbn in *.
    destruct (_api_types_to_trait st !! py_name c); [discriminate |].
    now rewrite Hdyn. }
  rewrite Hl1. unfold bind at 1. cbn [log LOG_LEVEL.MORE_INFO loglevel Nat.leb].
  unfold bind at 1. unfold create_generic_trait. cbn [_is_list].
  unfold bind at 1. cbn [log LOG_LEVEL.INFO loglevel Nat.leb].
  unfold bind at 1. unfold create_list_trait. cbn [elements].
  rewrite (remove_dups_constant (py_user c)
             (map _type_func (map (VObj c) (d1 :: ds))));
    [| discriminate
     | rewrite map_map; apply Forall_map, Forall_forall; reflexivity].
  cbn [map].
  assert (Hbase : in_registered_base_types (py_user c) = false)
    by reflexivity.
  rewrite Hbase. unfold bind at 1. rewrite Hc1. unfold bind at 1.
  cbn [vars]. unfold bind at 1.
  cbn [log LOG_LEVEL.DEBUG loglevel Nat.leb]. unfold bind at 1.
  unfold get_or_create_ModelClass_for_obj. unfold bind at 1.
  cbn [get_state _type_func].
  change (__name__ (py_user c)) with (py_name c).
  change (__dynamically_created_classes st1)
    with (__dynamically_created_classes st).
  rewrite Hdyn.
  rewrite (create_ModelClass_flat c d1 Hnd1 (shape_flat d1 d1 Hshape1)
             Htempl1 _ st1 Hst1).
  cbn [ret]. unfold bind at 1. unfold _get_or_create_ClassListOf.
  unfold bind at 1. cbn [get_state].
  change (__name__ (CRef (length (heap st1)) (py_name c))) with (py_name c).
  cbn [model_filed __dynamically_created_classes].
  rewrite lookup_insert_ne by (intros H; symmetry in H;
                                now apply ListOf_name_ne in H).
  change (__dynamically_created_classes st1)
    with (__dynamically_created_classes st).
  rewrite Hlistof.
  unfold _create_ListClass. unfold bind at 1.
  cbn [log LOG_LEVEL.DEBUG loglevel Nat.leb]. unfold bind at 1.
  unfold new_class at 1. cbn [c_name heap]. unfold bind at 1.
  unfold set_dynamically_created_classes at 1. cbn [ret].
  unfold bind at 1. cbn [log LOG_LEVEL.MORE_INFO loglevel Nat.leb].
  unfold bind at 1.
  match goal with
  | |- context [call_class _ _ _ ?s] => set (st3 := s)
  end.
  rewrite (call_class_list c d1 Hshape1 (d1 :: ds)
             (proj2 (Forall_cons _ _ _) (conj Hshape1 Hds))
             (CRef (length (heap st)) (py_name c))
             (CRef (length (heap st ++ [flat_model (py_name c)
                                           (public_items d1)]))
                   ("ListOf" +:+ py_name c))
             st3).
  - cbn [ret]. unfold list_filed. subst st3 st1. cbn.
    rewrite !List.length_app. cbn [length]. rewrite Nat.add_1_r. reflexivity.
  - subst st3 st1. unfold model_filed. cbn [heap cid].
    rewrite lookup_app_l by (rewrite List.length_app; cbn; lia).
    apply lookup_last.
  - subst st3 st1. unfold model_filed. cbn [heap cid]. apply lookup_last.
Qed.



(** *** Unfit values that are not list-like *)

Lemma dict_set_keys_NoDup {A} (d : list (string * A)) (k : string) (v : A) :
  List.NoDup (dict_keys d) -> List.NoDup (dict_keys (dict_set d k v)).
Proof.
  rewrite <- !NoDup_ListNoDup. intros Hnd.
  destruct (decide (k ∈ dict_keys d)) as [Hin | Hout].
  - now rewrite dict_set_keys.
  - rewrite dict_set_fresh by exact Hout.
    unfold dict_keys. rewrite map_app. cbn [map fst].
    apply NoDup_app. split; [exact Hnd |]. split; [| apply NoDup_singleton].
    intros x Hx Hx'. apply list_elem_of_singleton in Hx'. now subst.
Qed.

Section SetInitKeys.
Context {RT : TraitsRuntime}.
Variable rec_trait_for : value -> M (trait * value).
Variable rec_call : cref -> value -> M value.
Variable c : cref.

(** [mod_traits] never holds a name twice. *)
Lemma set_init_step_NoDup (mod_traits mod' : pydict) (kv : string * value)
  (st st' : state) :
  set_init_step rec_trait_for rec_call c mod_traits kv st = (OK mod', st') ->
  List.NoDup (dict_keys mod_traits) -> List.NoDup (dict_keys mod').
Proof.
  intros H Hnd. unfold set_init_step in H.
  destruct (set_init_skips (fst kv) (snd kv)); [now injection H as <- _ |].
  unfold bind in H.
  destruct (set_init_convert rec_trait_for c (fst kv) (snd kv) st)
    as [[[val' |] | e] st1]; try discriminate;
    [| now injection H as <- _].
  unfold set_init_assign, bind, class_of in H.
  destruct (heap st1 !! cid c) as [r |]; [| discriminate].
  destruct (validate_trait (traits_of_instance r) (fst kv) val') as [x | e].
  - injection H as <- _. now apply dict_set_keys_NoDup.
  - destruct (is_TraitError e); [| discriminate].
    destruct (_is_list val').
    + destruct (elements val') as [| val0 l].
      * now injection H as <- _.
      * unfold _getClassListOf, bind, get_state, ret in H.
        destruct (__dynamically_created_classes st1 !! _) as [tl |];
          [| discriminate].
        destruct (rec_call tl val' st1) as [[obj | e'] st2]; [| discriminate].
        injection H as <- _. now apply dict_set_keys_NoDup.
    + unfold log in H. destruct (_ <=? _); now injection H as <- _.
Qed.

Lemma set_init_loop_NoDup (props mod_traits mod' : pydict) (st st' : state) :
  for_each props mod_traits (set_init_step rec_trait_for rec_call c) st
  = (OK mod', st') ->
  List.NoDup (dict_keys mod_traits) -> List.NoDup (dict_keys mod').
Proof.
  revert mod_traits st. induction props as [| kv props IH];
    intros mod_traits st; cbn [for_each].
  - intros H Hnd. now injection H as <- _.
  - unfold bind. intros H Hnd.
    destruct (set_init_step rec_trait_for rec_call c mod_traits kv st)
      as [[mod1 | e] st1] eqn:Hstep; [| discriminate].
    apply (IH _ _ H). eapply set_init_step_NoDup; eauto.
Qed.

End SetInitKeys.

(** X22.  The lenient drop in [set_init], for a value that is not
    list-like.  Take a field that the loop does not skip and whose value,
    after the conversion of lines 210-221, neither validates against the
    trait of the field nor is list-like.  The iteration for that field
    raises nothing, leaves [mod_traits] as it was and logs exactly one line
    at level [ERROR].  When the fields that follow are then collected
    without an exception and their values validate, [set_init] returns: the
    attribute of the unfit field is what it was before the call, every
    attribute that was not collected is what it was, and every collected
    attribute holds its value as its trait accepted it. *)
Theorem set_init_drops_unfit_field
  (RT : TraitsRuntime) (rec_trait_for : value -> M (trait * value))
  (rec_call : cref -> value -> M value) (c : cref) (d pre post : pydict)
  (key : string) (val val' : value) (mod1 modF : pydict)
  (st st1 st2 stF : state) (r rF : class_rec) :
  for_each pre [] (set_init_step rec_trait_for rec_call c) st
  = (OK mod1, st1) ->
  set_init_skips key val = false ->
  set_init_convert rec_trait_for c key val st1 = (OK (Some val'), st2) ->
  heap st2 !! cid c = Some r ->
  validate (trait_of (traits_of_instance r) key) val' = None ->
  _is_list val' = false ->
  ~ In key (dict_keys pre) -> ~ In key (dict_keys post) ->
  for_each post mod1 (set_init_step rec_trait_for rec_call c)
    (snd (log LOG_LEVEL.ERROR
            (msg_exception
               (TraitError "the value does not validate against the trait"))
            st2))
  = (OK modF, stF) ->
  heap stF !! cid c = Some rF ->
  all_validate (traits_of_instance rF) modF ->
  let st3 :=
    snd (log LOG_LEVEL.ERROR
           (msg_exception
              (TraitError "the value does not validate against the trait"))
           st2) in
  stream st3
  = stream st2
    ++ [LogLine LOG_LEVEL.ERROR (depth st2)
          (msg_exception
             (TraitError "the value does not validate against the trait"))] /\
  set_init_step rec_trait_for rec_call c mod1 (key, val) st1
  = (OK mod1, st3) /\
  exists d',
    set_init rec_trait_for rec_call c d (VDict (pre ++ (key, val) :: post)) st
    = (OK d', stF) /\
    dict_get d' key = dict_get d key /\
    dict_get modF key = None /\
    (forall k, ~ In k (dict_keys modF) -> dict_get d' k = dict_get d k) /\
    (forall k v,
       In (k, v) modF ->
       is_Some (dict_get d' k) /\
       dict_get d' k = validate (trait_of (traits_of_instance rF) k) v).
Proof.
  intros Hpre Hskip Hconv Hr Hval Hlist Hkpre Hkpost Hpost HrF Hall st3.
  assert (Hstep :
    set_init_step rec_trait_for rec_call c mod1 (key, val) st1
    = (OK mod1, st3)).
  { unfold set_init_step. cbn [fst snd]. rewrite Hskip.
    unfold bind at 1. rewrite Hconv.
    unfold set_init_assign, bind, class_of. rewrite Hr.
    unfold validate_trait. rewrite Hval. cbn [is_TraitError].
    rewrite Hlist. reflexivity. }
  split; [reflexivity |]. split; [exact Hstep |].
  destruct (trait_set_all_validate (traits_of_instance rF) d modF Hall)
    as (d' & Hset & Hother & Hin).
  assert (HmodF : dict_get modF key = None).
  { rewrite (set_init_loop_other_keys _ _ _ _ _ _ _ _ _ Hpost Hkpost).
    now rewrite (set_init_loop_other_keys _ _ _ _ _ _ _ _ _ Hpre Hkpre). }
  assert (Hkey : ~ In key (dict_keys modF)).
  { intros Hk. apply dict_get_In_Some in Hk as [v Hv]. congruence. }
  assert (Hnd : List.NoDup (dict_keys modF)).
  { apply (set_init_loop_NoDup _ _ _ _ _ _ _ _ Hpost).
    apply (set_init_loop_NoDup _ _ _ _ _ _ _ _ Hpre). constructor. }
  exists d'. split; [| split; [now apply Hother | split; [exact HmodF |]]].
  - unfold set_init. unfold bind at 1. cbn [ret].
    unfold bind at 1. rewrite for_each_app. unfold bind at 1.
    rewrite Hpre. cbn [for_each]. unfold bind at 1. rewrite Hstep.
    fold st3 in Hpost. rewrite Hpost.
    unfold set_init_finish, bind, class_of. rewrite HrF, Hset. reflexivity.
  - split; [exact Hother |]. intros k v Hkv.
    rewrite (Hin k v Hnd Hkv). split; [| reflexivity].
    exact (proj1 (Forall_forall _ _) Hall (k, v)
             (proj2 (list_elem_of_In _ _) Hkv)).
Qed.

Lemma set_init_drops_unfit_field_witness :
  exists d',
    set_init (get_or_create_trait_for 5) (call_class 5) Account []
      (VDict [("number", VInt 5); ("active", VInt 1); ("note", VStr "n")])
      (Account_state [])
    = (OK d',
       snd (log LOG_LEVEL.ERROR
              (msg_exception
                 (TraitError "the value does not validate against the trait"))
              (Account_state []))) /\
    dict_get d' "active" = None /\
    dict_get d' "number" = Some (VInt 5) /\
    dict_get d' "note" = Some (VStr "n").
Proof.
  destruct (set_init_drops_unfit_field traits_runtime
              (get_or_create_trait_for 5) (call_class 5) Account []
              [("number", VInt 5)] [("note", VStr "n")] "active" (VInt 1)
              (VInt 1) [("number", VInt 5)]
              [("number", VInt 5); ("note", VStr "n")]
              (Account_state []) (Account_state []) (Account_state [])
              (snd (log LOG_LEVEL.ERROR
                      (msg_exception
                         (TraitError
                            "the value does not validate against the trait"))
                      (Account_state [])))
              (Account_rec []) (Account_rec []))
    as (_ & _ & d' & Hrun & Hkey & _ & _ & Hin);
    try (vm_compute; reflexivity).
  - intros [H | []]. discriminate H.
  - intros [H | []]. discriminate H.
  - repeat constructor; vm_compute; eauto.
  - exists d'. split; [exact Hrun |]. split; [exact Hkey |]. split.
    + rewrite (proj2 (Hin "number" (VInt 5) (or_introl eq_refl))).
      reflexivity.
    + rewrite (proj2 (Hin "note" (VStr "n") (or_intror (or_introl eq_refl)))).
      reflexivity.
Defined.
